(* ===== verification/_CoqProject ===== *)
-Q . S2P
Prelude.v
JsRuntime.v
CountUp.v
CounterPage.v
CounterSpec.v
CounterLoad.v
QuoteForm.v
Json.v
JsonEncode.v
CounterText.v
Submission.v
RequestSpec.v
Delivery.v
