(* ===== verification/Prelude.v ===== *)
(** * A verification library for the oneauto-salvage landing-page script

    The repository has one program file, [src/assets/view/js/part.js]
    (572 lines of browser JavaScript on jQuery). It holds two independent
    parts that share only the page and the browser event loop:

    - the counter engine (lines 1-226): [countUp] animates one statistic
      from 0 to its target with an ease-out curve, formatting every frame
      by a suffix rule; [onIntersection] starts the animation of a
      container when an IntersectionObserver reports it visible;
      [initializeCounters] checks the four containers, retries after
      1000 ms when one is missing, registers the observer and arms a 10 s
      fallback timer; [triggerCountersImmediately] starts every container
      not yet counted. The CSS class [counted] on a container is the only
      guard against animating it twice. Three load-time entry points
      (jQuery ready + 500 ms, DOMContentLoaded + 100 ms, the readyState
      check) each call [initializeCounters].
    - the quote form controller (lines 228-573): a submit handler that
      reads ten fields, checks seven of them, builds an HTML e-mail body
      and a subject, then [sendEmail] tries EmailJS when present and
      otherwise (or on rejection) [fallbackEmailMethod] posts to
      [send_email.php] and interprets the reply: JSON with a [success]
      flag, else a substring sniff for "success" or "sent". Banners are
      inserted after the form by [showSuccessMessage] /
      [showErrorMessage] and removed by timers (10 s and 15 s, each
      followed by a 500 ms fade).

    ** Files, in dependency order

    - [Prelude] (this file): the [oneauto_scope] notations, the
      development's tactics and the [oneauto] hint database, and the
      generic lemmas on strings (substring search, as JavaScript's
      [String.prototype.includes]) and lists that every component uses.
    - [JsRuntime]: the JavaScript values the script handles ([undefined],
      [null], booleans, numbers, strings, arrays, objects), truthiness and
      [||], [ToString] and string concatenation, [Math.round],
      [Number.prototype.toLocaleString] in the en-US locale, and ASCII
      [toLowerCase]. These are the platform operations the code calls.
    - [CountUp]: the per-frame computation of [countUp] (lines 25-71):
      progress, easing, formatting by suffix, the frame loop driven by
      [requestAnimationFrame]; and the two dispatch tables (lines 89-104
      and 189-194).
    - [CounterPage]: the page state of the counter engine (the four
      containers, their [counted] class, the observers, the timer queue,
      the pending animation frames) and the handlers [onIntersection],
      [initializeCounters], the 10 s fallback closure,
      [triggerCountersImmediately], [window.debugCounters], as a step
      relation of the browser event loop.
    - [CounterSpec]: the spec's per-counter state machine
      [Pending -> Animating -> Done] and the refinement of it by
      [CounterPage], through the abstraction [phase_of].
    - [CounterLoad]: the composition of the load-time timers, the
      observer's fallback, the trigger and the frame loop into one run
      from the script load to the final texts.
    - [QuoteForm]: the form data read by the submit handler, the seven
      required-field checks with their messages and border cues (lines
      248-318), the subject line and [createEmailTableContent]
      (lines 329-405).
    - [Json]: [JSON.parse] as the fallback reply handler uses it.
    - [JsonEncode]: a JSON serializer (the grammar of [JSON.stringify],
      numbers as mantissa and exponent) standing for what
      [send_email.php] sends, and the round trip through [Json]'s parser.
    - [CounterText]: a reader of the counter texts ([toLocaleString],
      [ToString]) and the proof that each frame's text determines the
      number it shows.
    - [Submission]: a state-and-exception monad for the handlers; the
      submit handler, [sendEmail], [fallbackEmailMethod] with its success
      and error callbacks, [showSuccessMessage], [showErrorMessage], the
      banner timers, and the field focus/change and select-click handlers.
    - [RequestSpec]: the per-attempt machine [Unsent -> Pending ->
      Answered] of the delivery attempts and its refinement by
      [Submission], through the abstraction [req_phase].
    - [Delivery]: the composition of the form checks, the submit
      handler, the fallback POST, the reply the PHP script writes and the
      success callback into one exchange from submit to banner.

    ** What the theorems show (by group)

    The claims are numbered C1-C35 in the doc comment of each theorem,
    most important first.
    - The counter engine ([CounterPage], [CounterSpec]): whatever the
      interleaving of observer reports, timers, frames and load events, a
      container is animated at most once and only once it is marked
      [counted] (C1, by rule induction over [reachable] through
      the invariant [claim_inv]); the page refines the spec's per-counter
      machine [Pending -> Animating -> Done]: phases only move along it,
      so no counter is claimed twice or restarted (C2);
      every started animation finishes: the first frame at or after the
      end of its duration writes the exact target text and leaves the
      counter [Done], whatever the other counters' callbacks do
      (C3, using the invariant that no counter has two
      frames requested);
      the 10 s fallback and a browser without IntersectionObserver start
      every container not yet started (C28,
      C29); composed, from the script load
      on a page with the four containers, the due timers and one late
      frame leave every heading showing its configured target, even when
      the observer never reports (C4,
      [CounterLoad]); with a container missing,
      [initializeCounters] retries every second without bound and
      changes nothing else (C30).
    - One animation ([CountUp]): its final frame shows the formatted
      target of each of the four configurations (C21);
      another frame is requested exactly while the duration has not
      elapsed (C22); the frame loop stops
      (C23); the value stays within [0, target] and
      is monotone from the start (C24,
      C25), but a clock reading before the start shows
      a negative value (C26).
    - The counter texts ([CounterText]): the text of a frame determines
      the rounded value it shows, for each suffix rule
      (C27); the proof reads the texts back with
      a reader of the [toLocaleString] and [ToString] formats
      ([read_int_roundtrip], a lemma on the runtime model).
    - The form checks ([QuoteForm]): the e-mail is built and sent exactly
      when the seven required fields, year, model, part name, name,
      e-mail, mobile and ZIP code, are truthy (C5); a
      single missing field gets exactly its message and its red border
      (C31); the spec's Jane Doe scenario gets the
      expected subject and rows ([jane_doe_scenario]); the e-mail body
      has one labelled row per field (C35); the checks read
      the required fields and nothing else ([validate_reads_required_only]).
    - Delivery and banners ([Submission]): an invalid form sends nothing
      and alerts its message (C6); a valid form sends
      the subject and body through EmailJS or the PHP fallback
      (C7); a JSON reply is judged by its [success] flag
      (C10, C11), and for every
      error text X, whatever bytes it holds, the JSON text of
      [{success: false, error: X}] shows a banner with X
      (C12); a non-JSON reply containing
      "sent" is taken for a success, even "Error: message not sent"
      (C13); a reply jQuery has already parsed
      throws out of the handler and shows nothing
      (C14); the loader is shown only while a
      request is pending (C15) and answering the
      pending requests always brings the form back to idle
      (C16); the banners keep distinct numbers with at
      most one error banner (C18); the invariants hold
      over every reachable page by rule induction on [freachable]; the
      15 s timer of an error banner removes every error banner present
      when it fires, also a newer one (C19),
      and the 10 s timer of a success banner removes every banner
      (C20); the 30 s timeout answers with
      its own message (C32); an EmailJS rejection falls
      back to the PHP script (C33); the select
      click handler is advisory and touches only the model field's border
      (C34).
    - The event model ([RequestSpec]): the numbering of the delivery
      attempts, one per [send], each answered at most once
      ([request_lifecycle], [answer_once]); these are facts of the
      environment's bookkeeping, not of part.js, and the [Delivery]
      proofs use its invariant [req_inv].
    - The whole exchange ([Delivery]): on every reachable page, a valid
      form submitted without EmailJS and answered with the JSON text of
      any reply of the spec's format sends one POST with the form, its
      subject and body, and ends with the banner the reply asks for, the
      loader hidden and the pending requests as before (C8);
      with EmailJS loaded and rejecting the send, the same form goes out
      by the POST and the page ends the same way (C9);
      a second submit while the first POST is pending sends a second
      POST, and the first answer hides the loader while that one is still
      pending (C17);
      the proof composes [QuoteForm]'s checks, the submit handler, the
      request invariant of [RequestSpec], the serializer round trip of
      [JsonEncode] and the success callback.
    - [JSON.parse] ([Json], [JsonEncode]), lemmas on the platform model
      that the reply theorems use: the fuel given to the parser always
      suffices ([json_parse_total]); the parser reads back every value a
      JSON serializer writes, strings with any bytes, numbers, nested
      arrays and objects ([json_roundtrip], by induction over values with
      the fuel bounded by the length of the text), which is what lets
      C12 hold for every error text; the values
      [JSON.parse] returns contain no [undefined] ([JSON_parse_range]).

    ** Bounds and fuel

    [JSON.parse] is a structural recursion on fuel; [json_parse_text]
    gives it [2 * length text + 3], and [json_parse_total] proves that no text exhausts
    it (each nesting level consumes at least one character); the round
    trip needs only as much fuel as the text is long. The frame
    loop [CountUp.run_frames] is driven by the list of clock readings
    [requestAnimationFrame] delivers, so it terminates structurally; C23
    proves that it stops requesting frames once a reading reaches the
    duration. Times are integers of milliseconds ([Z]), counter values
    rationals ([Q]) rounded by [Math.round] only for display. The run of
    [CounterLoad] uses the code's own delays (100 ms to the first
    [initializeCounters], 10 s to the fallback, 2500 ms of animation)
    and holds for every frame reading at or after their sum.

    ** Not modelled

    The scroll-triggered animations and the CSS/markup of the page
    (visual only: the counter engine reads only the ids of the four
    containers and their headings, modelled from the spec), [console]
    logging, the browser's rendering and the [fadeOut] animation (its
    end is a 500 ms timer), the PHP script and the EmailJS service
    (outside the repository; only the outcome each reports reaches the
    page, and of the script only its reply format, from the spec, is
    modelled, by the serializer of [JsonEncode]),
    IEEE-754 rounding of the counter arithmetic and UTF-16 code units
    (see [JsRuntime]). *)

From stdpp Require Export base list strings.
From Stdlib Require Export ZArith Lia.
From Stdlib Require Import Ascii String.

(** ** Notation scope of the development *)

Declare Scope oneauto_scope.
Delimit Scope oneauto_scope with oa.
Open Scope oneauto_scope.

(** ** The development's hint database *)

Create HintDb oneauto discriminated.
Create Rewrite HintDb oneauto_rw.

(** ** Substring search, as [String.prototype.includes]

    [prefixb p s] tests that [p] is a prefix of [s]; [includes s p] tests
    that [p] occurs in [s] at some position, which is what the code's
    [response.toLowerCase().includes('success')] asks. *)

Fixpoint prefixb (p s : string) : bool :=
  match p, s with
  | EmptyString, _ => true
  | String a p', String b s' => if Ascii.eqb a b then prefixb p' s' else false
  | String _ _, EmptyString => false
  end.

Fixpoint includes (s p : string) : bool :=
  prefixb p s ||
  match s with
  | EmptyString => false
  | String _ s' => includes s' p
  end.

Notation "s ∋ₛ p" := (includes s p = true) (at level 70) : oneauto_scope.

(** ** Tactics *)

Ltac invc H := inversion H; subst; clear H.


(** ** Lemmas on [prefixb] and [includes] *)

(** [String.append] is [simpl never] under stdpp; this is its cons
    equation. *)
Lemma string_app_cons (a : ascii) (s t : string) :
  String a s +:+ t = String a (s +:+ t).
Proof. reflexivity. Qed.

Lemma prefixb_app (p s : string) : prefixb p (p +:+ s) = true.
Proof.
  induction p as [|a p IH]; [destruct s; reflexivity|].
  simpl. rewrite Ascii.eqb_refl. exact IH.
Qed.

Lemma prefixb_correct (p s : string) :
  prefixb p s = true <-> exists r, s = p +:+ r.
Proof.
  revert s; induction p as [|a p IH]; intros s.
  - split; [intros _; exists s; reflexivity | reflexivity].
  - destruct s as [|b s]; simpl.
    + split; [discriminate | intros [r Hr]; discriminate].
    + destruct (Ascii.eqb_spec a b) as [->|Hne].
      * rewrite IH. split; intros [r Hr]; exists r;
          rewrite ?string_app_cons in *; congruence.
      * split; [discriminate | intros [r Hr]; rewrite string_app_cons in Hr; congruence].
Qed.

Lemma includes_correct (s p : string) :
  includes s p = true <-> exists l r, s = l +:+ p +:+ r.
Proof.
  induction s as [|a s IH].
  - simpl. rewrite orb_false_r, prefixb_correct. split.
    + intros [r Hr]. exists EmptyString, r. exact Hr.
    + intros [l [r Hr]]. destruct l; [exists r; exact Hr | discriminate].
  - simpl. rewrite orb_true_iff, prefixb_correct, IH. split.
    + intros [[r Hr] | [l [r Hr]]].
      * exists EmptyString, r. exact Hr.
      * exists (String a l), r. rewrite Hr. reflexivity.
    + intros [[|b l] [r Hr]].
      * left. exists r. exact Hr.
      * right. inversion Hr; subst. exists l, r. reflexivity.
Qed.

Lemma string_app_empty_r (s : string) : s +:+ EmptyString = s.
Proof. induction s as [|a s IH]; [reflexivity | now rewrite string_app_cons, IH]. Qed.

(** A [Forall] of implications, discharged by a [forallb]. *)
Lemma Forall_forallb_impl {A} (b : A -> bool) (Q : A -> Prop) (l : list A) :
  Forall (fun x => b x = true -> Q x) l -> forallb b l = true -> Forall Q l.
Proof.
  induction 1 as [|x l Hx _ IH]; cbn; [constructor|].
  intros [Hb Hl]%andb_true_iff. constructor; auto.
Qed.

Lemma string_length_app (a b : string) :
  String.length (a +:+ b) = (String.length a + String.length b)%nat.
Proof. induction a as [|x a IH]; cbn; [reflexivity | now rewrite <- IH]. Qed.

Lemma string_app_cancel_l (p a b : string) : p +:+ a = p +:+ b -> a = b.
Proof. induction p as [|x p IH]; [easy|]. rewrite !string_app_cons. intros [= H]. exact (IH H). Qed.

Lemma string_app_cancel_r (a b s : string) : a +:+ s = b +:+ s -> a = b.
Proof.
  revert b. induction a as [|x a IH]; intros [|y b] H; try reflexivity.
  1,2: apply (f_equal String.length) in H; rewrite !string_length_app in H; cbn [String.length] in H; lia.
  - rewrite !string_app_cons in H. injection H as -> H. now rewrite (IH b H).
Qed.

Lemma string_app_assoc (a b c : string) : (a +:+ b) +:+ c = a +:+ (b +:+ c).
Proof.
  induction a as [|x a IH]; [reflexivity|].
  now rewrite !string_app_cons, IH.
Qed.

Lemma includes_refl (s : string) : s ∋ₛ s.
Proof.
  apply includes_correct. exists EmptyString, EmptyString.
  symmetry. apply string_app_empty_r.
Qed.

Lemma includes_app_l (s t p : string) : s ∋ₛ p -> (s +:+ t) ∋ₛ p.
Proof.
  rewrite !includes_correct. intros [l [r ->]].
  exists l, (r +:+ t). rewrite !string_app_assoc. reflexivity.
Qed.

Lemma includes_app_r (s t p : string) : t ∋ₛ p -> (s +:+ t) ∋ₛ p.
Proof.
  rewrite !includes_correct. intros [l [r ->]].
  exists (s +:+ l), r. rewrite !string_app_assoc. reflexivity.
Qed.

Lemma includes_empty_inv (p : string) : EmptyString ∋ₛ p -> p = EmptyString.
Proof.
  rewrite includes_correct. intros [[|] [r Hr]]; [|discriminate].
  destruct p; [reflexivity | discriminate].
Qed.

(** [suffixb p s]: [p] ends [s]. *)
Fixpoint suffixb (p s : string) : bool :=
  String.eqb p s ||
  match s with
  | EmptyString => false
  | String _ s' => suffixb p s'
  end.

Lemma suffixb_correct (p s : string) : suffixb p s = true -> exists l, s = l +:+ p.
Proof.
  induction s as [|a s IH]; cbn [suffixb]; rewrite orb_true_iff, String.eqb_eq.
  - intros [->|H]; [now exists EmptyString | discriminate].
  - intros [->|H]; [now exists EmptyString|].
    destruct (IH H) as [l ->]. now exists (String a l).
Qed.

(** A needle made of the end of a literal piece [a] and the interpolated
    value [v] that follows it occurs in the rendered template. *)
Lemma includes_hole (a v r p : string) :
  suffixb p a = true -> (a +:+ (v +:+ r)) ∋ₛ (p +:+ v).
Proof.
  intros H. destruct (suffixb_correct p a H) as [l ->].
  apply includes_correct. exists l, r. now rewrite !string_app_assoc.
Qed.

#[export] Hint Resolve includes_refl includes_app_l includes_app_r : oneauto.
#[export] Hint Rewrite string_app_assoc string_app_empty_r : oneauto_rw.

(** ** Folds *)

(** A property kept by every step of a [fold_left] holds of its result. *)
Lemma fold_left_invariant {A B} (P : A -> Prop) (f : A -> B -> A) (l : list B) (a : A) :
  (forall acc x, P acc -> P (f acc x)) -> P a -> P (fold_left f l a).
Proof. intros Hf. revert a. induction l as [|x l IH]; simpl; auto. Qed.

(** The same, where each step may use that its element is in the list. *)
Lemma fold_left_invariant_in {A B} (P : A -> Prop) (f : A -> B -> A) (l : list B) (a : A) :
  (forall acc x, x ∈ l -> P acc -> P (f acc x)) -> P a -> P (fold_left f l a).
Proof.
  revert a. induction l as [|x l IH]; intros a Hf Ha; simpl; [exact Ha|].
  apply IH; [intros acc y Hy; apply Hf; now apply elem_of_cons; right|].
  apply Hf; [apply elem_of_cons; now left | exact Ha].
Qed.

(** A [fold_left] whose every step is related to its input by a preorder
    is related to its start. *)
Lemma fold_left_preorder {A B} (R : relation A) `{!PreOrder R} (f : A -> B -> A) (l : list B) (a : A) :
  (forall acc x, R acc (f acc x)) -> R a (fold_left f l a).
Proof.
  intros Hf. revert a. induction l as [|x l IH]; intros a; simpl; [reflexivity|].
  etransitivity; [apply Hf | apply IH].
Qed.

(** Filtering out more elements first never raises a count. *)
Lemma length_filter_filter {A} (P Q : A -> Prop) `{!forall x, Decision (P x), !forall x, Decision (Q x)}
    (l : list A) :
  (List.length (filter P (filter Q l)) <= List.length (filter P l))%nat.
Proof.
  induction l as [|x l IH]; [reflexivity|].
  rewrite (filter_cons Q x l), (filter_cons P x l).
  destruct (decide (Q x)), (decide (P x)); rewrite ?filter_cons;
    try destruct (decide (P x)); simpl; try contradiction; lia.
Qed.

(** ** Timer queues

    A [setTimeout] queue as the list of (due time, callback) pairs in
    scheduling order. The browser runs the callback with the earliest
    due time, and among equal due times the one scheduled first. *)

Definition next_timer {T} (ts : list (Z * T)) : option (nat * (Z * T)) :=
  match ts with
  | [] => None
  | t0 :: _ =>
      let m := foldr (fun t acc => Z.min t.1 acc) t0.1 ts in
      list_find (fun t => t.1 = m) ts
  end.

Lemma next_timer_single {T} (t : Z * T) : next_timer [t] = Some (0%nat, t).
Proof. unfold next_timer. cbn. rewrite Z.min_id. cbn. now rewrite decide_True. Qed.

Lemma next_timer_none {T} (ts : list (Z * T)) : next_timer ts = None <-> ts = [].
Proof.
  split; [|intros ->; reflexivity].
  destruct ts as [|t0 ts]; [reflexivity|]. unfold next_timer. intros H.
  apply list_find_None in H. exfalso.
  assert (Hin : forall l, exists t, t ∈ t0 :: l /\
                  t.1 = foldr (fun (t : Z * T) acc => Z.min t.1 acc) t0.1 l).
  { induction l as [|x l IH].
    - exists t0. split; [left | reflexivity].
    - destruct IH as [t [Ht Heq]]. cbn.
      destruct (Z.le_ge_cases x.1 (foldr (fun (t : Z * T) acc => Z.min t.1 acc) t0.1 l)).
      + exists x. split; [right; left | lia].
      + exists t. split; [|lia]. apply elem_of_cons in Ht as [->|Ht]; [left | right; right; exact Ht]. }
  destruct (Hin (t0 :: ts)) as [t [Ht Heq]].
  assert (Ht' : t ∈ t0 :: ts) by (apply elem_of_cons in Ht as [->|Ht]; [left | exact Ht]).
  rewrite Forall_forall in H. exact (H t Ht' Heq).
Qed.

(** Find, in a template rendered as [lit +:+ (value +:+ (lit +:+ ...))],
    the literal piece whose end and the value after it form the needle. *)
Ltac solve_hole :=
  repeat first
    [ apply includes_hole; vm_compute; reflexivity
    | apply includes_app_r ].
