(* ===== verification/JsRuntime.v ===== *)
(** * The JavaScript values and platform operations the script uses

    [part.js] handles form-field values ([.val()] gives a string, or
    [undefined] when no element matches, or [null] for a select with no
    option), the reply of [send_email.php] and the result of
    [JSON.parse]. This file models those values as [jsval] and the
    language and platform operations the code applies to them:
    truthiness (the guards [!formData.year], [if (result.success)]),
    [a || b], [ToString] as used by [+] on strings, property access
    [v.p] (which throws on [null] and [undefined]), [Math.round],
    [Number.prototype.toLocaleString] with the en-US locale the spec
    assumes, and [String.prototype.toLowerCase].

    Modelling choices, each checked against where the code uses it:
    - JavaScript strings are UTF-16; here a string is a Stdlib [string]
      of bytes. Every literal the code compares against is ASCII.
    - Numbers read from JSON are exact decimals [m * 10^e]; IEEE
      rounding, overflow to [Infinity] and underflow to [0] are not
      modelled. Numbers computed by the counter engine are rationals [Q]
      in [CountUp].
    - Property lookup reads an object's own properties, the last
      duplicate key winning as in [JSON.parse]; prototype properties are
      not modelled, and the code only reads [success] and [error], which
      [Object.prototype] does not define.
    - [toLowerCase] lowers ASCII letters only. The code searches the
      lowered text for "success" and "sent". The only non-ASCII code
      points whose lower case contains an ASCII letter are U+0130 (to
      "i" and a combining dot) and U+212A (to "k"); neither letter
      occurs in the two needles, so the searches give the same answer
      as with the full Unicode mapping. *)

From S2P Require Import Prelude.
From Stdlib Require Import Ascii String DecimalString QArith Qround.

Local Open Scope Z_scope.

(** ** Values *)

(** A decimal number [mant * 10 ^ expo]. *)
Record decimal := mkDecimal { mant : Z; expo : Z }.

#[warnings="-register-all"]
Inductive jsval :=
| JUndefined
| JNull
| JBool (b : bool)
| JNum (d : decimal)
| JStr (s : string)
| JArr (l : list jsval)
| JObj (props : list (string * jsval)).

(** ** Truthiness and [||] *)

Definition truthy (v : jsval) : bool :=
  match v with
  | JUndefined | JNull => false
  | JBool b => b
  | JNum d => negb (Z.eqb (mant d) 0)
  | JStr s => negb (String.eqb s EmptyString)
  | JArr _ | JObj _ => true
  end.

(** [a || b] evaluates to [a] when [a] is truthy and to [b] otherwise. *)
Definition js_or (a b : jsval) : jsval := if truthy a then a else b.

(** ** Decimal digits *)

Definition digits_N (n : N) : string := NilEmpty.string_of_uint (N.to_uint n).

(** [ToString] of an integer-valued number. *)
Definition Z_to_string (z : Z) : string :=
  if Z.ltb z 0 then "-" +:+ digits_N (Z.to_N (- z)) else digits_N (Z.to_N z).

(** Thousands separators, inserted every three digits from the right;
    the argument is the digit list reversed. *)
Fixpoint commas_rev (l : list ascii) : list ascii :=
  match l with
  | a :: b :: c :: (_ :: _) as rest => a :: b :: c :: ","%char :: commas_rev rest
  | _ => l
  end.

Definition group_thousands (digits : string) : string :=
  string_of_list_ascii
    (rev (commas_rev (rev (list_ascii_of_string digits)))).

(** [Number.prototype.toLocaleString()] in the en-US locale, on an
    integer (the code applies it to [Math.round(...)] only). *)
Definition to_locale_string (z : Z) : string :=
  if Z.ltb z 0 then "-" +:+ group_thousands (digits_N (Z.to_N (- z)))
  else group_thousands (digits_N (Z.to_N z)).

(** ** [Math.round] *)

(** [Math.round(x)] is the integer closest to [x], ties toward
    [+Infinity]: [floor (x + 1/2)]. *)
Definition js_round (x : Q) : Z := Qfloor (x + (1 # 2))%Q.

(** ** [ToString] of decimals (Number::toString)

    The ECMAScript algorithm: write the value as [s * 10^(n-k)] with [s]
    a [k]-digit integer not divisible by 10, then choose between plain
    digits, a decimal point, leading zeros or exponent notation by [n]. *)

Fixpoint strip_zeros (fuel : nat) (m e : Z) : Z * Z :=
  match fuel with
  | O => (m, e)
  | S f => if Z.eqb (Z.rem m 10) 0 then strip_zeros f (Z.quot m 10) (e + 1) else (m, e)
  end.

Fixpoint zeros (n : nat) : string :=
  match n with O => EmptyString | S k => String "0" (zeros k) end.

Definition exponent_part (n : Z) : string :=
  "e" +:+ (if Z.ltb (n - 1) 0 then "-" else "+") +:+ digits_N (Z.to_N (Z.abs (n - 1))).

Definition number_to_string (d : decimal) : string :=
  if Z.eqb (mant d) 0 then "0" else
  let sign := if Z.ltb (mant d) 0 then "-" else EmptyString in
  let '(s, e) := strip_zeros (Z.to_nat (Z.log2_up (Z.abs (mant d)) + 1)) (Z.abs (mant d)) (expo d) in
  let ds := digits_N (Z.to_N s) in
  let k := Z.of_nat (String.length ds) in
  let n := e + k in
  sign +:+
  (if Z.leb k n && Z.leb n 21 then ds +:+ zeros (Z.to_nat (n - k))
   else if Z.ltb 0 n && Z.leb n 21 then
     String.substring 0 (Z.to_nat n) ds +:+ "." +:+
     String.substring (Z.to_nat n) (Z.to_nat (k - n)) ds
   else if Z.ltb (-6) n && Z.leb n 0 then "0." +:+ zeros (Z.to_nat (- n)) +:+ ds
   else if Z.eqb k 1 then ds +:+ exponent_part n
   else String.substring 0 1 ds +:+ "." +:+ String.substring 1 (Z.to_nat (k - 1)) ds
        +:+ exponent_part n).

(** ** [ToString] of values, as [+] on a string uses it *)

Fixpoint to_string (v : jsval) : string :=
  match v with
  | JUndefined => "undefined"
  | JNull => "null"
  | JBool true => "true"
  | JBool false => "false"
  | JNum d => number_to_string d
  | JStr s => s
  | JArr l =>
      (* Array.prototype.join(","): null and undefined elements print as
         the empty string. *)
      (fix join (l : list jsval) : string :=
         match l with
         | [] => EmptyString
         | [x] => match x with JUndefined | JNull => EmptyString | _ => to_string x end
         | x :: rest =>
             (match x with JUndefined | JNull => EmptyString | _ => to_string x end)
             +:+ "," +:+ join rest
         end) l
  | JObj _ => "[object Object]"
  end.

(** [s + v] for a string [s]. *)
Definition str_plus (s : string) (v : jsval) : string := s +:+ to_string v.

(** ** Property access *)

(** The error [v.p] raises on [null] and [undefined]. *)
Inductive js_error :=
| TypeError (msg : string)
| SyntaxError (msg : string).

Fixpoint assoc_last (k : string) (props : list (string * jsval)) : option jsval :=
  match props with
  | [] => None
  | (k', v) :: rest =>
      match assoc_last k rest with
      | Some w => Some w
      | None => if String.eqb k k' then Some v else None
      end
  end.

Definition get_prop (v : jsval) (k : string) : js_error + jsval :=
  match v with
  | JUndefined => inl (TypeError ("Cannot read properties of undefined (reading '" +:+ k +:+ "')"))
  | JNull => inl (TypeError ("Cannot read properties of null (reading '" +:+ k +:+ "')"))
  | JObj props => inr (match assoc_last k props with Some w => w | None => JUndefined end)
  | _ => inr JUndefined
  end.

(** ** [String.prototype.toLowerCase] *)

Definition ascii_lower (c : ascii) : ascii :=
  let n := nat_of_ascii c in
  if (65 <=? n)%nat && (n <=? 90)%nat then ascii_of_nat (n + 32) else c.

Fixpoint to_lower (s : string) : string :=
  match s with
  | EmptyString => EmptyString
  | String c s' => String (ascii_lower c) (to_lower s')
  end.

(** ** Template literals with attribute quotes

    The code's HTML templates contain double quotes in attribute values
    (style="..."). In the literal pieces of the models below a double
    quote is written as an apostrophe, which none of the literal pieces
    of [part.js]'s templates contains, and [html] puts the double quote
    back. Interpolated values are not passed through [html]. *)

Definition dq : ascii := ascii_of_nat 34.

Fixpoint html (s : string) : string :=
  match s with
  | EmptyString => EmptyString
  | String c s' => String (if Ascii.eqb c "'"%char then dq else c) (html s')
  end.
