(* ===== verification/CountUp.v ===== *)
(** * [countUp]: one counter's animation, frame by frame

    Models [countUp] (part.js lines 25-71) and the two tables that choose
    its arguments: the [switch] of [onIntersection] on the [h2] id
    (lines 89-104) and [counterConfigs] of [triggerCountersImmediately]
    (lines 189-194).

    [countUp] records [startTime = Date.now()] and schedules [animate]
    with [requestAnimationFrame]. Each call of [animate] reads the clock,
    computes [progress = Math.min(elapsed / duration, 1)], the eased value
    [target * (1 - (1 - progress)^2)], formats it by the suffix, writes it
    to [element.textContent] and schedules itself again while
    [progress < 1]. Here [frame] is one call of [animate] (the text it
    writes and whether it schedules another frame) and [run_frames] runs
    the callbacks at a list of clock readings.

    Arithmetic is exact rational arithmetic ([Q]): the clock, the target
    and the duration are integers as at every call site; IEEE rounding of
    the intermediate quotients is not modelled (at [progress = 1] the
    JavaScript value is exactly [target] too, since [1 - 0 * 0 = 1]). The
    variable [increment] of line 35 is computed and never read; it has no
    counterpart. The console logging has none either.

    Theorems: the last frame shows exactly the target ([frame_final]),
    the loop continues exactly while the elapsed time is below the
    duration ([frame_continues_iff]), the displayed value stays within
    [0 .. target] and never decreases while the clock moves forward
    ([frame_value_bounds], [frame_value_monotone]), the frame loop stops
    at the first frame past the duration and ends on the target text
    ([run_frames_terminates]), the two dispatch tables agree
    ([dispatch_tables_agree]) and give the texts the spec lists
    ([final_texts]). When the wall clock goes back before [startTime]
    the displayed value is negative ([frame_negative_before_start]): the
    code clamps the progress only from above. *)

From S2P Require Import Prelude JsRuntime.
From Stdlib Require Import QArith Qround Qminmax Lqa Psatz String.

Module CountUp.

Local Open Scope Q_scope.

(** ** The frame computation *)

(** [Math.min(elapsed / duration, 1)]. The duration is positive at every
    call site (2500). *)
Definition progress (elapsed : Z) (duration : positive) : Q :=
  Qmin (elapsed # duration) 1.

(** [1 - (1 - progress) * (1 - progress)] *)
Definition ease_out_quad (p : Q) : Q := 1 - (1 - p) * (1 - p).

(** [current = target * easeOutQuad] *)
Definition current (target : Z) (p : Q) : Q := inject_Z target * ease_out_quad p.

(** The formatting [if] chain of lines 46-59, on the suffix string the
    caller passes. *)
Definition format_number (suffix : string) (cur : Q) : string :=
  if String.eqb suffix "k" then Z_to_string (js_round (cur / inject_Z 1000)) +:+ "k"
  else if String.eqb suffix "+" then to_locale_string (js_round cur) +:+ "+"
  else if String.eqb suffix "over" then "Over " +:+ Z_to_string (js_round cur)
  else to_locale_string (js_round cur).

(** The arguments of one [countUp] call and the [startTime] it read. *)
Record anim := mkAnim {
  an_target : Z;
  an_duration : positive;
  an_suffix : string;
  an_start : Z
}.

(** One call of [animate] at clock reading [now]: the text written to
    [element.textContent], and [true] when it calls
    [requestAnimationFrame(animate)] again ([progress < 1]). *)
Definition frame (a : anim) (now : Z) : string * bool :=
  let p := progress (now - an_start a) (an_duration a) in
  (format_number (an_suffix a) (current (an_target a) p), negb (Qle_bool 1 p)).

(** The frame callbacks run at the successive clock readings [nows]: the
    texts written, and whether a frame is still requested at the end. *)
Fixpoint run_frames (a : anim) (nows : list Z) : list string * bool :=
  match nows with
  | [] => ([], true)
  | t :: ts =>
      let '(txt, more) := frame a t in
      if more then let '(txts, pending) := run_frames a ts in (txt :: txts, pending)
      else ([txt], false)
  end.

(** ** The dispatch tables *)

(** The [switch (targetId)] of [onIntersection]: the arguments it passes
    to [countUp], or [None] for the [default] branch. *)
Definition h2_dispatch (targetId : string) : option (Z * positive * string) :=
  if String.eqb targetId "engine-sale" then Some (40000%Z, 2500%positive, "k")
  else if String.eqb targetId "satisfied-customers" then Some (50000%Z, 2500%positive, "+")
  else if String.eqb targetId "million-parts" then Some (40%Z, 2500%positive, "over")
  else if String.eqb targetId "inventory-yards" then Some (2000%Z, 2500%positive, "+")
  else None.

(** [counterConfigs] of [triggerCountersImmediately], in the order
    [Object.keys] lists it (insertion order); the duration is the
    literal 2500 of its [countUp] call. *)
Record config := mkConfig { cfg_target : Z; cfg_suffix : string }.

Definition counter_configs : list (string * config) :=
  [("engine-sale-div", mkConfig 40000 "k");
   ("satisfied-customers-div", mkConfig 50000 "+");
   ("million-parts-div", mkConfig 40 "over");
   ("inventory-yards-div", mkConfig 2000 "+")].

Definition config_duration : positive := 2500.

(** [counterDivs] of [initializeCounters] (lines 117-122). *)
Definition counter_divs : list string :=
  ["engine-sale-div"; "satisfied-customers-div"; "million-parts-div"; "inventory-yards-div"].

(** The value [current] that [animate] computes at clock reading [now]. *)
Definition frame_value (a : anim) (now : Z) : Q :=
  current (an_target a) (progress (now - an_start a) (an_duration a)).

(** The text of the last frame: the target formatted by the suffix. *)
Definition final_text (suffix : string) (target : Z) : string :=
  format_number suffix (inject_Z target).

(** ** Lemmas on progress, easing and rounding *)

Lemma progress_done (e : Z) (d : positive) :
  (Zpos d <= e)%Z -> progress e d == 1.
Proof.
  intros H. unfold progress. apply Q.min_r.
  unfold Qle; simpl. lia.
Qed.

Lemma progress_running (e : Z) (d : positive) :
  (e < Zpos d)%Z -> progress e d == (e # d) /\ (e # d) < 1.
Proof.
  intros H. assert (Hlt : (e # d) < 1) by (unfold Qlt; simpl; lia).
  split; [apply Q.min_l; now apply Qlt_le_weak | exact Hlt].
Qed.

Lemma progress_le_1 (e : Z) (d : positive) : progress e d <= 1.
Proof. apply Q.le_min_r. Qed.

Lemma progress_nonneg (e : Z) (d : positive) : (0 <= e)%Z -> 0 <= progress e d.
Proof.
  intros H. unfold progress. apply Q.min_glb; [unfold Qle; simpl; lia | discriminate].
Qed.

Lemma progress_mono (e1 e2 : Z) (d : positive) :
  (e1 <= e2)%Z -> progress e1 d <= progress e2 d.
Proof.
  intros H. unfold progress. apply Q.min_le_compat_r. unfold Qle; simpl. nia.
Qed.

Lemma progress_neg (e : Z) (d : positive) : (e < 0)%Z -> progress e d < 0.
Proof.
  intros H. destruct (progress_running e d) as [-> _]; [lia|].
  unfold Qlt; simpl. lia.
Qed.

Lemma ease_bounds (p : Q) : 0 <= p -> p <= 1 -> 0 <= ease_out_quad p /\ ease_out_quad p <= 1.
Proof. unfold ease_out_quad. intros. split; nra. Qed.

Lemma ease_mono (p1 p2 : Q) :
  0 <= p1 -> p1 <= p2 -> p2 <= 1 -> ease_out_quad p1 <= ease_out_quad p2.
Proof. unfold ease_out_quad. intros. nra. Qed.

Lemma ease_neg (p : Q) : p < 0 -> ease_out_quad p < 0.
Proof. unfold ease_out_quad. intros. nra. Qed.

#[global] Instance ease_out_quad_proper : Proper (Qeq ==> Qeq) ease_out_quad.
Proof. intros x y H. unfold ease_out_quad. now rewrite H. Qed.

#[global] Instance current_proper t : Proper (Qeq ==> Qeq) (current t).
Proof. intros x y H. unfold current. now rewrite H. Qed.

#[global] Instance js_round_proper : Proper (Qeq ==> eq) js_round.
Proof. intros x y H. unfold js_round. apply Qfloor_comp. now rewrite H. Qed.

#[global] Instance format_number_proper s : Proper (Qeq ==> eq) (format_number s).
Proof.
  intros x y H. unfold format_number.
  rewrite (js_round_proper x y H), (js_round_proper (x / inject_Z 1000) (y / inject_Z 1000))
    by (now rewrite H).
  reflexivity.
Qed.

Lemma current_done (t : Z) (p : Q) : p == 1 -> current t p == inject_Z t.
Proof. intros ->. unfold current, ease_out_quad. ring. Qed.

(** The [h2] id inside each container, by the page's markup convention
    (container [X-div] holds the heading [X]); the markup is not part of
    the repository's sources. *)
Definition markup_h2_id (div_id : string) : string :=
  String.substring 0 (String.length div_id - 4) div_id.

Lemma frame_done (a : anim) (now : Z) :
  (an_start a + Zpos (an_duration a) <= now)%Z ->
  frame a now = (final_text (an_suffix a) (an_target a), false).
Proof.
  intros H. unfold frame, final_text.
  assert (Hp : progress (now - an_start a) (an_duration a) == 1) by (apply progress_done; lia).
  rewrite (format_number_proper _ _ _ (current_done _ _ Hp)).
  assert (Hb : Qle_bool 1 (progress (now - an_start a) (an_duration a)) = true)
    by (apply Qle_bool_iff; rewrite Hp; apply Qle_refl).
  now rewrite Hb.
Qed.

Lemma frame_more (a : anim) (now : Z) :
  (now - an_start a < Zpos (an_duration a))%Z -> snd (frame a now) = true.
Proof.
  intros H. unfold frame; simpl.
  destruct (progress_running (now - an_start a) (an_duration a) H) as [Hp Hlt].
  destruct (Qle_bool 1 _) eqn:E; [|reflexivity].
  apply Qle_bool_iff in E. rewrite Hp in E. exfalso. now apply (Qlt_not_le _ _ Hlt).
Qed.

Lemma run_frames_pending (a : anim) (nows : list Z) :
  Forall (fun u => (u - an_start a < Zpos (an_duration a))%Z) nows ->
  run_frames a nows = (map (fun u => fst (frame a u)) nows, true).
Proof.
  induction 1 as [|u nows Hu _ IH]; [reflexivity|]. cbn [run_frames map].
  destruct (frame a u) as [txt more] eqn:Ef.
  pose proof (frame_more a u Hu) as Hm. rewrite Ef in Hm. simpl in Hm. subst more.
  rewrite IH. reflexivity.
Qed.

(** ** Theorems *)

(** C21: Once the elapsed time reaches the duration, [animate] writes the
    target formatted by the suffix, exactly, and schedules no further
    frame; for the four configured counters the texts are "40k",
    "50,000+", "Over 40" and "2,000+". *)
Theorem configured_final_frames (start now : Z) :
  (start + 2500 <= now)%Z ->
  map (fun '(_, c) => frame (mkAnim (cfg_target c) config_duration (cfg_suffix c) start) now)
      counter_configs
  = [("40k", false); ("50,000+", false); ("Over 40", false); ("2,000+", false)].
Proof.
  intros H. cbn [map counter_configs]. rewrite !frame_done by (unfold config_duration; cbn; lia). reflexivity.
Qed.

Lemma configured_final_frames_witness :
  (0 + 2500 <= 2600)%Z /\
  map (fun '(_, c) => frame (mkAnim (cfg_target c) config_duration (cfg_suffix c) 0) 2600)
      counter_configs
  = [("40k", false); ("50,000+", false); ("Over 40", false); ("2,000+", false)].
Proof. split; [lia | apply (configured_final_frames 0 2600); lia]. Defined.

(** C22: [animate] schedules another frame exactly when the elapsed time is
    below the duration: it never stops early and never runs past it. *)
Theorem frame_continues_iff (a : anim) (now : Z) :
  snd (frame a now) = true <-> (now - an_start a < Zpos (an_duration a))%Z.
Proof.
  split; [|apply frame_more].
  intros H. destruct (Z.lt_ge_cases (now - an_start a) (Zpos (an_duration a))) as [?|Hge];
    [assumption|].
  rewrite frame_done in H by lia. discriminate.
Qed.

(** C23: The frame loop terminates: run at clock readings that are below the
    end of the animation and then one at or after it, the callbacks write
    one text per reading up to that one, the last being the exact target
    text, and no frame is requested after it. *)
Theorem run_frames_terminates (a : anim) (pre post : list Z) (t : Z) :
  Forall (fun u => (u - an_start a < Zpos (an_duration a))%Z) pre ->
  (an_start a + Zpos (an_duration a) <= t)%Z ->
  run_frames a (pre ++ t :: post)
  = (map (fun u => fst (frame a u)) pre ++ [final_text (an_suffix a) (an_target a)], false).
Proof.
  induction 1 as [|u pre Hu _ IH]; intros Ht.
  - cbn [app run_frames map]. now rewrite frame_done.
  - cbn [app run_frames map]. destruct (frame a u) as [txt more] eqn:Ef.
    pose proof (frame_more a u Hu) as Hm. rewrite Ef in Hm. simpl in Hm. subst more.
    rewrite IH by exact Ht. reflexivity.
Qed.

Lemma run_frames_terminates_witness :
  Forall (fun u => (u - an_start (mkAnim 40000 2500 "k" 0) < Zpos (an_duration (mkAnim 40000 2500 "k" 0)))%Z) [0%Z; 1250%Z] /\
  run_frames (mkAnim 40000 2500 "k" 0) ([0%Z; 1250%Z] ++ 2500%Z :: [2516%Z])
  = (map (fun u => fst (frame (mkAnim 40000 2500 "k" 0) u)) [0%Z; 1250%Z]
       ++ [final_text "k" 40000], false).
Proof.
  assert (HF : Forall (fun u => (u - an_start (mkAnim 40000 2500 "k" 0) < Zpos (an_duration (mkAnim 40000 2500 "k" 0)))%Z) [0%Z; 1250%Z])
    by (repeat constructor; simpl; lia).
  split; [exact HF | apply (run_frames_terminates _ _ _ _ HF); simpl; lia].
Defined.

(** C24: From the start of the animation on, the value [animate] computes
    stays between 0 and the (non-negative) target. *)
Theorem frame_value_bounds (a : anim) (now : Z) :
  (0 <= an_target a)%Z -> (an_start a <= now)%Z ->
  0 <= frame_value a now /\ frame_value a now <= inject_Z (an_target a).
Proof.
  intros Ht Hn. unfold frame_value, current.
  assert (HT : 0 <= inject_Z (an_target a)) by (unfold Qle; simpl; lia).
  destruct (ease_bounds (progress (now - an_start a) (an_duration a))) as [E0 E1];
    [apply progress_nonneg; lia | apply progress_le_1 |].
  split; nra.
Qed.

Lemma frame_value_bounds_witness :
  (0 <= an_target (mkAnim 40 2500 "over" 0))%Z /\ (an_start (mkAnim 40 2500 "over" 0) <= 1000)%Z /\
  0 <= frame_value (mkAnim 40 2500 "over" 0) 1000 /\
  frame_value (mkAnim 40 2500 "over" 0) 1000 <= inject_Z (an_target (mkAnim 40 2500 "over" 0)).
Proof.
  split; [simpl; lia|]. split; [simpl; lia|].
  apply frame_value_bounds; simpl; lia.
Defined.

(** C25: While the clock moves forward from the start, the value [animate]
    computes never decreases (ease-out is monotone on [0, 1] and the
    progress is clamped at 1). *)
Theorem frame_value_monotone (a : anim) (t1 t2 : Z) :
  (0 <= an_target a)%Z -> (an_start a <= t1)%Z -> (t1 <= t2)%Z ->
  frame_value a t1 <= frame_value a t2.
Proof.
  intros Ht H1 H12. unfold frame_value, current.
  assert (HT : 0 <= inject_Z (an_target a)) by (unfold Qle; simpl; lia).
  assert (He : ease_out_quad (progress (t1 - an_start a) (an_duration a))
               <= ease_out_quad (progress (t2 - an_start a) (an_duration a))).
  { apply ease_mono; [apply progress_nonneg; lia | apply progress_mono; lia | apply progress_le_1]. }
  nra.
Qed.

Lemma frame_value_monotone_witness :
  (0 <= an_target (mkAnim 2000 2500 "+" 5))%Z /\ (an_start (mkAnim 2000 2500 "+" 5) <= 100)%Z /\
  (100 <= 900)%Z /\
  frame_value (mkAnim 2000 2500 "+" 5) 100 <= frame_value (mkAnim 2000 2500 "+" 5) 900.
Proof.
  split; [simpl; lia|]. split; [simpl; lia|]. split; [lia|].
  apply frame_value_monotone; simpl; lia.
Defined.

(** C26: The progress is clamped at 1 but not at 0: a clock reading before
    [startTime] (the wall clock [Date.now()] stepped back) gives a
    negative value, and the counter shows a negative number, e.g. "-120k"
    for the engine counter 2.5 s before its start. *)
Theorem frame_negative_before_start (a : anim) (now : Z) :
  (0 < an_target a)%Z -> (now < an_start a)%Z -> frame_value a now < 0.
Proof.
  intros Ht Hn. unfold frame_value, current.
  assert (HT : 0 < inject_Z (an_target a)) by (unfold Qlt; simpl; lia).
  pose proof (ease_neg _ (progress_neg (now - an_start a) (an_duration a) ltac:(lia))).
  nra.
Qed.

Lemma frame_negative_before_start_witness :
  (0 < an_target (mkAnim 40000 2500 "k" 2500))%Z /\ (0 < an_start (mkAnim 40000 2500 "k" 2500))%Z /\
  frame_value (mkAnim 40000 2500 "k" 2500) 0 < 0 /\ frame (mkAnim 40000 2500 "k" 2500) 0 = ("-120k", true).
Proof.
  split; [simpl; lia|]. split; [simpl; lia|]. split.
  - apply frame_negative_before_start; simpl; lia.
  - vm_compute. reflexivity.
Defined.

(** The two ways of starting a counter agree: for every container of
    [counterConfigs], in the same order as [counterDivs], the [switch] of
    [onIntersection] on its heading's id selects the same target, suffix
    and duration as [triggerCountersImmediately]. *)
Theorem dispatch_tables_agree :
  map fst counter_configs = counter_divs /\
  Forall (fun '(d, c) => h2_dispatch (markup_h2_id d) = Some (cfg_target c, config_duration, cfg_suffix c))
    counter_configs.
Proof. split; [reflexivity | repeat constructor]. Qed.

End CountUp.
