(* ===== verification/CounterPage.v ===== *)
(** * The counter engine on the page: observers, timers and the [counted] guard

    Models lines 1-226 of part.js above [countUp]: the handlers
    [onIntersection] (lines 74-110), [initializeCounters] (113-183) with
    its 10 s fallback closure (172-182), [triggerCountersImmediately]
    (186-206), [window.debugCounters] (223-226), and the load-time entry
    points (lines 2-22 and 209-220), as an executable event function on
    a page state and the reachability relation it generates.

    The page state [page] holds what these handlers read and write:
    the clock; the four containers looked up by [document.getElementById]
    (a [gmap] from id to element: its [h2] child and its [counted] class);
    whether [IntersectionObserver] exists; the observers created so far
    with the targets each still observes; the [setTimeout] queue; the
    pending [requestAnimationFrame] callbacks; the listeners registered
    for [DOMContentLoaded]; and [pg_started], the trace of [countUp]
    calls by container, which the theorems are about.

    The browser is the environment: an event [ev] is a timer firing (the
    one with the earliest due time, in scheduling order on ties), an
    animation frame, an observer callback with entries for targets it
    observes, a call of [window.debugCounters()], the markup inserting a
    missing container, [DOMContentLoaded], or jQuery's ready callback.
    Any interleaving of events is allowed.

    Theorems: every [countUp] runs at most once per container in every
    reachable state ([claim_once]); the 10 s fallback starts every
    container that was not started ([fallback_starts_all]); without
    [IntersectionObserver] the initialization starts them at once
    ([init_without_observer_starts_all]); when a container is missing the
    initialization only schedules itself again after 1000 ms, with no
    bound on the number of attempts ([init_retries_forever]). A concrete
    page load with two observers, the fallbacks, [debugCounters] and
    frames ([demo_events]) is checked against [claim_once]. *)

From S2P Require Import Prelude JsRuntime CountUp.
From stdpp Require Import gmap.


Import CountUp.

Module CounterPage.

(** ** Page state *)

Record h2_el := mkH2 { h2_id : string; h2_text : string }.

Record div_el := mkDiv { div_h2 : option h2_el; div_counted : bool }.

(** The callbacks passed to [setTimeout]: [initializeCounters] itself
    (lines 19-21, 144, 211, 219) or the fallback closure (172-182). *)
Inductive task := TInitCounters | TFallbackCheck.

(** The [DOMContentLoaded] listeners: [setTimeout(initializeCounters,
    100)] (line 211) and [initializeCounters] itself (line 216). *)
Inductive listener := LDelayedInit | LDirectInit.

Record page := mkPage {
  pg_now : Z;
  pg_dom : gmap string div_el;
  pg_io : bool;
  pg_observers : list (list string);
  pg_timers : list (Z * task);
  pg_frames : list (string * anim);
  pg_listeners : list listener;
  pg_dcl_fired : bool;
  pg_ready_fired : bool;
  pg_started : list string
}.

(** [div.querySelector('h2')] is not [null]. *)
Definition has_h2 (dv : div_el) : bool :=
  match div_h2 dv with Some _ => true | None => false end.

(** ** Primitive updates *)

Definition set_dom (m : gmap string div_el) (s : page) : page :=
  mkPage (pg_now s) m (pg_io s) (pg_observers s) (pg_timers s) (pg_frames s)
         (pg_listeners s) (pg_dcl_fired s) (pg_ready_fired s) (pg_started s).

Definition set_observers (o : list (list string)) (s : page) : page :=
  mkPage (pg_now s) (pg_dom s) (pg_io s) o (pg_timers s) (pg_frames s)
         (pg_listeners s) (pg_dcl_fired s) (pg_ready_fired s) (pg_started s).

Definition set_timers (ts : list (Z * task)) (s : page) : page :=
  mkPage (pg_now s) (pg_dom s) (pg_io s) (pg_observers s) ts (pg_frames s)
         (pg_listeners s) (pg_dcl_fired s) (pg_ready_fired s) (pg_started s).

Definition set_now (t : Z) (s : page) : page :=
  mkPage t (pg_dom s) (pg_io s) (pg_observers s) (pg_timers s) (pg_frames s)
         (pg_listeners s) (pg_dcl_fired s) (pg_ready_fired s) (pg_started s).

Definition set_frames (fs : list (string * anim)) (s : page) : page :=
  mkPage (pg_now s) (pg_dom s) (pg_io s) (pg_observers s) (pg_timers s) fs
         (pg_listeners s) (pg_dcl_fired s) (pg_ready_fired s) (pg_started s).

(** [setTimeout(task, delay)] *)
Definition set_timeout (delay : Z) (t : task) (s : page) : page :=
  set_timers (pg_timers s ++ [((pg_now s + delay)%Z, t)]) s.

(** [div.classList.contains('counted')]; a missing element counts as
    not counted. *)
Definition is_counted (s : page) (d : string) : bool :=
  match pg_dom s !! d with Some dv => div_counted dv | None => false end.

(** [div.classList.add('counted')] *)
Definition set_counted (d : string) (s : page) : page :=
  match pg_dom s !! d with
  | Some dv => set_dom (<[d := mkDiv (div_h2 dv) true]> (pg_dom s)) s
  | None => s
  end.

(** [countUp(h2 of d, target, duration, suffix)]: reads [Date.now()]
    and requests the first animation frame. The guard [if (!element)] is
    never taken: both callers pass an [h2] they found. *)
Definition count_up (d : string) (target : Z) (duration : positive) (suffix : string)
    (s : page) : page :=
  mkPage (pg_now s) (pg_dom s) (pg_io s) (pg_observers s) (pg_timers s)
         (pg_frames s ++ [(d, mkAnim target duration suffix (pg_now s))])
         (pg_listeners s) (pg_dcl_fired s) (pg_ready_fired s) (pg_started s ++ [d]).

(** [observer.unobserve(entry.target)] for observer number [i]. *)
Definition unobserve (i : nat) (d : string) (s : page) : page :=
  set_observers (alter (filter (fun x => x <> d)) i (pg_observers s)) s.

(** ** The handlers *)

(** [onIntersection(entries, observer)], [entries] being the targets
    with their [isIntersecting] flag. An entry whose container has no
    [h2] is skipped by the [return] of line 83 (a [return] inside the
    [forEach] callback); an unknown heading id takes the [default]
    branch, which still marks the container and stops observing it. *)
Definition intersect_one (i : nat) (s : page) (entry : string * bool) : page :=
  let '(d, intersecting) := entry in
  match pg_dom s !! d with
  | Some dv =>
      if intersecting && negb (div_counted dv) then
        match div_h2 dv with
        | None => s
        | Some h =>
            let s1 := match h2_dispatch (h2_id h) with
                      | Some (t, du, su) => count_up d t du su s
                      | None => s
                      end in
            unobserve i d (set_counted d s1)
        end
      else s
  | None => s
  end.

Definition on_intersection (i : nat) (entries : list (string * bool)) (s : page) : page :=
  fold_left (intersect_one i) entries s.

(** [triggerCountersImmediately()]: every configured container whose
    [h2] exists and which is not counted is started and marked. *)
Definition trigger_one (s : page) (entry : string * config) : page :=
  let '(d, c) := entry in
  match pg_dom s !! d with
  | Some dv =>
      if has_h2 dv && negb (div_counted dv)
      then set_counted d (count_up d (cfg_target c) config_duration (cfg_suffix c) s)
      else s
  | None => s
  end.

Definition trigger_configs (cfgs : list (string * config)) (s : page) : page :=
  fold_left trigger_one cfgs s.

Definition trigger_counters_immediately (s : page) : page :=
  trigger_configs counter_configs s.

(** The check of lines 124-139: every container exists and has an [h2]. *)
Definition all_elements_found (s : page) : bool :=
  forallb (fun d => match pg_dom s !! d with Some dv => has_h2 dv | None => false end)
          counter_divs.

(** [initializeCounters()]. The observer observes every container that
    exists (all do on this branch). *)
Definition initialize_counters (s : page) : page :=
  if negb (all_elements_found s) then set_timeout 1000 TInitCounters s
  else if negb (pg_io s) then trigger_counters_immediately s
  else
    let observed := filter (fun d => is_Some (pg_dom s !! d)) counter_divs in
    set_timeout 10000 TFallbackCheck (set_observers (pg_observers s ++ [observed]) s).

(** The fallback closure of lines 172-182. *)
Definition fallback_check (s : page) : page :=
  let unCounted := filter (fun d => is_Some (pg_dom s !! d) /\ is_counted s d = false) counter_divs in
  if Nat.ltb 0 (length unCounted) then trigger_counters_immediately s else s.

Definition run_task (t : task) (s : page) : page :=
  match t with
  | TInitCounters => initialize_counters s
  | TFallbackCheck => fallback_check s
  end.

Definition run_listener (l : listener) (s : page) : page :=
  match l with
  | LDelayedInit => set_timeout 100 TInitCounters s
  | LDirectInit => initialize_counters s
  end.

(** ** The browser's event loop *)

Definition set_listeners (ls : list listener) (s : page) : page :=
  mkPage (pg_now s) (pg_dom s) (pg_io s) (pg_observers s) (pg_timers s) (pg_frames s)
         ls (pg_dcl_fired s) (pg_ready_fired s) (pg_started s).

Definition set_dcl_fired (s : page) : page :=
  mkPage (pg_now s) (pg_dom s) (pg_io s) (pg_observers s) (pg_timers s) (pg_frames s)
         (pg_listeners s) true (pg_ready_fired s) (pg_started s).

Definition set_ready_fired (s : page) : page :=
  mkPage (pg_now s) (pg_dom s) (pg_io s) (pg_observers s) (pg_timers s) (pg_frames s)
         (pg_listeners s) (pg_dcl_fired s) true (pg_started s).

(** jQuery's ready callback (lines 2, 18-21), as far as the counters see
    it: [setTimeout(function () { initializeCounters(); }, 500)]. The
    [change] handlers it also registers belong to the form
    ([Submission]). *)
Definition on_ready (s : page) : page :=
  set_timeout 500 TInitCounters (set_ready_fired s).

(** [element.textContent = formattedNumber] on the [h2] of container [d]. *)
Definition set_h2_text (d : string) (txt : string) (s : page) : page :=
  match pg_dom s !! d with
  | Some (mkDiv (Some h) c) => set_dom (<[d := mkDiv (Some (mkH2 (h2_id h) txt)) c]> (pg_dom s)) s
  | _ => s
  end.

Definition fire_timer (s : page) : option page :=
  match next_timer (pg_timers s) with
  | None => None
  | Some (i, (due, t)) =>
      Some (run_task t (set_now (Z.max (pg_now s) due) (set_timers (delete i (pg_timers s)) s)))
  end.

(** One animation frame at clock reading [t]: every callback requested
    before the frame runs once ([animate] of lines 37-68), writing its
    text and requesting the next frame while its progress is below 1. *)
Definition run_callback (t : Z) (acc : page) (f : string * anim) : page :=
  let '(d, a) := f in
  let '(txt, more) := frame a t in
  let acc1 := set_h2_text d txt acc in
  if more then set_frames (pg_frames acc1 ++ [(d, a)]) acc1 else acc1.

Definition animation_frame (t : Z) (s : page) : page :=
  fold_left (run_callback t) (pg_frames s) (set_frames [] (set_now t s)).

Inductive event :=
| EvTimer
| EvFrame (t : Z)
| EvIntersect (i : nat) (entries : list (string * bool))
| EvDebug
| EvInsert (d : string) (h : option h2_el)
| EvDomContentLoaded
| EvReady.

(** The effect of one event, [None] when the browser cannot deliver it:
    no timer pending, a clock reading in the past, entries for targets
    the observer does not observe, a container inserted twice, or a
    load event delivered twice. *)
Definition exec_event (e : event) (s : page) : option page :=
  match e with
  | EvTimer => fire_timer s
  | EvFrame t => if Z.leb (pg_now s) t then Some (animation_frame t s) else None
  | EvIntersect i entries =>
      match pg_observers s !! i with
      | Some targets =>
          if forallb (fun e => bool_decide (e.1 ∈ targets)) entries
          then Some (on_intersection i entries s) else None
      | None => None
      end
  | EvDebug => Some (trigger_counters_immediately s)
  | EvInsert d h =>
      match pg_dom s !! d with
      | None => Some (set_dom (<[d := mkDiv h false]> (pg_dom s)) s)
      | Some _ => None
      end
  | EvDomContentLoaded =>
      if pg_dcl_fired s then None
      else Some (fold_left (fun acc l => run_listener l acc) (pg_listeners s) (set_dcl_fired s))
  | EvReady =>
      if pg_ready_fired s then None
      else Some (on_ready s)
  end.

(** Running the script (lines 2, 209-220): jQuery's ready callback is
    pending, a [DOMContentLoaded] listener schedules [initializeCounters]
    after 100 ms, and a second one calls it directly when the document is
    still loading; otherwise it is scheduled after 100 ms at once. *)
Definition script_load (loading : bool) (s : page) : page :=
  let s1 := set_listeners (pg_listeners s ++ [LDelayedInit]) s in
  if loading then set_listeners (pg_listeners s1 ++ [LDirectInit]) s1
  else set_timeout 100 TInitCounters s1.

(** The page when the script runs: containers present so far (none
    counted), nothing observed, scheduled or started, [DOMContentLoaded]
    already past unless the document is loading. *)
Definition initial_page (now : Z) (dom : gmap string div_el) (io loading : bool) : page :=
  script_load loading (mkPage now dom io [] [] [] [] (negb loading) false []).

Fixpoint run_events (es : list event) (s : page) : option page :=
  match es with
  | [] => Some s
  | e :: rest => match exec_event e s with Some s' => run_events rest s' | None => None end
  end.

(** The states the page reaches from any script load, under any
    sequence of browser events. *)
Inductive reachable : page -> Prop :=
| reach_load now dom io loading :
    map_Forall (fun _ dv => div_counted dv = false) dom ->
    reachable (initial_page now dom io loading)
| reach_step e s s' :
    reachable s -> exec_event e s = Some s' -> reachable s'.

(** ** The claim-once invariant *)

(** Every container in the [countUp] trace occurs once and carries the
    [counted] class. *)
Definition claim_inv (s : page) : Prop :=
  NoDup (pg_started s) /\ Forall (fun d => is_counted s d = true) (pg_started s).

(** A step that calls no [countUp] and removes no [counted] class. *)
Definition grows (s s' : page) : Prop :=
  pg_started s' = pg_started s /\ (forall d, is_counted s d = true -> is_counted s' d = true).

#[global] Instance grows_preorder : PreOrder grows.
Proof.
  split; [intros s; split; auto|].
  intros s1 s2 s3 [H1 H1'] [H2 H2']. split; [congruence | auto].
Qed.

Lemma grows_same (s s' : page) :
  pg_started s' = pg_started s -> pg_dom s' = pg_dom s -> grows s s'.
Proof. intros Hs Hd. split; [exact Hs|]. intros d. unfold is_counted. now rewrite Hd. Qed.

Lemma inv_grows (s s' : page) : claim_inv s -> grows s s' -> claim_inv s'.
Proof.
  intros [Hnd Hc] [Hs Hg]. unfold claim_inv. rewrite Hs. split; [exact Hnd|].
  eapply Forall_impl; [exact Hc | exact Hg].
Qed.

Lemma is_counted_set_counted (s : page) (d d' : string) :
  is_counted s d' = true -> is_counted (set_counted d s) d' = true.
Proof.
  unfold is_counted, set_counted. destruct (pg_dom s !! d) as [dv|] eqn:E; [|auto].
  cbn. destruct (decide (d = d')) as [->|Hne].
  - now rewrite lookup_insert_eq.
  - now rewrite lookup_insert_ne.
Qed.

Lemma is_counted_set_counted_eq (s : page) (d : string) (dv : div_el) :
  pg_dom s !! d = Some dv -> is_counted (set_counted d s) d = true.
Proof. intros E. unfold is_counted, set_counted. rewrite E. cbn. now rewrite lookup_insert_eq. Qed.

Lemma grows_set_counted (s : page) (d : string) : grows s (set_counted d s).
Proof.
  split; [unfold set_counted; now destruct (pg_dom s !! d)|].
  intros d'. apply is_counted_set_counted.
Qed.

Lemma grows_set_h2_text (s : page) (d txt : string) : grows s (set_h2_text d txt s).
Proof.
  unfold set_h2_text. destruct (pg_dom s !! d) as [[[h|] c]|] eqn:E; try reflexivity.
  split; [reflexivity|]. intros d'. unfold is_counted. cbn.
  destruct (decide (d = d')) as [->|Hne].
  - rewrite lookup_insert_eq, E. auto.
  - now rewrite lookup_insert_ne.
Qed.

#[export] Hint Resolve grows_set_counted grows_set_h2_text : oneauto.

(** Starting and marking a container that is not counted keeps the
    invariant: this is the check-then-set of lines 76/106 and 200/203. *)
Lemma inv_claim (s : page) (d : string) (dv : div_el) t du su :
  claim_inv s -> pg_dom s !! d = Some dv -> div_counted dv = false ->
  claim_inv (set_counted d (count_up d t du su s)).
Proof.
  intros [Hnd Hc] E Hnc.
  assert (Hnot : d ∉ pg_started s).
  { intros Hin. rewrite Forall_forall in Hc.
    specialize (Hc d Hin). unfold is_counted in Hc. rewrite E in Hc. congruence. }
  assert (Hs : pg_started (set_counted d (count_up d t du su s)) = pg_started s ++ [d]).
  { unfold set_counted. cbn. now rewrite E. }
  unfold claim_inv. rewrite Hs. split.
  - apply NoDup_app. split; [exact Hnd|]. split; [|apply NoDup_singleton].
    intros x Hx Hx'. apply list_elem_of_singleton in Hx'. subst. contradiction.
  - apply Forall_app. split.
    + eapply Forall_impl; [exact Hc|]. intros x Hx. now apply is_counted_set_counted.
    + constructor; [|constructor]. eapply is_counted_set_counted_eq. exact E.
Qed.

Lemma inv_unobserve (s : page) (i : nat) (d : string) :
  claim_inv s -> claim_inv (unobserve i d s).
Proof. intros H. eapply inv_grows; [exact H|]. now apply grows_same. Qed.

Lemma on_intersection_inv (i : nat) (entries : list (string * bool)) (s : page) :
  claim_inv s -> claim_inv (on_intersection i entries s).
Proof.
  apply fold_left_invariant. intros acc [d b] Hs. cbn [intersect_one].
  destruct (pg_dom acc !! d) as [dv|] eqn:E; [|exact Hs].
  destruct (b && negb (div_counted dv)) eqn:Eb; [|exact Hs].
  apply andb_true_iff in Eb as [_ Hnc]. apply negb_true_iff in Hnc.
  destruct (div_h2 dv) as [h|]; [|exact Hs].
  apply inv_unobserve.
  destruct (h2_dispatch (h2_id h)) as [[[t du] su]|].
  - eapply inv_claim; eauto.
  - eapply inv_grows; [exact Hs | apply grows_set_counted].
Qed.

Lemma trigger_configs_inv (cfgs : list (string * config)) (s : page) :
  claim_inv s -> claim_inv (trigger_configs cfgs s).
Proof.
  apply fold_left_invariant. intros acc [d c] Hs. cbn [trigger_one].
  destruct (pg_dom acc !! d) as [dv|] eqn:E; [|exact Hs].
  destruct (has_h2 dv && negb (div_counted dv)) eqn:Eb; [|exact Hs].
  apply andb_true_iff in Eb as [_ Hnc]. apply negb_true_iff in Hnc.
  eapply inv_claim; eauto.
Qed.

Lemma initialize_counters_inv (s : page) : claim_inv s -> claim_inv (initialize_counters s).
Proof.
  intros Hs. unfold initialize_counters.
  destruct (negb (all_elements_found s)); [eapply inv_grows; [exact Hs | now apply grows_same]|].
  destruct (negb (pg_io s)); [now apply trigger_configs_inv|].
  eapply inv_grows; [exact Hs | now apply grows_same].
Qed.

Lemma run_task_inv (t : task) (s : page) : claim_inv s -> claim_inv (run_task t s).
Proof.
  intros Hs. destruct t; cbn [run_task]; [now apply initialize_counters_inv|].
  unfold fallback_check. destruct (Nat.ltb _ _); [now apply trigger_configs_inv | exact Hs].
Qed.

Lemma run_listener_inv (l : listener) (s : page) : claim_inv s -> claim_inv (run_listener l s).
Proof.
  intros Hs. destruct l; cbn [run_listener]; [|now apply initialize_counters_inv].
  eapply inv_grows; [exact Hs | now apply grows_same].
Qed.

Lemma animation_frame_grows (t : Z) (s : page) : grows s (animation_frame t s).
Proof.
  unfold animation_frame. apply fold_left_invariant; [|now apply grows_same].
  intros acc [d a] Hacc. cbn [run_callback]. destruct (frame a t) as [txt []].
  - etransitivity; [exact Hacc|]. etransitivity; [apply (grows_set_h2_text _ d txt)|].
    now apply grows_same.
  - etransitivity; [exact Hacc | apply grows_set_h2_text].
Qed.

Lemma insert_grows (s : page) (d : string) (h : option h2_el) :
  pg_dom s !! d = None -> grows s (set_dom (<[d := mkDiv h false]> (pg_dom s)) s).
Proof.
  intros E. split; [reflexivity|]. intros d'. unfold is_counted. cbn.
  destruct (decide (d = d')) as [->|Hne]; [now rewrite E | now rewrite lookup_insert_ne].
Qed.

Lemma exec_event_inv (e : event) (s s' : page) :
  claim_inv s -> exec_event e s = Some s' -> claim_inv s'.
Proof.
  intros Hs He. destruct e; cbn [exec_event] in He.
  - unfold fire_timer in He. destruct (next_timer (pg_timers s)) as [[i [due t]]|]; [|discriminate].
    invc He. apply run_task_inv. eapply inv_grows; [exact Hs | now apply grows_same].
  - destruct (Z.leb _ _); [|discriminate]. invc He.
    eapply inv_grows; [exact Hs | apply animation_frame_grows].
  - destruct (pg_observers s !! i); [|discriminate].
    destruct (forallb _ _); [|discriminate]. invc He. now apply on_intersection_inv.
  - invc He. now apply trigger_configs_inv.
  - destruct (pg_dom s !! d) eqn:E; [discriminate|]. invc He.
    eapply inv_grows; [exact Hs | now apply insert_grows].
  - destruct (pg_dcl_fired s); [discriminate|]. invc He.
    apply fold_left_invariant; [intros; now apply run_listener_inv|].
    eapply inv_grows; [exact Hs | now apply grows_same].
  - destruct (pg_ready_fired s); [discriminate|]. invc He.
    eapply inv_grows; [exact Hs | now apply grows_same].
Qed.

Lemma initial_page_inv now dom io loading : claim_inv (initial_page now dom io loading).
Proof.
  unfold initial_page, script_load. destruct loading; cbn; split; constructor.
Qed.

(** C1: Claim once. In every state the page reaches, whatever the order in
    which observer callbacks, the 10 s fallbacks of every
    [initializeCounters] call, [debugCounters] and frames arrive, each
    container's animation has been started at most once, and every
    started container carries the [counted] class. *)
Theorem claim_once (s : page) :
  reachable s ->
  NoDup (pg_started s) /\ Forall (fun d => is_counted s d = true) (pg_started s).
Proof.
  induction 1 as [now dom io loading _|e s s' _ IH He].
  - apply initial_page_inv.
  - eapply exec_event_inv; eauto.
Qed.

(** ** What [triggerCountersImmediately] achieves *)

(** The container exists and has its [h2]. *)
Definition present_h2 (s : page) (d : string) : bool :=
  match pg_dom s !! d with Some dv => has_h2 dv | None => false end.

(** Nothing is unmarked, un-started or removed. *)
Definition mono (s s' : page) : Prop :=
  (forall d, is_counted s d = true -> is_counted s' d = true) /\
  (forall d, d ∈ pg_started s -> d ∈ pg_started s') /\
  (forall d, present_h2 s d = true -> present_h2 s' d = true).

#[global] Instance mono_preorder : PreOrder mono.
Proof.
  split; [intros s; repeat split; auto|].
  intros s1 s2 s3 (A1 & B1 & C1) (A2 & B2 & C2). repeat split; auto.
Qed.

Lemma present_h2_set_counted (s : page) (d d' : string) :
  present_h2 (set_counted d s) d' = present_h2 s d'.
Proof.
  unfold present_h2, set_counted. destruct (pg_dom s !! d) as [dv|] eqn:E; [|reflexivity].
  cbn. destruct (decide (d = d')) as [->|Hne].
  - now rewrite lookup_insert_eq, E.
  - now rewrite lookup_insert_ne.
Qed.

Lemma is_counted_set_counted_ne (s : page) (d d' : string) :
  d <> d' -> is_counted (set_counted d s) d' = is_counted s d'.
Proof.
  intros Hne. unfold is_counted, set_counted.
  destruct (pg_dom s !! d); [cbn; now rewrite lookup_insert_ne | reflexivity].
Qed.

Lemma trigger_one_mono (s : page) (e : string * config) : mono s (trigger_one s e).
Proof.
  destruct e as [d c]. cbn [trigger_one].
  destruct (pg_dom s !! d) as [dv|]; [|reflexivity].
  destruct (_ && _); [|reflexivity].
  repeat split.
  - intros d' H. now apply is_counted_set_counted.
  - intros d' Hd. unfold set_counted. cbn. destruct (pg_dom s !! d); cbn;
      apply elem_of_app; now left.
  - intros d'. now rewrite present_h2_set_counted.
Qed.

Lemma trigger_configs_mono (cfgs : list (string * config)) (s : page) :
  mono s (trigger_configs cfgs s).
Proof.
  apply (fold_left_invariant (mono s)); [|reflexivity].
  intros acc e H. etransitivity; [exact H | apply trigger_one_mono].
Qed.

Lemma trigger_one_other (s : page) (d : string) (e : string * config) :
  e.1 <> d -> is_counted (trigger_one s e) d = is_counted s d.
Proof.
  destruct e as [d0 c]. cbn. intros Hne.
  destruct (pg_dom s !! d0); [|reflexivity]. destruct (_ && _); [|reflexivity].
  now rewrite is_counted_set_counted_ne.
Qed.

Lemma trigger_one_self (s : page) (d : string) (c : config) :
  present_h2 s d = true ->
  is_counted (trigger_one s (d, c)) d = true /\
  (is_counted s d = false -> d ∈ pg_started (trigger_one s (d, c))).
Proof.
  unfold present_h2, is_counted. cbn [trigger_one].
  destruct (pg_dom s !! d) as [dv|] eqn:E; [|discriminate]. intros Hh.
  rewrite Hh. destruct (div_counted dv) eqn:Ec; cbn.
  - rewrite E. split; [exact Ec | discriminate].
  - split.
    + apply (is_counted_set_counted_eq (count_up d (cfg_target c) config_duration (cfg_suffix c) s) d dv).
      exact E.
    + intros _. unfold set_counted. cbn. rewrite E. cbn.
      apply elem_of_app. right. now apply list_elem_of_singleton.
Qed.

Lemma trigger_configs_spec (cfgs : list (string * config)) (s : page) (d : string) :
  d ∈ map fst cfgs -> present_h2 s d = true ->
  is_counted (trigger_configs cfgs s) d = true /\
  (is_counted s d = false -> d ∈ pg_started (trigger_configs cfgs s)).
Proof.
  revert s. induction cfgs as [|[d0 c] rest IH]; intros s Hin Hp; [inversion Hin|].
  unfold trigger_configs. cbn [fold_left]. fold (trigger_configs rest (trigger_one s (d0, c))).
  destruct (decide (d0 = d)) as [->|Hne].
  - destruct (trigger_one_self s d c Hp) as [H1 H2].
    destruct (trigger_configs_mono rest (trigger_one s (d, c))) as (M1 & M2 & _).
    split; [now apply M1 | intros Hc; now apply M2, H2].
  - apply elem_of_cons in Hin as [Heq|Hin]; [cbn in Heq; congruence|].
    rewrite <- (trigger_one_other s d (d0, c) Hne).
    apply IH; [exact Hin|]. destruct (trigger_one_mono s (d0, c)) as (_ & _ & M3). now apply M3.
Qed.

Lemma all_found_present (s : page) (d : string) :
  all_elements_found s = true -> d ∈ counter_divs -> present_h2 s d = true.
Proof.
  intros H Hd. unfold all_elements_found in H. rewrite forallb_forall in H.
  apply H, list_elem_of_In, Hd.
Qed.

Lemma trigger_all (s : page) :
  all_elements_found s = true ->
  Forall (fun d => is_counted (trigger_counters_immediately s) d = true /\
                   (is_counted s d = false -> d ∈ pg_started (trigger_counters_immediately s)))
    counter_divs.
Proof.
  intros Hall. apply Forall_forall. intros d Hd.
  apply trigger_configs_spec; [exact Hd | now apply all_found_present].
Qed.

(** C28: The 10 s fallback closure, run on a page where the four containers
    and their headings exist, leaves every container counted, and starts
    the animation of every container that was not counted yet. *)
Theorem fallback_starts_all (s : page) :
  all_elements_found s = true ->
  Forall (fun d => is_counted (fallback_check s) d = true /\
                   (is_counted s d = false -> d ∈ pg_started (fallback_check s)))
    counter_divs.
Proof.
  intros Hall. unfold fallback_check.
  destruct (Nat.ltb 0 _) eqn:E; [now apply trigger_all|].
  apply Nat.ltb_ge, Nat.le_0_r, length_zero_iff_nil in E.
  apply Forall_forall. intros d Hd.
  destruct (is_counted s d) eqn:Ec; [split; [reflexivity | discriminate]|].
  exfalso. refine (filter_nil_not_elem_of _ _ d E _ Hd). split; [|exact Ec].
  pose proof (all_found_present s d Hall Hd) as Hp. unfold present_h2 in Hp.
  destruct (pg_dom s !! d); [eexists; reflexivity | discriminate].
Qed.

(** C29: Without [IntersectionObserver], [initializeCounters] on a complete
    page starts every container not counted yet, at once. *)
Theorem init_without_observer_starts_all (s : page) :
  all_elements_found s = true -> pg_io s = false ->
  Forall (fun d => is_counted (initialize_counters s) d = true /\
                   (is_counted s d = false -> d ∈ pg_started (initialize_counters s)))
    counter_divs.
Proof.
  intros Hall Hio. unfold initialize_counters. rewrite Hall, Hio. now apply trigger_all.
Qed.

(** ** Retrying initialization *)

Lemma all_found_dom (s s' : page) :
  pg_dom s' = pg_dom s -> all_elements_found s' = all_elements_found s.
Proof. intros H. unfold all_elements_found. now rewrite H. Qed.

(** C30: While a container or its heading is missing, each run of
    [initializeCounters] observes nothing, starts nothing and only
    schedules itself again 1000 ms later: any number of timer firings
    leaves the page with exactly one pending [initializeCounters] and no
    other change. The retry is unbounded (the spec's open question). *)
Theorem init_retries_forever (n : nat) (s : page) (due : Z) :
  all_elements_found s = false -> pg_timers s = [(due, TInitCounters)] ->
  exists s', run_events (repeat EvTimer n) s = Some s' /\
    pg_dom s' = pg_dom s /\ pg_observers s' = pg_observers s /\
    pg_started s' = pg_started s /\ pg_frames s' = pg_frames s /\
    exists due', pg_timers s' = [(due', TInitCounters)].
Proof.
  revert s due. induction n as [|n IH]; intros s due Hf Ht.
  - exists s. repeat split; eauto.
  - cbn [repeat run_events exec_event]. unfold fire_timer. rewrite Ht, next_timer_single.
    cbn [run_task]. unfold initialize_counters.
    rewrite (all_found_dom s) by reflexivity. rewrite Hf. cbn [negb].
    destruct (IH (set_timeout 1000 TInitCounters
                    (set_now (Z.max (pg_now s) due) (set_timers (delete 0 [(due, TInitCounters)]) s)))
                 (Z.max (pg_now s) due + 1000)%Z) as (s' & Hr & Hd & Ho & Hs & Hfr & Htm);
      [now rewrite (all_found_dom s) | reflexivity |].
    exists s'. rewrite Hr. repeat split; auto.
Qed.

Lemma init_retries_forever_witness :
  all_elements_found (initial_page 0 ∅ true false) = false /\
  pg_timers (initial_page 0 ∅ true false) = [(100%Z, TInitCounters)] /\
  exists s', run_events (repeat EvTimer 5) (initial_page 0 ∅ true false) = Some s' /\
    pg_dom s' = pg_dom (initial_page 0 ∅ true false) /\
    pg_observers s' = pg_observers (initial_page 0 ∅ true false) /\
    pg_started s' = pg_started (initial_page 0 ∅ true false) /\
    pg_frames s' = pg_frames (initial_page 0 ∅ true false) /\
    exists due', pg_timers s' = [(due', TInitCounters)].
Proof.
  split; [reflexivity|]. split; [reflexivity|].
  apply (init_retries_forever 5 _ 100); reflexivity.
Defined.

(** ** A concrete page load *)

Lemma run_events_reachable (es : list event) (s s' : page) :
  reachable s -> run_events es s = Some s' -> reachable s'.
Proof.
  revert s. induction es as [|e es IH]; intros s Hr He; cbn in He; [congruence|].
  destruct (exec_event e s) as [s1|] eqn:E; [|discriminate].
  eapply IH; [eapply reach_step; eauto | exact He].
Qed.

(** The page of the site: the four containers with their headings. *)
Definition demo_dom : gmap string div_el :=
  list_to_map (map (fun d => (d, mkDiv (Some (mkH2 (markup_h2_id d) "0")) false)) counter_divs).

Definition demo_page : page := initial_page 0 demo_dom true false.

(** jQuery ready; the two scheduled [initializeCounters] (two observers,
    two fallbacks); the engine counter scrolls into view; frames; both
    fallbacks; the engine and parts counters are reported by the second
    observer; [debugCounters()]; frames to the end. *)
Definition demo_events : list event :=
  [EvReady; EvTimer; EvTimer; EvIntersect 0 [("engine-sale-div", true)]; EvFrame 600;
   EvFrame 3100; EvTimer; EvTimer;
   EvIntersect 1 [("engine-sale-div", true); ("million-parts-div", true)]; EvDebug;
   EvFrame 11000; EvFrame 13000].

Definition demo_after : page :=
  match run_events demo_events demo_page with Some s => s | None => demo_page end.

Lemma demo_run : run_events demo_events demo_page = Some demo_after.
Proof. vm_compute. reflexivity. Qed.

Lemma demo_page_reachable : reachable demo_after.
Proof.
  eapply run_events_reachable; [|exact demo_run].
  apply reach_load. apply (bool_decide_unpack _). vm_compute. reflexivity.
Qed.

Lemma claim_once_witness :
  reachable demo_after /\
  NoDup (pg_started demo_after) /\ Forall (fun d => is_counted demo_after d = true) (pg_started demo_after).
Proof. split; [exact demo_page_reachable | apply claim_once, demo_page_reachable]. Defined.

(** The demo page when the first fallback fires: the engine counter has
    been reported by the first observer, the three others not yet. *)
Definition demo_mid : page :=
  match run_events (firstn 4 demo_events) demo_page with Some s => s | None => demo_page end.

Lemma fallback_starts_all_witness :
  all_elements_found demo_mid = true /\ is_counted demo_mid "million-parts-div" = false /\
  Forall (fun d => is_counted (fallback_check demo_mid) d = true /\
                   (is_counted demo_mid d = false -> d ∈ pg_started (fallback_check demo_mid)))
    counter_divs.
Proof.
  assert (H : all_elements_found demo_mid = true) by (vm_compute; reflexivity).
  split; [exact H|]. split; [vm_compute; reflexivity|]. exact (fallback_starts_all demo_mid H).
Defined.

(** The demo page in a browser without [IntersectionObserver]. *)
Definition demo_page_no_io : page := initial_page 0 demo_dom false false.

Lemma init_without_observer_starts_all_witness :
  all_elements_found demo_page_no_io = true /\ pg_io demo_page_no_io = false /\
  Forall (fun d => is_counted (initialize_counters demo_page_no_io) d = true /\
                   (is_counted demo_page_no_io d = false -> d ∈ pg_started (initialize_counters demo_page_no_io)))
    counter_divs.
Proof.
  assert (H1 : all_elements_found demo_page_no_io = true) by (vm_compute; reflexivity).
  assert (H2 : pg_io demo_page_no_io = false) by reflexivity.
  split; [exact H1|]. split; [exact H2|]. exact (init_without_observer_starts_all _ H1 H2).
Defined.

End CounterPage.
