(* ===== verification/CounterSpec.v ===== *)
(** * The counter engine against its abstract state machine

    The spec's design notes describe what the [counted] class stands
    for: a per-counter state [Pending -> Animating -> Done] in which a
    trigger source may only claim a [Pending] counter and a finished
    animation never restarts. This file states that machine ([phase],
    [astep]) and proves that the page model of [CounterPage] refines it.
    The abstraction [phase_of] reads a container's phase from the page:
    [Pending] before its [countUp] call, [Animating] while an animation
    frame is requested for it, [Done] afterwards.

    [adv s s'] is the step relation of the refinement: from a page that
    satisfies the invariant [phase_inv], [s'] satisfies it too and every
    counter's phase has only moved forward. It is a preorder, so the
    handlers, which are folds over their entries, are proved step by step
    with [fold_left_preorder]; the animation frame, which empties the
    frame list before re-requesting, is proved as a whole. *)

From S2P Require Import Prelude JsRuntime CountUp CounterPage.
From stdpp Require Import gmap relations.

Import CountUp CounterPage.

Module CounterSpec.

(** ** The abstract machine *)

Inductive phase := Pending | Animating | Done.

#[global] Instance phase_eq_dec : EqDecision phase.
Proof. solve_decision. Defined.

(** Claiming a pending counter, and its animation ending. *)
Inductive astep : phase -> phase -> Prop :=
| claim : astep Pending Animating
| finish : astep Animating Done.

Definition phase_rank (p : phase) : nat :=
  match p with Pending => 0 | Animating => 1 | Done => 2 end.

(** ** The abstraction of a page *)

Definition phase_of (s : page) (d : string) : phase :=
  if decide (d ∈ pg_started s) then
    if decide (d ∈ map fst (pg_frames s)) then Animating else Done
  else Pending.

(** Every requested frame belongs to a started counter, and no counter
    has two frames requested. *)
Definition frames_inv (s : page) : Prop :=
  Forall (fun f => f.1 ∈ pg_started s) (pg_frames s) /\ NoDup (map fst (pg_frames s)).

Definition phase_inv (s : page) : Prop := claim_inv s /\ frames_inv s.

(** No counter's phase moves backward. *)
Definition fwd (s s' : page) : Prop := forall d, phase_rank (phase_of s d) <= phase_rank (phase_of s' d).

Definition adv (s s' : page) : Prop := phase_inv s -> phase_inv s' /\ fwd s s'.

(** ** The abstract machine's reachability is the order of phases *)

Lemma astep_rank (p q : phase) : rtc astep p q <-> phase_rank p <= phase_rank q.
Proof.
  split.
  - induction 1 as [|p1 p2 p3 H _ IH]; [lia|]. destruct H; cbn in *; lia.
  - destruct p, q; cbn; intros H; try lia; try reflexivity.
    + apply rtc_once, claim.
    + eapply rtc_l; [apply claim | apply rtc_once, finish].
    + apply rtc_once, finish.
Qed.

(** ** [adv] is a preorder *)

#[global] Instance adv_preorder : PreOrder adv.
Proof.
  split.
  - intros s H. split; [exact H | intros d; lia].
  - intros s1 s2 s3 H1 H2 H. destruct (H1 H) as [H' F1]. destruct (H2 H') as [H'' F2].
    split; [exact H'' | intros d; specialize (F1 d); specialize (F2 d); lia].
Qed.

(** A step that keeps the [countUp] trace and the requested frames, and
    removes no [counted] class. *)
Lemma adv_grows (s s' : page) : grows s s' -> pg_frames s' = pg_frames s -> adv s s'.
Proof.
  intros Hg Hf [Hc Hfr]. pose proof Hg as [Hs _]. split.
  - split; [exact (inv_grows s s' Hc Hg)|]. unfold frames_inv. rewrite Hf, Hs. exact Hfr.
  - intros d. unfold phase_of. rewrite Hf, Hs. lia.
Qed.

(** A step that keeps the trace and only drops requested frames. *)
Lemma adv_frames_shrink (s s' : page) :
  grows s s' -> pg_frames s' `sublist_of` pg_frames s -> adv s s'.
Proof.
  intros Hg Hsub [Hc [Hfr Hnd]]. pose proof Hg as [Hs _].
  pose proof (sublist_subseteq _ _ Hsub) as Hin.
  split; [split; [exact (inv_grows s s' Hc Hg)|]|].
  - unfold frames_inv. rewrite Hs. split.
    + apply Forall_forall. intros f Hf. rewrite Forall_forall in Hfr. exact (Hfr f (Hin f Hf)).
    + eapply sublist_NoDup; [exact Hnd | apply (fmap_sublist fst), Hsub].
  - intros d. unfold phase_of. rewrite Hs.
    destruct (decide (d ∈ pg_started s)); [|lia].
    destruct (decide (d ∈ map fst (pg_frames s'))) as [Hd|]; destruct (decide (d ∈ map fst (pg_frames s))) as [|Hnin];
      cbn; try lia.
    exfalso. apply Hnin. apply list_elem_of_fmap in Hd as (f & -> & Hf).
    apply list_elem_of_fmap_2, Hin, Hf.
Qed.

(** ** The handlers' steps *)

Lemma set_counted_trace (s : page) (d : string) :
  pg_started (set_counted d s) = pg_started s /\ pg_frames (set_counted d s) = pg_frames s.
Proof. unfold set_counted. now destruct (pg_dom s !! d). Qed.

(** The check-then-set of lines 76/106 and 200/203 claims a pending
    counter: the one step that leaves [Pending]. *)
Lemma adv_claim (s : page) (d : string) (dv : div_el) t du su :
  pg_dom s !! d = Some dv -> div_counted dv = false ->
  adv s (set_counted d (count_up d t du su s)).
Proof.
  intros E Hnc [Hc [Hfr Hnd]].
  destruct (set_counted_trace (count_up d t du su s) d) as [Hs Hf]. cbn in Hs, Hf.
  assert (Hnot : d ∉ pg_started s).
  { intros Hin. destruct Hc as [_ Hc]. rewrite Forall_forall in Hc.
    specialize (Hc d Hin). unfold is_counted in Hc. rewrite E in Hc. congruence. }
  split; [split|].
  - exact (inv_claim s d dv t du su Hc E Hnc).
  - unfold frames_inv in *. rewrite Hs, Hf. split; [apply Forall_app; split|].
    + eapply Forall_impl; [exact Hfr|]. intros f Hin. apply elem_of_app. now left.
    + constructor; [|constructor]. cbn. apply elem_of_app. right. now apply list_elem_of_singleton.
    + rewrite fmap_app. apply NoDup_app. split; [exact Hnd|]. split; [|apply NoDup_singleton].
      intros x Hx Hx'. apply list_elem_of_singleton in Hx'. cbn in Hx'. subst x. apply Hnot.
      apply list_elem_of_fmap in Hx as (f & -> & Hfx). rewrite Forall_forall in Hfr. exact (Hfr f Hfx).
  - intros d'. unfold phase_of at 2. rewrite Hs, Hf, fmap_app. cbn.
    destruct (decide (d' = d)) as [->|Hne].
    + unfold phase_of. destruct (decide (d ∈ pg_started s)); [contradiction|]. cbn. lia.
    + assert (E1 : d' ∈ pg_started s ++ [d] <-> d' ∈ pg_started s)
        by (rewrite elem_of_app, list_elem_of_singleton; tauto).
      assert (E2 : d' ∈ (pg_frames s).*1 ++ [d] <-> d' ∈ map fst (pg_frames s))
        by (rewrite elem_of_app, list_elem_of_singleton; tauto).
      unfold phase_of.
      destruct (decide (d' ∈ pg_started s)); destruct (decide (d' ∈ pg_started s ++ [d])); try tauto;
        destruct (decide (d' ∈ map fst (pg_frames s))); destruct (decide (d' ∈ (pg_frames s).*1 ++ [d]));
        cbn; tauto || lia.
Qed.

Lemma adv_intersect_one (i : nat) (s : page) (entry : string * bool) : adv s (intersect_one i s entry).
Proof.
  destruct entry as [d b]. cbn [intersect_one].
  destruct (pg_dom s !! d) as [dv|] eqn:E; [|reflexivity].
  destruct (b && negb (div_counted dv)) eqn:Eb; [|reflexivity].
  apply andb_true_iff in Eb as [_ Hnc]. apply negb_true_iff in Hnc.
  destruct (div_h2 dv) as [h|]; [|reflexivity].
  destruct (h2_dispatch (h2_id h)) as [[[t du] su]|].
  - etransitivity; [exact (adv_claim s d dv t du su E Hnc)|].
    apply adv_grows; [now apply grows_same | reflexivity].
  - etransitivity; [apply adv_grows; [apply grows_set_counted | apply set_counted_trace]|].
    apply adv_grows; [now apply grows_same | reflexivity].
Qed.

Lemma adv_trigger_configs (cfgs : list (string * config)) (s : page) : adv s (trigger_configs cfgs s).
Proof.
  unfold trigger_configs. apply fold_left_preorder; [apply adv_preorder|]. intros acc [d c]. cbn [trigger_one].
  destruct (pg_dom acc !! d) as [dv|] eqn:E; [|reflexivity].
  destruct (has_h2 dv && negb (div_counted dv)) eqn:Eb; [|reflexivity].
  apply andb_true_iff in Eb as [_ Hnc]. apply negb_true_iff in Hnc.
  exact (adv_claim acc d dv _ _ _ E Hnc).
Qed.

Lemma adv_initialize_counters (s : page) : adv s (initialize_counters s).
Proof.
  unfold initialize_counters.
  destruct (negb (all_elements_found s)); [apply adv_grows; [now apply grows_same | reflexivity]|].
  destruct (negb (pg_io s)); [apply adv_trigger_configs|].
  apply adv_grows; [now apply grows_same | reflexivity].
Qed.

Lemma adv_run_task (t : task) (s : page) : adv s (run_task t s).
Proof.
  destruct t; cbn [run_task]; [apply adv_initialize_counters|].
  unfold fallback_check. destruct (Nat.ltb _ _); [apply adv_trigger_configs | reflexivity].
Qed.

Lemma adv_run_listener (l : listener) (s : page) : adv s (run_listener l s).
Proof.
  destruct l; cbn [run_listener]; [|apply adv_initialize_counters].
  apply adv_grows; [now apply grows_same | reflexivity].
Qed.

Lemma set_h2_text_frames (s : page) (d txt : string) : pg_frames (set_h2_text d txt s) = pg_frames s.
Proof. unfold set_h2_text. now destruct (pg_dom s !! d) as [[[h|] c]|]. Qed.

(** A frame re-requests only callbacks that were requested before it,
    in their order. *)
Lemma fold_callbacks_sublist (t : Z) (l : list (string * anim)) (acc : page) (k : list (string * anim)) :
  pg_frames acc `sublist_of` k -> pg_frames (fold_left (run_callback t) l acc) `sublist_of` k ++ l.
Proof.
  revert acc k. induction l as [|[d a] l IH]; intros acc k H; cbn [fold_left]; [now rewrite app_nil_r|].
  replace (k ++ (d, a) :: l) with ((k ++ [(d, a)]) ++ l) by (now rewrite <- app_assoc).
  apply IH. cbn [run_callback]. destruct (frame a t) as [txt []]; cbn; rewrite set_h2_text_frames.
  - apply sublist_app; [exact H | reflexivity].
  - apply sublist_inserts_r, H.
Qed.

Lemma adv_animation_frame (t : Z) (s : page) : adv s (animation_frame t s).
Proof.
  apply adv_frames_shrink; [apply animation_frame_grows|].
  unfold animation_frame. apply (fold_callbacks_sublist t _ _ []). apply sublist_nil_l.
Qed.

Lemma adv_exec_event (e : event) (s s' : page) : exec_event e s = Some s' -> adv s s'.
Proof.
  intros He. destruct e; cbn [exec_event] in He.
  - unfold fire_timer in He. destruct (next_timer (pg_timers s)) as [[i [due t]]|]; [|discriminate].
    invc He. etransitivity; [|apply adv_run_task]. apply adv_grows; [now apply grows_same | reflexivity].
  - destruct (Z.leb _ _); [|discriminate]. invc He. apply adv_animation_frame.
  - destruct (pg_observers s !! i); [|discriminate].
    destruct (forallb _ _); [|discriminate]. invc He.
    unfold on_intersection. apply fold_left_preorder; [apply adv_preorder | apply adv_intersect_one].
  - invc He. apply adv_trigger_configs.
  - destruct (pg_dom s !! d) eqn:E; [discriminate|]. invc He.
    apply adv_grows; [now apply insert_grows | reflexivity].
  - destruct (pg_dcl_fired s); [discriminate|]. invc He.
    transitivity (set_dcl_fired s); [apply adv_grows; [now apply grows_same | reflexivity]|].
    apply fold_left_preorder; [apply adv_preorder | intros acc l; apply adv_run_listener].
  - destruct (pg_ready_fired s); [discriminate|]. invc He.
    apply adv_grows; [now apply grows_same | reflexivity].
Qed.

Lemma run_events_adv (es : list event) (s s' : page) : run_events es s = Some s' -> adv s s'.
Proof.
  revert s. induction es as [|e es IH]; intros s He; cbn in He; [invc He; reflexivity|].
  destruct (exec_event e s) as [s1|] eqn:E; [|discriminate].
  transitivity s1; [exact (adv_exec_event e s s1 E) | exact (IH s1 He)].
Qed.

Lemma reachable_phase_inv (s : page) : reachable s -> phase_inv s.
Proof.
  induction 1 as [now dom io loading _|e s s' _ IH He].
  - split; [apply initial_page_inv|]. unfold frames_inv, initial_page, script_load.
    destruct loading; cbn; split; constructor.
  - exact (proj1 (adv_exec_event e s s' He IH)).
Qed.

(** ** Refinement *)

(** C2: The counter engine refines the spec's per-counter state machine
    [Pending -> Animating -> Done]: over any run of browser events from
    a reachable page, each counter's phase follows the machine's steps
    (it is claimed at most once and a finished animation never
    restarts), and a counter that has left [Pending] carries the
    [counted] class, the flag the code uses as the claim. *)
Theorem counter_refinement (s s' : page) (es : list event) :
  reachable s -> run_events es s = Some s' ->
  forall d, rtc astep (phase_of s d) (phase_of s' d) /\
            (phase_of s' d <> Pending -> is_counted s' d = true).
Proof.
  intros Hr He d. destruct (run_events_adv es s s' He (reachable_phase_inv s Hr)) as [[[_ Hc] _] Hf].
  split; [apply astep_rank, Hf|].
  unfold phase_of. destruct (decide (d ∈ pg_started s')) as [Hin|]; [|congruence].
  intros _. rewrite Forall_forall in Hc. exact (Hc d Hin).
Qed.

Lemma demo_page_reachable_at_load : reachable demo_page.
Proof. apply reach_load. apply (bool_decide_unpack _). vm_compute. reflexivity. Qed.

(** The demo page load takes the engine counter from [Pending] to [Done]. *)
Lemma counter_refinement_witness :
  reachable demo_page /\ run_events demo_events demo_page = Some demo_after /\
  phase_of demo_page "engine-sale-div" = Pending /\ phase_of demo_after "engine-sale-div" = Done /\
  forall d, rtc astep (phase_of demo_page d) (phase_of demo_after d) /\
            (phase_of demo_after d <> Pending -> is_counted demo_after d = true).
Proof.
  assert (H2 : run_events demo_events demo_page = Some demo_after) by (vm_compute; reflexivity).
  split; [exact demo_page_reachable_at_load|]. split; [exact H2|].
  split; [vm_compute; reflexivity|]. split; [vm_compute; reflexivity|].
  exact (counter_refinement _ _ _ demo_page_reachable_at_load H2).
Defined.

(** ** Liveness: every animation finishes *)

(** The text of container [d]'s heading, when it has one. *)
Definition h2_text_of (s : page) (d : string) : option string :=
  match pg_dom s !! d with Some (mkDiv (Some h) _) => Some (h2_text h) | _ => None end.

Lemma set_h2_text_lookup_ne (s : page) (d d' txt : string) :
  d' <> d -> pg_dom (set_h2_text d' txt s) !! d = pg_dom s !! d.
Proof.
  intros Hne. unfold set_h2_text.
  destruct (pg_dom s !! d') as [[[h|] c]|]; cbn; [now rewrite lookup_insert_ne|..]; reflexivity.
Qed.

(** A callback of another container leaves [d]'s element alone and
    requests no frame for [d]. *)
Lemma run_callback_other (t : Z) (acc : page) (d d' : string) (a' : anim) :
  d' <> d ->
  pg_dom (run_callback t acc (d', a')) !! d = pg_dom acc !! d /\
  (d ∈ map fst (pg_frames (run_callback t acc (d', a'))) <-> d ∈ map fst (pg_frames acc)).
Proof.
  intros Hne. cbn [run_callback]. destruct (frame a' t) as [txt more]. split.
  - destruct more; cbn [pg_dom set_frames]; now apply set_h2_text_lookup_ne.
  - destruct more; cbn [pg_frames set_frames]; rewrite set_h2_text_frames; [|reflexivity].
    rewrite map_app, elem_of_app. cbn [map fst]. rewrite list_elem_of_singleton. split; [|now left].
    intros [H|H]; [exact H | congruence].
Qed.

Lemma fold_callbacks_other (t : Z) (l : list (string * anim)) (acc : page) (d : string) :
  d ∉ map fst l ->
  pg_dom (fold_left (run_callback t) l acc) !! d = pg_dom acc !! d /\
  (d ∈ map fst (pg_frames (fold_left (run_callback t) l acc)) <-> d ∈ map fst (pg_frames acc)).
Proof.
  revert acc. induction l as [|[d' a'] l IH]; intros acc Hl; cbn [fold_left]; [tauto|].
  cbn in Hl. apply not_elem_of_cons in Hl as [Hne Hl].
  destruct (IH (run_callback t acc (d', a')) Hl) as [IH1 IH2].
  destruct (run_callback_other t acc d d' a') as [H1 H2]; [congruence|].
  split; [congruence | tauto].
Qed.

(** The callback of an animation whose duration has elapsed writes the
    final text and requests no further frame. *)
Lemma run_callback_done (t : Z) (acc : page) (d : string) (a : anim) (h : h2_el) (c : bool) :
  (an_start a + Zpos (an_duration a) <= t)%Z -> pg_dom acc !! d = Some (mkDiv (Some h) c) ->
  pg_dom (run_callback t acc (d, a)) !! d =
    Some (mkDiv (Some (mkH2 (h2_id h) (final_text (an_suffix a) (an_target a)))) c) /\
  pg_frames (run_callback t acc (d, a)) = pg_frames acc.
Proof.
  intros Ht Hd. cbn [run_callback]. rewrite frame_done by exact Ht.
  rewrite set_h2_text_frames. unfold set_h2_text. rewrite Hd. cbn.
  split; [apply lookup_insert_eq | reflexivity].
Qed.

Lemma nodup_split_key {B} (pre post : list (string * B)) (d : string) (b : B) :
  NoDup (map fst (pre ++ (d, b) :: post)) -> (d ∉ map fst pre) /\ (d ∉ map fst post).
Proof.
  rewrite map_app. cbn. intros (_ & Hdis & Hpost)%NoDup_app.
  apply NoDup_cons in Hpost as [Hpost _]. split; [|exact Hpost].
  intros Hpre. exact (Hdis d Hpre ltac:(left)).
Qed.

(** In the frame, [d]'s own callback is the only one that touches its
    heading: the frame ends with the final text there and no frame
    requested for [d]. *)
Lemma animation_frame_final (s : page) (t : Z) (d : string) (a : anim) (h : h2_el) (c : bool) :
  NoDup (map fst (pg_frames s)) -> (d, a) ∈ pg_frames s ->
  pg_dom s !! d = Some (mkDiv (Some h) c) -> (an_start a + Zpos (an_duration a) <= t)%Z ->
  h2_text_of (animation_frame t s) d = Some (final_text (an_suffix a) (an_target a)) /\
  d ∉ map fst (pg_frames (animation_frame t s)).
Proof.
  intros Hnd Hin Hd Ht. apply list_elem_of_split in Hin as (pre & post & Hl).
  rewrite Hl in Hnd. apply nodup_split_key in Hnd as [Hpre Hpost].
  unfold animation_frame. rewrite Hl, fold_left_app. cbn [fold_left].
  set (acc0 := set_frames [] (set_now t s)).
  destruct (fold_callbacks_other t pre acc0 d Hpre) as [D1 F1].
  set (acc1 := fold_left (run_callback t) pre acc0) in *.
  destruct (run_callback_done t acc1 d a h c Ht) as [D2 F2]; [exact (eq_trans D1 Hd)|].
  destruct (fold_callbacks_other t post (run_callback t acc1 (d, a)) d Hpost) as [D3 F3].
  unfold h2_text_of. rewrite D3, D2. split; [reflexivity|].
  rewrite F3, F2, F1. cbn. apply not_elem_of_nil.
Qed.

(** C3: Every started animation finishes. On a reachable page, the
    first animation frame at or after the end of a pending animation's
    duration (and not before the page clock) is accepted, writes the
    exact final text [formatNumber(target) + suffix] into the counter's
    heading, and leaves the counter [Done]: no other counter's callback
    overwrites it and no further frame is requested for it. *)
Theorem animation_finishes (s : page) (t : Z) (d : string) (a : anim) (h : h2_el) (c : bool) :
  reachable s -> (d, a) ∈ pg_frames s -> pg_dom s !! d = Some (mkDiv (Some h) c) ->
  (pg_now s <= t)%Z -> (an_start a + Zpos (an_duration a) <= t)%Z ->
  exists s', exec_event (EvFrame t) s = Some s' /\
    h2_text_of s' d = Some (final_text (an_suffix a) (an_target a)) /\ phase_of s' d = Done.
Proof.
  intros Hr Hin Hd Hnow Ht. destruct (reachable_phase_inv s Hr) as [_ [Hfr Hnd]].
  cbn [exec_event]. rewrite (proj2 (Z.leb_le _ _) Hnow). eexists. split; [reflexivity|].
  destruct (animation_frame_final s t d a h c Hnd Hin Hd Ht) as [Htext Hnot].
  split; [exact Htext|]. unfold phase_of.
  rewrite (proj1 (animation_frame_grows t s)).
  rewrite Forall_forall in Hfr. rewrite (decide_True _ _ (Hfr (d, a) Hin)).
  now rewrite (decide_False _ _ Hnot).
Qed.

(** The demo page five events in: the engine counter's animation runs
    from 500 ms for 2500 ms; the frame at 3000 ms ends it at [40k]. *)
Definition demo_mid_anim : anim := mkAnim 40000 2500 "k" 500.

Definition demo_mid_page : page :=
  match run_events (firstn 5 demo_events) demo_page with Some s => s | None => demo_page end.

Lemma animation_finishes_witness :
  exists s', exec_event (EvFrame 3000) demo_mid_page = Some s' /\
    h2_text_of s' "engine-sale-div" = Some "40k" /\ phase_of s' "engine-sale-div" = Done.
Proof.
  assert (Hr : reachable demo_mid_page).
  { apply (run_events_reachable (firstn 5 demo_events) demo_page);
      [exact demo_page_reachable_at_load | vm_compute; reflexivity]. }
  assert (Hin : ("engine-sale-div", demo_mid_anim) ∈ pg_frames demo_mid_page).
  { assert (Hf : pg_frames demo_mid_page = [("engine-sale-div", demo_mid_anim)]) by (vm_compute; reflexivity).
    rewrite Hf. now apply list_elem_of_singleton. }
  assert (Hd : pg_dom demo_mid_page !! "engine-sale-div" = Some (mkDiv (Some (mkH2 "engine-sale" "3k")) true)).
  { vm_compute. reflexivity. }
  assert (Hn : (pg_now demo_mid_page <= 3000)%Z) by (vm_compute; discriminate).
  assert (Hf : final_text "k" 40000 = "40k") by (vm_compute; reflexivity).
  destruct (animation_finishes demo_mid_page 3000 "engine-sale-div" demo_mid_anim _ _ Hr Hin Hd Hn)
    as (s' & H1 & H2 & H3); [vm_compute; discriminate|].
  exists s'. split; [exact H1|]. split; [|exact H3]. rewrite H2. exact (f_equal Some Hf).
Defined.

End CounterSpec.
