(* ===== verification/CounterLoad.v ===== *)
(** * The counters from the script load to their final texts

    The parts of the counter engine compose: the script load schedules
    [initializeCounters] after 100 ms (lines 209-220), which either
    starts every counter at once ([triggerCountersImmediately], lines
    186-206, when [IntersectionObserver] is missing) or registers the
    observer and the 10 s fallback closure (lines 141-182); the fallback
    starts every counter the observer has not reported; each [countUp]
    (lines 25-71) requests frames until its 2500 ms have elapsed. This
    file proves the whole run at once ([counters_reach_targets]): on a
    page whose four containers and headings are present when the script
    runs, even when the observer never reports, the timers that are due
    and one animation frame late enough leave every heading showing the
    text of its [counterConfigs] entry and no frame requested.

    The lemmas: [trigger_configs_start] computes the animations a trigger
    starts; [animation_frame_all_done] computes a frame in which every
    pending animation has elapsed. *)

From S2P Require Import Prelude JsRuntime CountUp CounterPage CounterSpec.
From stdpp Require Import gmap.

Import CountUp CounterPage CounterSpec.

Module CounterLoad.

(** The animation [countUp] starts for a configured container at the
    page clock. *)
Definition started_anim (now : Z) (e : string * config) : string * anim :=
  (e.1, mkAnim (cfg_target e.2) config_duration (cfg_suffix e.2) now).

(** ** Starting the counters *)

Lemma present_h2_lookup (s : page) (d : string) :
  present_h2 s d = true -> exists h c, pg_dom s !! d = Some (mkDiv (Some h) c).
Proof.
  unfold present_h2, has_h2. destruct (pg_dom s !! d) as [[[h|] c]|]; try discriminate.
  intros _. now exists h, c.
Qed.

Lemma trigger_one_start (s : page) (d : string) (c : config) :
  present_h2 s d = true -> is_counted s d = false ->
  pg_frames (trigger_one s (d, c)) = pg_frames s ++ [started_anim (pg_now s) (d, c)] /\
  pg_now (trigger_one s (d, c)) = pg_now s.
Proof.
  unfold present_h2, is_counted. cbn [trigger_one].
  destruct (pg_dom s !! d) as [dv|] eqn:E; [|discriminate]. intros Hh Hc.
  rewrite Hh, Hc. cbn. unfold set_counted. cbn [pg_dom count_up]. rewrite E. split; reflexivity.
Qed.

(** A trigger over configured containers that are all present and not
    counted starts one animation per container, in the list's order. *)
Lemma trigger_configs_start (cfgs : list (string * config)) (s : page) :
  NoDup (map fst cfgs) ->
  Forall (fun e => present_h2 s e.1 = true /\ is_counted s e.1 = false) cfgs ->
  pg_frames (trigger_configs cfgs s) = pg_frames s ++ map (started_anim (pg_now s)) cfgs /\
  pg_now (trigger_configs cfgs s) = pg_now s.
Proof.
  revert s. induction cfgs as [|[d c] rest IH]; intros s Hnd Hall.
  { cbn. now rewrite app_nil_r. }
  cbn [map fst] in Hnd. apply NoDup_cons in Hnd as [Hd Hnd].
  apply Forall_cons in Hall as [[Hp Hc] Hall].
  destruct (trigger_one_start s d c Hp Hc) as [Hf Hn].
  unfold trigger_configs. cbn [fold_left]. fold (trigger_configs rest (trigger_one s (d, c))).
  destruct (IH (trigger_one s (d, c))) as [IHf IHn]; [exact Hnd| |].
  - apply Forall_forall. intros [d' c'] Hin. cbn [fst].
    assert (Hne : d <> d') by (intros ->; apply Hd, list_elem_of_In, in_map_iff;
      exists (d', c'); split; [reflexivity | now apply list_elem_of_In]).
    rewrite Forall_forall in Hall. destruct (Hall _ Hin) as [Hp' Hc']. split.
    + destruct (trigger_one_mono s (d, c)) as (_ & _ & M). now apply M.
    + rewrite trigger_one_other by exact Hne. exact Hc'.
  - rewrite IHf, IHn, Hf, Hn, <- app_assoc. split; reflexivity.
Qed.

(** ** A frame after every animation has elapsed *)

Lemma fold_callbacks_done_frames (t : Z) (l : list (string * anim)) (acc : page) :
  Forall (fun f => (an_start f.2 + Zpos (an_duration f.2) <= t)%Z) l ->
  pg_frames (fold_left (run_callback t) l acc) = pg_frames acc.
Proof.
  revert acc. induction l as [|[d a] l IH]; intros acc Hl; [reflexivity|].
  apply Forall_cons in Hl as [Ha Hl]. cbn [fold_left]. rewrite IH by exact Hl.
  cbn [run_callback]. rewrite frame_done by exact Ha. apply set_h2_text_frames.
Qed.

(** A frame at which every pending animation has elapsed writes each
    final text and requests no further frame. *)
Lemma animation_frame_all_done (s : page) (t : Z) :
  NoDup (map fst (pg_frames s)) ->
  Forall (fun f => present_h2 s f.1 = true /\ (an_start f.2 + Zpos (an_duration f.2) <= t)%Z) (pg_frames s) ->
  Forall (fun f => h2_text_of (animation_frame t s) f.1 = Some (final_text (an_suffix f.2) (an_target f.2)))
    (pg_frames s) /\
  pg_frames (animation_frame t s) = [].
Proof.
  intros Hnd Hall. split.
  - apply Forall_forall. intros [d a] Hin. rewrite Forall_forall in Hall.
    destruct (Hall _ Hin) as [Hp Ht]. destruct (present_h2_lookup s d Hp) as (h & c & Hd).
    exact (proj1 (animation_frame_final s t d a h c Hnd Hin Hd Ht)).
  - unfold animation_frame. rewrite fold_callbacks_done_frames; [reflexivity|].
    eapply Forall_impl; [exact Hall | intros f [_ Ht]; exact Ht].
Qed.

(** ** The run from the script load *)

Lemma counter_configs_nodup : NoDup (map fst counter_configs).
Proof. apply (bool_decide_unpack _). vm_compute. reflexivity. Qed.

Lemma started_keys (now : Z) : map fst (map (started_anim now) counter_configs) = map fst counter_configs.
Proof. reflexivity. Qed.

(** One timer pending: the timer event runs it at its due time. *)
Lemma exec_timer_single (s : page) (due : Z) (t : task) :
  pg_timers s = [(due, t)] ->
  exec_event EvTimer s = Some (run_task t (set_now (Z.max (pg_now s) due) (set_timers [] s))).
Proof. intros H. cbn [exec_event]. unfold fire_timer. now rewrite H, next_timer_single. Qed.

(** The fallback closure runs the trigger when a container is present
    and not counted. *)
Lemma fallback_check_trigger (s : page) (d : string) :
  d ∈ counter_divs -> is_Some (pg_dom s !! d) -> is_counted s d = false ->
  fallback_check s = trigger_counters_immediately s.
Proof.
  intros Hd Hp Hc. unfold fallback_check. destruct (Nat.ltb 0 _) eqn:E; [reflexivity|].
  apply Nat.ltb_ge, Nat.le_0_r, length_zero_iff_nil in E. exfalso.
  exact (filter_nil_not_elem_of _ _ d E (conj Hp Hc) Hd).
Qed.

(** The trigger on a page where the four containers are present and not
    counted, then one frame 2500 ms or more later: every heading shows
    its configured text and no frame is left. *)
Lemma trigger_then_frame (q : page) (t : Z) :
  all_elements_found q = true -> Forall (fun d => is_counted q d = false) counter_divs ->
  pg_frames q = [] -> (pg_now q + 2500 <= t)%Z ->
  exists s', exec_event (EvFrame t) (trigger_counters_immediately q) = Some s' /\
    Forall (fun e => h2_text_of s' e.1 = Some (final_text (cfg_suffix e.2) (cfg_target e.2))) counter_configs /\
    pg_frames s' = [].
Proof.
  intros Hall Hunc Hfr Ht.
  assert (Hcfg : Forall (fun e => present_h2 q e.1 = true /\ is_counted q e.1 = false) counter_configs).
  { apply Forall_forall. intros [d c] Hin.
    assert (Hd : d ∈ counter_divs) by (change counter_divs with (map fst counter_configs);
      apply list_elem_of_In, in_map_iff; exists (d, c); split; [reflexivity | now apply list_elem_of_In]).
    rewrite Forall_forall in Hunc. split; [now apply all_found_present | now apply Hunc]. }
  destruct (trigger_configs_start counter_configs q counter_configs_nodup Hcfg) as [Hf Hn].
  unfold trigger_counters_immediately. cbn [exec_event]. rewrite Hn, (proj2 (Z.leb_le _ _)) by lia.
  eexists. split; [reflexivity|].
  destruct (animation_frame_all_done (trigger_configs counter_configs q) t) as [Htxt Hnil].
  - rewrite Hf, Hfr. cbn [app]. rewrite started_keys. exact counter_configs_nodup.
  - rewrite Hf, Hfr. cbn [app]. apply List.Forall_map. apply Forall_forall. intros e Hin. split.
    + destruct (trigger_configs_mono counter_configs q) as (_ & _ & M). apply M.
      rewrite Forall_forall in Hcfg. exact (proj1 (Hcfg e Hin)).
    + cbn. unfold config_duration. lia.
  - rewrite Hf, Hfr in Htxt. cbn [app] in Htxt. apply List.Forall_map in Htxt.
    split; [exact Htxt | exact Hnil].
Qed.

(** C4: The counters reach their targets from the script load, even
    when the observer never reports. On a page whose four containers and
    headings are present, none counted, when the script runs after the
    document has loaded: without [IntersectionObserver], the 100 ms timer
    and one frame 2500 ms after it, and with it, the 100 ms timer, the
    10 s fallback and one frame 2500 ms after that, leave each heading
    showing the final text of its [counterConfigs] entry (target and
    suffix), with no animation frame still requested. *)
Theorem counters_reach_targets (now t : Z) (dom : gmap string div_el) (io : bool) :
  map_Forall (fun _ dv => div_counted dv = false) dom ->
  all_elements_found (initial_page now dom io false) = true ->
  (now + (if io then 10100 else 100) + 2500 <= t)%Z ->
  exists s', run_events ((if io then [EvTimer; EvTimer] else [EvTimer]) ++ [EvFrame t])
                        (initial_page now dom io false) = Some s' /\
    Forall (fun e => h2_text_of s' e.1 = Some (final_text (cfg_suffix e.2) (cfg_target e.2))) counter_configs /\
    pg_frames s' = [].
Proof.
  intros Hunc Hall Ht.
  assert (Hu : forall q, pg_dom q = dom -> Forall (fun d => is_counted q d = false) counter_divs).
  { intros q Hq. apply Forall_forall. intros d _. unfold is_counted. rewrite Hq.
    destruct (dom !! d) as [dv|] eqn:E; [exact (Hunc d dv E) | reflexivity]. }
  set (p0 := initial_page now dom io false) in *.
  assert (H1 : exec_event EvTimer p0 = Some (initialize_counters (set_now (now + 100) (set_timers [] p0)))).
  { rewrite (exec_timer_single p0 (now + 100) TInitCounters eq_refl).
    change (pg_now p0) with now. now rewrite Z.max_r by lia. }
  assert (Hall1 : all_elements_found (set_now (now + 100) (set_timers [] p0)) = true)
    by (rewrite <- Hall; apply all_found_dom; reflexivity).
  destruct io; cbn [app run_events]; rewrite H1; unfold initialize_counters; rewrite Hall1; cbn [negb].
  - change (pg_io (set_now (now + 100) (set_timers [] p0))) with true. cbn [negb]. unfold set_timeout.
    match goal with |- context [exec_event EvTimer ?q] =>
      rewrite (exec_timer_single q (now + 100 + 10000) TFallbackCheck eq_refl) end.
    cbn [run_task]. rewrite Z.max_r by (cbn; lia).
    destruct (present_h2_lookup p0 "engine-sale-div" (all_found_present p0 _ Hall ltac:(apply list_elem_of_In; now left)))
      as (h & c & Hd).
    match goal with |- context [fallback_check ?q] =>
      assert (Hq : pg_dom q = dom) by reflexivity;
      rewrite (fallback_check_trigger q "engine-sale-div");
        [destruct (trigger_then_frame q t) as (s' & Hx & Htxt & Hnil)
        | apply list_elem_of_In; now left
        | rewrite Hq; exact (ex_intro _ _ Hd)
        | exact (Forall_inv (Hu q Hq))] end.
    + rewrite <- Hall. apply all_found_dom. reflexivity.
    + apply Hu. reflexivity.
    + reflexivity.
    + cbn. lia.
    + exists s'. cbn [app run_events]. rewrite Hx. split; [reflexivity | split; assumption].
  - change (pg_io (set_now (now + 100) (set_timers [] p0))) with false. cbn [negb].
    match goal with |- context [trigger_counters_immediately ?q] =>
      destruct (trigger_then_frame q t) as (s' & Hx & Htxt & Hnil) end.
    + rewrite <- Hall. apply all_found_dom. reflexivity.
    + apply Hu. reflexivity.
    + reflexivity.
    + cbn. lia.
    + exists s'. cbn [app run_events]. rewrite Hx. split; [reflexivity | split; assumption].
Qed.

(** The site's page ([demo_dom]) loaded at time 0 with an observer
    that never reports: the 100 ms timer, the fallback at 10.1 s and a
    frame at 12.6 s leave "40k", "50,000+", "Over 40" and "2,000+". *)
Lemma counters_reach_targets_witness :
  map_Forall (fun _ dv => div_counted dv = false) demo_dom /\
  all_elements_found (initial_page 0 demo_dom true false) = true /\
  exists s', run_events [EvTimer; EvTimer; EvFrame 12600] (initial_page 0 demo_dom true false) = Some s' /\
    h2_text_of s' "engine-sale-div" = Some "40k" /\
    h2_text_of s' "satisfied-customers-div" = Some "50,000+" /\
    h2_text_of s' "million-parts-div" = Some "Over 40" /\
    h2_text_of s' "inventory-yards-div" = Some "2,000+" /\ pg_frames s' = [].
Proof.
  assert (Hu : map_Forall (fun _ dv => div_counted dv = false) demo_dom)
    by (apply (bool_decide_unpack _); vm_compute; reflexivity).
  assert (Hall : all_elements_found (initial_page 0 demo_dom true false) = true) by (vm_compute; reflexivity).
  split; [exact Hu|]. split; [exact Hall|].
  destruct (counters_reach_targets 0 12600 demo_dom true Hu Hall ltac:(lia)) as (s' & Hr & Hf & Hn).
  assert (E1 : final_text "k" 40000 = "40k") by (vm_compute; reflexivity).
  assert (E2 : final_text "+" 50000 = "50,000+") by (vm_compute; reflexivity).
  assert (E3 : final_text "over" 40 = "Over 40") by (vm_compute; reflexivity).
  assert (E4 : final_text "+" 2000 = "2,000+") by (vm_compute; reflexivity).
  cbn [counter_configs] in Hf. apply Forall_cons in Hf as [H1 Hf]. apply Forall_cons in Hf as [H2 Hf].
  apply Forall_cons in Hf as [H3 Hf]. apply Forall_cons in Hf as [H4 _]. cbn [fst snd cfg_suffix cfg_target] in H1, H2, H3, H4.
  exists s'. split; [exact Hr|]. rewrite <- E1, <- E2, <- E3, <- E4. repeat split; assumption.
Defined.

End CounterLoad.
