(* ===== verification/QuoteForm.v ===== *)
(** * The quote form: required fields, subject line and e-mail body

    Models the pure part of the submit handler of part.js (lines
    248-326) and [createEmailTableContent] (lines 329-405): the form data
    the handler reads with jQuery's [.val()] (lines 255-266), the seven
    required-field checks with the message line and the border cue of
    each (lines 268-312), the subject line (line 321) and the HTML body.
    The effects (loader, alert, borders, sending) are in [Submission].

    A field value is a [jsval]: [.val()] gives a string, [undefined] when
    no element matches the selector, and [null] for a select with no
    option selected; the checks test JavaScript falsiness ([!value]), so
    the empty string, [undefined] and [null] all count as missing.

    The body is the template literal of lines 338-402, piece by piece:
    each literal piece is written out with its whitespace (double quotes
    written as apostrophes, see [JsRuntime.html]) and each [${...}] is
    [to_string] of the interpolated expression. The date
    [new Date().toLocaleDateString(...)] is a parameter.

    Theorems: the form passes the checks exactly when the seven required
    fields are truthy ([validate_ok_iff]); a form missing exactly one of
    them gets exactly that field's message and border cue
    ([validate_single_missing], used by [Submission.submit_single_missing]);
    the checks read the required fields and nothing else
    ([validate_reads_required_only]); and the body pairs
    every label with the value of its field in the next cell
    ([email_body_rows]). *)

From S2P Require Import Prelude JsRuntime.
From Stdlib Require Import Ascii String.

Module QuoteForm.

(** ** Form data (lines 255-266) *)

Record form_data := mkFormData {
  fd_year : jsval;
  fd_model : jsval;
  fd_part_name : jsval;
  fd_purchase : jsval;
  fd_vin : jsval;
  fd_name : jsval;
  fd_email : jsval;
  fd_mobile : jsval;
  fd_zip_code : jsval;
  fd_comment : jsval
}.

(** ** The required-field checks (lines 268-312) *)

(** JavaScript's ['\n']. *)
Definition nl : string := String (ascii_of_nat 10) EmptyString.

(** The element whose [border-bottom] a failed check turns red: the
    classes [.year-f] and [.model-f], or the [.input-field] wrapper
    ([closest('.input-field')]) of the named control. *)
Inductive border_group := YearF | ModelF | InputField (control : string).

#[global] Instance border_group_eq_dec : EqDecision border_group.
Proof. solve_decision. Defined.

(** One [if (!formData.f) { ... }] block: the field it tests, the line
    it appends to [errorMessage], and the element it marks. *)
Record check := mkCheck {
  ck_field : form_data -> jsval;
  ck_message : string;
  ck_group : border_group
}.

Definition required_checks : list check :=
  [mkCheck fd_year ("Year is required." +:+ nl) YearF;
   mkCheck fd_model ("Car model is required." +:+ nl) ModelF;
   mkCheck fd_part_name ("Part name is required." +:+ nl) (InputField "part_name");
   mkCheck fd_name ("Name is required." +:+ nl) (InputField "name");
   mkCheck fd_email ("Email is required." +:+ nl) (InputField "email");
   mkCheck fd_mobile ("Contact number is required." +:+ nl) (InputField "mobile");
   mkCheck fd_zip_code ("ZIP Code is required." +:+ nl) (InputField "zip_code")].

(** One check: a falsy field clears [isValid], appends its message and
    marks its group ([css('border-bottom', '2px solid red')]). *)
Definition run_check (fd : form_data) (acc : bool * string * list border_group) (ck : check)
    : bool * string * list border_group :=
  let '(isValid, errorMessage, marked) := acc in
  if truthy (ck_field ck fd) then acc
  else (false, errorMessage +:+ ck_message ck, marked ++ [ck_group ck]).

(** The checks in source order, from [isValid = true] and
    [errorMessage = '']: the final [isValid], [errorMessage], and the
    groups marked red, in order. *)
Definition validate (fd : form_data) : bool * string * list border_group :=
  fold_left (run_check fd) required_checks (true, EmptyString, []).

(** ** Subject (line 321) *)

Definition emailSubject (fd : form_data) : string :=
  str_plus "New Auto Parts Quote Request - " (fd_name fd).

(** ** [createEmailTableContent(data)] (lines 329-405) *)

Definition createEmailTableContent (currentDate : string) (data : form_data) : string :=
  html "
        <div style='font-family: Arial, sans-serif; max-width: 600px; margin: 0 auto;'>
            <div style='background-color: #04003f; color: white; padding: 20px; text-align: center;'>
                <h2>New Auto Parts Quote Request</h2>
                <p>Submitted on: " +:+
  currentDate +:+
  html "</p>
            </div>
            
            <table style='width: 100%; border-collapse: collapse; margin-top: 20px; border: 1px solid #ddd;'>
                <thead>
                    <tr style='background-color: #f8f9fa;'>
                        <th style='border: 1px solid #ddd; padding: 12px; text-align: left; font-weight: bold;'>Field</th>
                        <th style='border: 1px solid #ddd; padding: 12px; text-align: left; font-weight: bold;'>Details</th>
                    </tr>
                </thead>
                <tbody>
                    <tr>
                        <td style='border: 1px solid #ddd; padding: 12px; background-color: #f8f9fa; font-weight: bold;'>Customer Name</td>
                        <td style='border: 1px solid #ddd; padding: 12px;'>" +:+
  to_string (js_or (fd_name data) (JStr "Not provided")) +:+
  html "</td>
                    </tr>
                    <tr>
                        <td style='border: 1px solid #ddd; padding: 12px; background-color: #f8f9fa; font-weight: bold;'>Email Address</td>
                        <td style='border: 1px solid #ddd; padding: 12px;'><a href='mailto:" +:+
  to_string (fd_email data) +:+
  html "'>" +:+
  to_string (js_or (fd_email data) (JStr "Not provided")) +:+
  html "</a></td>
                    </tr>
                    <tr>
                        <td style='border: 1px solid #ddd; padding: 12px; background-color: #f8f9fa; font-weight: bold;'>Contact Number</td>
                        <td style='border: 1px solid #ddd; padding: 12px;'><a href='tel:" +:+
  to_string (fd_mobile data) +:+
  html "'>" +:+
  to_string (js_or (fd_mobile data) (JStr "Not provided")) +:+
  html "</a></td>
                    </tr>
                    <tr>
                        <td style='border: 1px solid #ddd; padding: 12px; background-color: #f8f9fa; font-weight: bold;'>ZIP Code</td>
                        <td style='border: 1px solid #ddd; padding: 12px;'>" +:+
  to_string (js_or (fd_zip_code data) (JStr "Not provided")) +:+
  html "</td>
                    </tr>
                    <tr style='background-color: #e3f2fd;'>
                        <td style='border: 1px solid #ddd; padding: 12px; background-color: #1976d2; color: white; font-weight: bold;'>Vehicle Year</td>
                        <td style='border: 1px solid #ddd; padding: 12px; font-weight: bold;'>" +:+
  to_string (js_or (fd_year data) (JStr "Not provided")) +:+
  html "</td>
                    </tr>
                    <tr style='background-color: #e3f2fd;'>
                        <td style='border: 1px solid #ddd; padding: 12px; background-color: #1976d2; color: white; font-weight: bold;'>Vehicle Model</td>
                        <td style='border: 1px solid #ddd; padding: 12px; font-weight: bold;'>" +:+
  to_string (js_or (fd_model data) (JStr "Not provided")) +:+
  html "</td>
                    </tr>
                    <tr style='background-color: #e3f2fd;'>
                        <td style='border: 1px solid #ddd; padding: 12px; background-color: #1976d2; color: white; font-weight: bold;'>Part Needed</td>
                        <td style='border: 1px solid #ddd; padding: 12px; font-weight: bold;'>" +:+
  to_string (js_or (fd_part_name data) (JStr "Not provided")) +:+
  html "</td>
                    </tr>
                    <tr>
                        <td style='border: 1px solid #ddd; padding: 12px; background-color: #f8f9fa; font-weight: bold;'>Purchase Timeline</td>
                        <td style='border: 1px solid #ddd; padding: 12px;'>" +:+
  to_string (js_or (fd_purchase data) (JStr "Not specified")) +:+
  html "</td>
                    </tr>
                    <tr>
                        <td style='border: 1px solid #ddd; padding: 12px; background-color: #f8f9fa; font-weight: bold;'>Vehicle VIN</td>
                        <td style='border: 1px solid #ddd; padding: 12px;'>" +:+
  to_string (js_or (fd_vin data) (JStr "Not provided")) +:+
  html "</td>
                    </tr>
                    <tr>
                        <td style='border: 1px solid #ddd; padding: 12px; background-color: #f8f9fa; font-weight: bold;'>Additional Comments</td>
                        <td style='border: 1px solid #ddd; padding: 12px;'>" +:+
  to_string (js_or (fd_comment data) (JStr "No additional comments")) +:+
  html "</td>
                    </tr>
                </tbody>
            </table>
            
            <div style='background-color: #f8f9fa; padding: 15px; margin-top: 20px; text-align: center;'>
                <p><strong>Next Steps:</strong></p>
                <p>Please contact the customer within 24 hours with a quote and availability information.</p>
                <p style='color: #666; font-size: 12px;'>This email was automatically generated from the oneauto-salvage.com quote request form.</p>
            </div>
        </div>
    ".

(** ** Lemmas on the checks *)

Lemma run_checks_valid (fd : form_data) (cks : list check) acc :
  (fold_left (run_check fd) cks acc).1.1 = acc.1.1 && forallb (fun ck => truthy (ck_field ck fd)) cks.
Proof.
  revert acc. induction cks as [|ck cks IH]; intros [[v m] g]; cbn; [now rewrite andb_true_r|].
  rewrite IH. destruct (truthy (ck_field ck fd)); cbn; [reflexivity|].
  now rewrite andb_false_r.
Qed.

Lemma run_checks_pass (fd : form_data) (cks : list check) acc :
  Forall (fun ck => truthy (ck_field ck fd) = true) cks ->
  fold_left (run_check fd) cks acc = acc.
Proof.
  intros H. revert acc. induction H as [|ck cks Hck _ IH]; intros [[v m] g]; [reflexivity|].
  cbn. rewrite Hck. apply IH.
Qed.

Lemma run_checks_ext (fd fd' : form_data) (cks : list check) acc :
  Forall (fun ck => ck_field ck fd = ck_field ck fd') cks ->
  fold_left (run_check fd) cks acc = fold_left (run_check fd') cks acc.
Proof.
  intros H. revert acc. induction H as [|ck cks Hck _ IH]; intros acc; [reflexivity|].
  cbn [fold_left].
  replace (run_check fd acc ck) with (run_check fd' acc ck)
    by (unfold run_check; destruct acc as [[v m] g]; now rewrite Hck).
  apply IH.
Qed.

(** ** Theorems *)

(** C5: The handler goes on to build and send the e-mail exactly when the
    seven required fields, and no others, are all truthy: year, model,
    part name, name, e-mail, mobile and ZIP code (lines 272-312). *)
Theorem validate_ok_iff (fd : form_data) :
  (validate fd).1.1 = true <->
  truthy (fd_year fd) && truthy (fd_model fd) && truthy (fd_part_name fd) && truthy (fd_name fd) &&
  truthy (fd_email fd) && truthy (fd_mobile fd) && truthy (fd_zip_code fd) = true.
Proof.
  unfold validate. rewrite run_checks_valid. cbn [fst forallb required_checks ck_field].
  rewrite andb_true_l, andb_true_r, !andb_assoc. reflexivity.
Qed.

(** A form missing exactly one required field gets exactly that field's
    message line as the whole alert text and exactly that field's border
    cue. *)
Lemma validate_single_missing (fd : form_data) (pre post : list check) (ck : check) :
  required_checks = pre ++ ck :: post ->
  Forall (fun c => truthy (ck_field c fd) = true) (pre ++ post) ->
  truthy (ck_field ck fd) = false ->
  validate fd = (false, ck_message ck, [ck_group ck]).
Proof.
  intros Hreq Hall Hck. apply Forall_app in Hall as [Hpre Hpost].
  unfold validate. rewrite Hreq, fold_left_app, (run_checks_pass fd pre) by exact Hpre.
  cbn [fold_left]. unfold run_check at 2. rewrite Hck.
  now rewrite run_checks_pass.
Qed.

Definition no_model : form_data :=
  mkFormData (JStr "2015") (JStr EmptyString) (JStr "Alternator") JUndefined JUndefined
    (JStr "Jane Doe") (JStr "jane@example.com") (JStr "5551234567") (JStr "90210") JUndefined.


(** The checks read the seven required fields and nothing else: two
    forms that agree on them get the same verdict, message and border
    cues, whatever their purchase timeline, VIN and comment (the comment
    is read but never required). *)
Theorem validate_reads_required_only (fd fd' : form_data) :
  Forall (fun ck => ck_field ck fd = ck_field ck fd') required_checks ->
  validate fd = validate fd'.
Proof. intros H. unfold validate. apply run_checks_ext, H. Qed.

(** The spec's form with every optional field set, and without them. *)
Definition jane_full : form_data :=
  mkFormData (JStr "2015") (JStr "Civic") (JStr "Alternator") (JStr "Within a week")
    (JStr "1HGCM82633A004352") (JStr "Jane Doe") (JStr "jane@example.com")
    (JStr "5551234567") (JStr "90210") (JStr "Call after 5pm").

Definition jane_bare : form_data :=
  mkFormData (JStr "2015") (JStr "Civic") (JStr "Alternator") JUndefined JUndefined
    (JStr "Jane Doe") (JStr "jane@example.com") (JStr "5551234567") (JStr "90210") JUndefined.

Lemma validate_reads_required_only_witness :
  Forall (fun ck => ck_field ck jane_full = ck_field ck jane_bare) required_checks /\
  validate jane_full = validate jane_bare.
Proof.
  assert (H : Forall (fun ck => ck_field ck jane_full = ck_field ck jane_bare) required_checks)
    by (repeat constructor).
  split; [exact H | exact (validate_reads_required_only _ _ H)].
Defined.

(** ** The rows of the e-mail body *)

Fixpoint spaces (n : nat) : string :=
  match n with O => EmptyString | S k => String " " (spaces k) end.

(** The text between a label's closing [</td>] and its value: the next
    cell's opening tag, plain or bold, and for e-mail and phone the
    opening of the link. *)
Definition gap_plain : string :=
  nl +:+ spaces 24 +:+ html "<td style='border: 1px solid #ddd; padding: 12px;'>".
Definition gap_bold : string :=
  nl +:+ spaces 24 +:+ html "<td style='border: 1px solid #ddd; padding: 12px; font-weight: bold;'>".

Record row := mkRow { row_label : string; row_gap : string; row_value : string }.

(** For each label of the table, the value the spec expects next to it:
    the field, or its default when the field is falsy; for e-mail and
    phone, the link target. *)
Definition email_rows (data : form_data) : list row :=
  [mkRow "Customer Name" gap_plain (to_string (js_or (fd_name data) (JStr "Not provided")));
   mkRow "Email Address" (gap_plain +:+ html "<a href='mailto:") (to_string (fd_email data));
   mkRow "Contact Number" (gap_plain +:+ html "<a href='tel:") (to_string (fd_mobile data));
   mkRow "ZIP Code" gap_plain (to_string (js_or (fd_zip_code data) (JStr "Not provided")));
   mkRow "Vehicle Year" gap_bold (to_string (js_or (fd_year data) (JStr "Not provided")));
   mkRow "Vehicle Model" gap_bold (to_string (js_or (fd_model data) (JStr "Not provided")));
   mkRow "Part Needed" gap_bold (to_string (js_or (fd_part_name data) (JStr "Not provided")));
   mkRow "Purchase Timeline" gap_plain (to_string (js_or (fd_purchase data) (JStr "Not specified")));
   mkRow "Vehicle VIN" gap_plain (to_string (js_or (fd_vin data) (JStr "Not provided")));
   mkRow "Additional Comments" gap_plain
     (to_string (js_or (fd_comment data) (JStr "No additional comments")))].

(** C35: Whatever the date and the form data, the body has, for each of the
    ten labels, the label's cell immediately followed by a cell (no
    [</td>] in between) that starts with the field's value, or its
    default text when the field is empty. *)
Theorem email_body_rows (currentDate : string) (data : form_data) :
  Forall (fun r => includes (row_gap r) "</td>" = false /\
                   createEmailTableContent currentDate data
                     ∋ₛ ((row_label r +:+ "</td>" +:+ row_gap r) +:+ row_value r))
    (email_rows data).
Proof.
  unfold email_rows. repeat apply List.Forall_cons; try apply List.Forall_nil;
    cbn [row_label row_gap row_value]; (split; [vm_compute; reflexivity | unfold createEmailTableContent; solve_hole]).
Qed.

(** The spec's end-to-end scenario: the form with year 2015, model
    Civic, part Alternator, name Jane Doe, e-mail jane@example.com,
    mobile 5551234567 and ZIP 90210 passes the checks, gets the subject
    "New Auto Parts Quote Request - Jane Doe", and its body, whatever the
    date, pairs "Vehicle Model" with "Civic" and "Part Needed" with
    "Alternator" in adjacent cells. *)
Theorem jane_doe_scenario (currentDate : string) :
  validate jane_bare = (true, EmptyString, []) /\
  emailSubject jane_bare = "New Auto Parts Quote Request - Jane Doe" /\
  createEmailTableContent currentDate jane_bare ∋ₛ (("Vehicle Model" +:+ "</td>" +:+ gap_bold) +:+ "Civic") /\
  createEmailTableContent currentDate jane_bare ∋ₛ (("Part Needed" +:+ "</td>" +:+ gap_bold) +:+ "Alternator").
Proof.
  split; [reflexivity|]. split; [reflexivity|].
  split; unfold createEmailTableContent; solve_hole.
Qed.

End QuoteForm.
