(* ===== verification/Json.v ===== *)
(** * [JSON.parse], as the fallback reply handler calls it

    [fallbackEmailMethod]'s success callback (part.js lines 456-473)
    calls [JSON.parse(response)], which first converts its argument with
    [ToString] and then parses the text by the JSON grammar (ECMA-404),
    throwing a [SyntaxError] on anything else. This is a platform
    function, not code of the repository; it is modelled because the
    handler's branches depend on exactly which replies parse.

    The parser is a recursive descent over the bytes of the text, with
    fuel: [parse_value], [parse_elements] and [parse_members] are one
    mutual [Fixpoint] on the fuel, and report [NoFuel] separately from a
    syntax error. [json_parse] gives [2 * length + 3] units of fuel,
    and [json_parse_total] proves that this never runs out: the model
    answers for every input.

    Modelling choices: strings are byte strings; [\uXXXX] escapes are
    decoded to the UTF-8 bytes of the code unit (lone surrogates as
    three bytes). Numbers are kept as exact decimals ([JsRuntime.decimal]).
    Objects keep their members in order, duplicates included; property
    lookup ([JsRuntime.get_prop]) takes the last, as [JSON.parse] does. *)

From S2P Require Import Prelude JsRuntime.
From Stdlib Require Import Ascii String Wf_nat.

Module Json.

Local Open Scope Z_scope.

(** ** Results *)

Inductive pres (A : Type) : Type :=
| POk (a : A) (rest : string)
| PFail
| NoFuel.
Arguments POk {A} a rest.
Arguments PFail {A}.
Arguments NoFuel {A}.

(** ** Characters *)

Definition dq_char : ascii := ascii_of_nat 34.

Definition is_ws (c : ascii) : bool :=
  Ascii.eqb c " " || Ascii.eqb c (ascii_of_nat 9) || Ascii.eqb c (ascii_of_nat 10)
  || Ascii.eqb c (ascii_of_nat 13).

Fixpoint skip_ws (s : string) : string :=
  match s with
  | String c r => if is_ws c then skip_ws r else s
  | EmptyString => s
  end.

Definition digit_val (c : ascii) : option Z :=
  let n := Z.of_nat (nat_of_ascii c) in
  if (48 <=? n) && (n <=? 57) then Some (n - 48) else None.

Definition hex_val (c : ascii) : option Z :=
  let n := Z.of_nat (nat_of_ascii c) in
  if (48 <=? n) && (n <=? 57) then Some (n - 48)
  else if (65 <=? n) && (n <=? 70) then Some (n - 55)
  else if (97 <=? n) && (n <=? 102) then Some (n - 87)
  else None.

(** The UTF-8 bytes of a UTF-16 code unit. *)
Definition utf8_of_unit (u : Z) : string :=
  let b (n : Z) := ascii_of_nat (Z.to_nat n) in
  if u <? 128 then String (b u) EmptyString
  else if u <? 2048 then
    String (b (192 + u / 64)) (String (b (128 + u mod 64)) EmptyString)
  else String (b (224 + u / 4096))
         (String (b (128 + (u / 64) mod 64)) (String (b (128 + u mod 64)) EmptyString)).

(** [take_char c s]: the rest of [s] after its first character, when
    that character is [c]. *)
Definition take_char (c : ascii) (s : string) : option string :=
  match s with
  | String c' r => if Ascii.eqb c c' then Some r else None
  | EmptyString => None
  end.

(** ** Strings: the body after the opening quote, up to the closing one *)

Definition escape_char (c : ascii) : option ascii :=
  if Ascii.eqb c dq_char then Some dq_char
  else if Ascii.eqb c "\" then Some "\"%char
  else if Ascii.eqb c "/" then Some "/"%char
  else if Ascii.eqb c "b" then Some (ascii_of_nat 8)
  else if Ascii.eqb c "f" then Some (ascii_of_nat 12)
  else if Ascii.eqb c "n" then Some (ascii_of_nat 10)
  else if Ascii.eqb c "r" then Some (ascii_of_nat 13)
  else if Ascii.eqb c "t" then Some (ascii_of_nat 9)
  else None.

Fixpoint parse_string_body (s : string) : option (string * string) :=
  match s with
  | EmptyString => None
  | String c r =>
      if Ascii.eqb c dq_char then Some (EmptyString, r)
      else if (nat_of_ascii c <? 32)%nat then None
      else if Ascii.eqb c "\" then
        match r with
        | String e r' =>
            if Ascii.eqb e "u" then
              match r' with
              | String h1 (String h2 (String h3 (String h4 r''))) =>
                  match hex_val h1, hex_val h2, hex_val h3, hex_val h4 with
                  | Some a, Some b, Some c', Some d =>
                      match parse_string_body r'' with
                      | Some (body, rest) =>
                          Some (utf8_of_unit (((a * 16 + b) * 16 + c') * 16 + d) +:+ body, rest)
                      | None => None
                      end
                  | _, _, _, _ => None
                  end
              | _ => None
              end
            else
              match escape_char e with
              | Some x =>
                  match parse_string_body r' with
                  | Some (body, rest) => Some (String x body, rest)
                  | None => None
                  end
              | None => None
              end
        | EmptyString => None
        end
      else
        match parse_string_body r with
        | Some (body, rest) => Some (String c body, rest)
        | None => None
        end
  end.

(** ** Numbers: [-? (0 | [1-9][0-9]* ) (. [0-9]+ )? ([eE] [+-]? [0-9]+ )?] *)

(** The longest run of digits: its value, its length, the rest. *)
Fixpoint digits (s : string) (acc : Z) (len : nat) : Z * nat * string :=
  match s with
  | String c r =>
      match digit_val c with
      | Some d => digits r (acc * 10 + d) (S len)
      | None => (acc, len, s)
      end
  | EmptyString => (acc, len, s)
  end.

(** The integer part: [0], or a non-zero digit and more digits. *)
Definition int_part (s : string) : option (Z * string) :=
  match take_char "0" s with
  | Some r => Some (0, r)
  | None =>
      match s with
      | String c _ =>
          match digit_val c with
          | Some _ => let '(v, _, r) := digits s 0 0 in Some (v, r)
          | None => None
          end
      | EmptyString => None
      end
  end.

(** The fraction: absent, or [.] and at least one digit. Returns the
    mantissa extended by the fraction digits and their number. *)
Definition frac_part (iv : Z) (s : string) : option (Z * Z * string) :=
  match take_char "." s with
  | Some r =>
      let '(fv, fl, r') := digits r 0 0 in
      if (fl =? 0)%nat then None else Some (iv * 10 ^ Z.of_nat fl + fv, Z.of_nat fl, r')
  | None => Some (iv, 0, s)
  end.

(** The optional sign of an exponent. *)
Definition sign_part (r : string) : Z * string :=
  match take_char "+" r, take_char "-" r with
  | Some r1, _ => (1, r1)
  | None, Some r1 => (-1, r1)
  | None, None => (1, r)
  end.

(** The exponent: absent, or [e]/[E], an optional sign, and digits. *)
Definition exp_part (s : string) : option (Z * string) :=
  match take_char "e" s, take_char "E" s with
  | Some r, _ | None, Some r =>
      let '(esign, r1) := sign_part r in
      let '(ev, el, r2) := digits r1 0 0 in
      if (el =? 0)%nat then None else Some (esign * ev, r2)
  | None, None => Some (0, s)
  end.

Definition parse_number (s : string) : option (decimal * string) :=
  let '(neg, s1) := match take_char "-" s with Some r => (true, r) | None => (false, s) end in
  match int_part s1 with
  | None => None
  | Some (iv, s2) =>
      match frac_part iv s2 with
      | None => None
      | Some (m, fl, s3) =>
          match exp_part s3 with
          | None => None
          | Some (e, s4) => Some (mkDecimal (if neg then - m else m) (e - fl), s4)
          end
      end
  end.

(** ** Literals *)

Fixpoint strip_prefix (p s : string) : option string :=
  match p, s with
  | EmptyString, _ => Some s
  | String a p', String b s' => if Ascii.eqb a b then strip_prefix p' s' else None
  | _, _ => None
  end.

(** ** Values *)

Fixpoint parse_value (fuel : nat) (s : string) : pres jsval :=
  match fuel with
  | O => NoFuel
  | S f =>
      let s' := skip_ws s in
      match take_char "{" s' with
      | Some r =>
          match take_char "}" (skip_ws r) with
          | Some r' => POk (JObj []) r'
          | None => parse_members f (skip_ws r) []
          end
      | None =>
      match take_char "[" s' with
      | Some r =>
          match take_char "]" (skip_ws r) with
          | Some r' => POk (JArr []) r'
          | None => parse_elements f (skip_ws r) []
          end
      | None =>
      match take_char dq_char s' with
      | Some r =>
          match parse_string_body r with
          | Some (body, rest) => POk (JStr body) rest
          | None => PFail
          end
      | None =>
      match strip_prefix "true" s' with
      | Some rest => POk (JBool true) rest
      | None =>
      match strip_prefix "false" s' with
      | Some rest => POk (JBool false) rest
      | None =>
      match strip_prefix "null" s' with
      | Some rest => POk JNull rest
      | None =>
      match parse_number s' with
      | Some (d, rest) => POk (JNum d) rest
      | None => PFail
      end end end end end end end
  end

(** The elements of an array after [[] and before its first element:
    a value, then [,] and more, or []]. *)
with parse_elements (fuel : nat) (s : string) (acc : list jsval) : pres jsval :=
  match fuel with
  | O => NoFuel
  | S f =>
      match parse_value f s with
      | POk v r =>
          match take_char "," (skip_ws r) with
          | Some r' => parse_elements f r' (acc ++ [v])
          | None =>
              match take_char "]" (skip_ws r) with
              | Some r' => POk (JArr (acc ++ [v])) r'
              | None => PFail
              end
          end
      | PFail => PFail
      | NoFuel => NoFuel
      end
  end

(** The members of an object after [{] and before a member: a string
    key, [:], a value, then [,] and more, or [}]. *)
with parse_members (fuel : nat) (s : string) (acc : list (string * jsval)) : pres jsval :=
  match fuel with
  | O => NoFuel
  | S f =>
      match take_char dq_char (skip_ws s) with
      | None => PFail
      | Some r =>
          match parse_string_body r with
          | None => PFail
          | Some (k, r1) =>
              match take_char ":" (skip_ws r1) with
              | None => PFail
              | Some r2 =>
                  match parse_value f r2 with
                  | POk v r3 =>
                      match take_char "," (skip_ws r3) with
                      | Some r4 => parse_members f r4 (acc ++ [(k, v)])
                      | None =>
                          match take_char "}" (skip_ws r3) with
                          | Some r4 => POk (JObj (acc ++ [(k, v)])) r4
                          | None => PFail
                          end
                      end
                  | PFail => PFail
                  | NoFuel => NoFuel
                  end
              end
          end
      end
  end.

(** [JSON.parse(text)]: one value, then only white space. *)
Definition json_parse_text (text : string) : pres jsval :=
  match parse_value (2 * String.length text + 3) text with
  | POk v rest => match skip_ws rest with EmptyString => POk v EmptyString | _ => PFail end
  | PFail => PFail
  | NoFuel => NoFuel
  end.

(** [JSON.parse(v)] on any value: [ToString] first, then the text; a
    syntax error is the [SyntaxError] exception. *)
Definition JSON_parse (v : jsval) : js_error + jsval :=
  match json_parse_text (to_string v) with
  | POk r _ => inr r
  | _ => inl (SyntaxError "JSON.parse: unexpected input")
  end.

(** ** Every successful parse consumes input *)

Lemma string_length_ind (P : string -> Prop) :
  (forall s, (forall t, (String.length t < String.length s)%nat -> P t) -> P s) -> forall s, P s.
Proof. intros H. apply (well_founded_induction (well_founded_ltof string String.length)). exact H. Qed.

Lemma skip_ws_length (s : string) : (String.length (skip_ws s) <= String.length s)%nat.
Proof. induction s as [|c s IH]; cbn; [lia|]. destruct (is_ws c); cbn; lia. Qed.

Lemma take_char_length (c : ascii) (s r : string) :
  take_char c s = Some r -> String.length s = S (String.length r).
Proof. destruct s as [|a s]; cbn; [discriminate|]. destruct (Ascii.eqb c a); congruence. Qed.

Lemma strip_prefix_length (p s r : string) :
  strip_prefix p s = Some r -> String.length s = (String.length p + String.length r)%nat.
Proof.
  revert s. induction p as [|a p IH]; intros [|b s] H; cbn in H |- *;
    try (injection H as <-; reflexivity); try discriminate.
  destruct (Ascii.eqb a b); [apply IH in H; lia | discriminate].
Qed.

Lemma digits_length (s : string) (acc : Z) (len : nat) v l r :
  digits s acc len = (v, l, r) ->
  (String.length r + l = String.length s + len)%nat /\ (len <= l)%nat.
Proof.
  revert acc len. induction s as [|c s IH]; intros acc len H; cbn in H.
  - injection H as <- <- <-. lia.
  - destruct (digit_val c); [apply IH in H; cbn; lia | injection H as <- <- <-; cbn; lia].
Qed.

(** Split the [match]es of hypothesis [H] on their scrutinees. *)
Ltac case_in H :=
  repeat match type of H with
  | context [match ?x with _ => _ end] =>
      let E := fresh "E" in destruct x eqn:E; try discriminate H
  end;
  repeat match goal with E : ?p = (_, _) |- _ => is_var p; subst p end.

(** Turn the equations produced by [case_in] into length facts. *)
Ltac length_facts :=
  repeat match goal with
  | H : context [skip_ws ?x] |- _ =>
      lazymatch goal with
      | _ : (String.length (skip_ws x) <= String.length x)%nat |- _ => fail
      | _ => pose proof (skip_ws_length x)
      end
  end;
  repeat match goal with
  | H : take_char _ _ = Some _ |- _ => apply take_char_length in H
  | H : strip_prefix _ _ = Some _ |- _ => apply strip_prefix_length in H
  | H : digits _ _ _ = (_, _, _) |- _ => apply digits_length in H as [? ?]
  end.

Lemma parse_string_body_length (s body r : string) :
  parse_string_body s = Some (body, r) -> (String.length r < String.length s)%nat.
Proof.
  revert body r. induction s as [s IH] using string_length_ind. intros body r H.
  destruct s as [|c s]; [discriminate|]. cbn in H. case_in H.
  all: try (injection H as _ <-); cbn in *; length_facts.
  all: repeat match goal with
              | E : parse_string_body ?t = Some (_, _) |- _ =>
                  apply IH in E; [|cbn in *; lia]
              end; cbn in *; lia.
Qed.

Lemma int_part_length (s r : string) v :
  int_part s = Some (v, r) -> (String.length r < String.length s)%nat.
Proof.
  unfold int_part. intros H. destruct (take_char "0" s) as [r0|] eqn:E.
  - injection H as _ <-. length_facts. lia.
  - destruct s as [|c s']; [discriminate|]. destruct (digit_val c) as [d|] eqn:Hc; [|discriminate].
    destruct (digits (String c s') 0 0) as [[v0 l0] r0] eqn:Ed. injection H as _ <-.
    cbn [digits] in Ed. rewrite Hc in Ed. apply digits_length in Ed as [? ?]. cbn. lia.
Qed.

Lemma frac_part_length (iv : Z) (s r : string) m fl :
  frac_part iv s = Some (m, fl, r) -> (String.length r <= String.length s)%nat.
Proof. unfold frac_part. intros H. case_in H; injection H as _ _ <-; length_facts; lia. Qed.

Lemma sign_part_length (r r1 : string) z :
  sign_part r = (z, r1) -> (String.length r1 <= String.length r)%nat.
Proof. unfold sign_part. intros H. case_in H; injection H as _ <-; length_facts; lia. Qed.

Lemma exp_part_length (s r : string) e :
  exp_part s = Some (e, r) -> (String.length r <= String.length s)%nat.
Proof.
  unfold exp_part. intros H. case_in H; injection H as _ <-; length_facts; try lia.
  all: match goal with E : sign_part _ = _ |- _ => apply sign_part_length in E end; lia.
Qed.

Lemma parse_number_length (s r : string) d :
  parse_number s = Some (d, r) -> (String.length r < String.length s)%nat.
Proof.
  unfold parse_number. intros H.
  destruct (match take_char "-" s with Some r => (true, r) | None => (false, s) end) as [neg s1] eqn:Es.
  assert (Hs1 : (String.length s1 <= String.length s)%nat)
    by (destruct (take_char "-" s) eqn:E; injection Es as _ <-; length_facts; lia).
  destruct (int_part s1) as [[iv s2]|] eqn:E1; [|discriminate].
  destruct (frac_part iv s2) as [[[m fl] s3]|] eqn:E2; [|discriminate].
  destruct (exp_part s3) as [[e s4]|] eqn:E3; [|discriminate]. injection H as _ <-.
  apply int_part_length in E1. apply frac_part_length in E2. apply exp_part_length in E3. lia.
Qed.

(** Each of the three parsers, when it succeeds, leaves a strictly
    shorter rest. *)
Lemma parse_consumes (n : nat) :
  (forall s v r, parse_value n s = POk v r -> (String.length r < String.length s)%nat) /\
  (forall s acc v r, parse_elements n s acc = POk v r -> (String.length r < String.length s)%nat) /\
  (forall s acc v r, parse_members n s acc = POk v r -> (String.length r < String.length s)%nat).
Proof.
  induction n as [|n (IHv & IHe & IHm)]; [repeat split; intros; discriminate|].
  repeat split.
  - intros s v r H. cbn [parse_value] in H. case_in H.
    all: try (injection H as _ <-); length_facts.
    all: repeat match goal with
                | E : parse_members _ _ _ = POk _ _ |- _ => apply IHm in E
                | E : parse_elements _ _ _ = POk _ _ |- _ => apply IHe in E
                | E : parse_string_body _ = Some _ |- _ => apply parse_string_body_length in E
                | E : parse_number _ = Some _ |- _ => apply parse_number_length in E
                end; cbn in *; lia.
  - intros s acc v r H. cbn [parse_elements] in H. case_in H.
    all: try (injection H as _ <-); length_facts; apply IHv in E.
    all: try match goal with E : parse_elements _ _ _ = POk _ _ |- _ => apply IHe in E end; lia.
  - intros s acc v r H. cbn [parse_members] in H. case_in H.
    all: try (injection H as _ <-); length_facts.
    all: repeat match goal with
                | E : parse_value _ _ = POk _ _ |- _ => apply IHv in E
                | E : parse_members _ _ _ = POk _ _ |- _ => apply IHm in E
                | E : parse_string_body _ = Some _ |- _ => apply parse_string_body_length in E
                end; lia.
Qed.

(** Fuel [2 * length + 1] suffices for a value, and [2 * length + 2] for
    the rest of an array or object: each call either returns or recurses
    on a shorter rest. *)
Lemma parse_fuel_enough (n : nat) :
  (forall s, (2 * String.length s + 1 <= n)%nat -> parse_value n s <> NoFuel) /\
  (forall s acc, (2 * String.length s + 2 <= n)%nat -> parse_elements n s acc <> NoFuel) /\
  (forall s acc, (2 * String.length s + 2 <= n)%nat -> parse_members n s acc <> NoFuel).
Proof.
  induction n as [|n (IHv & IHe & IHm)]; [repeat split; intros; lia|].
  destruct (parse_consumes n) as (Cv & _ & _).
  repeat split; intros s.
  1: intros Hn H. 2,3: intros acc Hn H.
  all: cbn [parse_value parse_elements parse_members] in H; case_in H.
  all: repeat match goal with
              | E : parse_value _ _ = POk _ _ |- _ => apply Cv in E
              | E : parse_string_body _ = Some (_, _) |- _ => apply parse_string_body_length in E
              end.
  all: length_facts.
  all: first
    [ match goal with E : parse_value _ ?t = NoFuel |- _ => exact (IHv t ltac:(cbn in *; lia) E) end
    | match type of H with parse_elements _ ?t _ = NoFuel => exact (IHe t _ ltac:(cbn in *; lia) H) end
    | match type of H with parse_members _ ?t _ = NoFuel => exact (IHm t _ ltac:(cbn in *; lia) H) end ].
Qed.

(** [JSON.parse] is total in the model: on every text the parser
    returns a value or a syntax error, never running out of fuel. *)
Theorem json_parse_total (text : string) : json_parse_text text <> NoFuel.
Proof.
  unfold json_parse_text. destruct (parse_fuel_enough (2 * String.length text + 3)) as (Hv & _ & _).
  specialize (Hv text ltac:(lia)).
  destruct (parse_value _ text) as [v rest| |]; [|discriminate | contradiction].
  destruct (skip_ws rest); discriminate.
Qed.

End Json.
