(* ===== verification/JsonEncode.v ===== *)
(** * A JSON serializer, and [JSON.parse] reading back what it writes

    The fallback reply handler ([fallbackEmailMethod], part.js lines
    456-473) trusts that [send_email.php] answers with a JSON text. That
    server is not part of the repository; what the handler needs of it is
    that whatever object it serializes, [JSON.parse] gives that object
    back. This file states the serializer ([json_encode], the grammar of
    [JSON.stringify] with numbers written as mantissa and exponent) and
    proves the round trip against the parser of [Json]:
    [json_parse_text (json_encode v) = POk v ""] for every value without
    [undefined] ([json_roundtrip]).

    The proof goes bottom-up: digit strings ([Z_to_string]) read back by
    [digits], escaped strings read back by [parse_string_body] (one lemma
    per character, by computation over the 256 bytes), then values by
    induction, with the fuel bounded by the length of the text. *)

From S2P Require Import Prelude JsRuntime Json.
From Stdlib Require Import Ascii String DecimalString DecimalPos.

Module JsonEncode.

Import Json.

Local Open Scope Z_scope.

(** The parser's character tests go through [positive] and [N]
    arithmetic, which stdpp keeps [simpl] from reducing; as in [Json],
    it is let to reduce on literals here. *)
#[local] Arguments Pos.to_nat : simpl nomatch.
#[local] Arguments Pos.succ : simpl nomatch.
#[local] Arguments Pos.of_succ_nat : simpl nomatch.
#[local] Arguments Pos.add : simpl nomatch.
#[local] Arguments Pos.mul : simpl nomatch.
#[local] Arguments N.to_nat : simpl nomatch.
#[local] Arguments N.of_nat : simpl nomatch.
#[local] Arguments N.add : simpl nomatch.
#[local] Arguments N.mul : simpl nomatch.
#[local] Arguments String.append : simpl nomatch.

(** ** Digit strings *)

(** The value of a digit list read from the left onto [acc], the way
    [Json.digits] accumulates it. *)
Fixpoint uint_value (u : Decimal.uint) (acc : Z) : Z :=
  match u with
  | Decimal.Nil => acc
  | Decimal.D0 u => uint_value u (acc * 10)
  | Decimal.D1 u => uint_value u (acc * 10 + 1)
  | Decimal.D2 u => uint_value u (acc * 10 + 2)
  | Decimal.D3 u => uint_value u (acc * 10 + 3)
  | Decimal.D4 u => uint_value u (acc * 10 + 4)
  | Decimal.D5 u => uint_value u (acc * 10 + 5)
  | Decimal.D6 u => uint_value u (acc * 10 + 6)
  | Decimal.D7 u => uint_value u (acc * 10 + 7)
  | Decimal.D8 u => uint_value u (acc * 10 + 8)
  | Decimal.D9 u => uint_value u (acc * 10 + 9)
  end.

(** Whether a text starts with a decimal digit. *)
Definition starts_digit (r : string) : bool :=
  match r with String c _ => if digit_val c is Some _ then true else false | EmptyString => false end.

(** Evaluate [digit_val] on a literal character. *)
Ltac eval_digit_val :=
  match goal with |- context [digit_val ?c] =>
    let v := eval vm_compute in (digit_val c) in change (digit_val c) with v
  end.

Lemma pos_of_uint_acc_value (u : Decimal.uint) (p : positive) :
  Zpos (Pos.of_uint_acc u p) = uint_value u (Zpos p).
Proof. revert p. induction u; intros p; cbn; rewrite ?IHu; f_equal; lia. Qed.

Lemma of_uint_value (u : Decimal.uint) : Z.of_N (Pos.of_uint u) = uint_value u 0.
Proof. induction u; cbn; rewrite ?pos_of_uint_acc_value; easy. Qed.

Lemma uint_value_to_uint (p : positive) : uint_value (Pos.to_uint p) 0 = Zpos p.
Proof. rewrite <- of_uint_value, DecimalPos.Unsigned.of_to. reflexivity. Qed.

Lemma nzhead_not_D0 (u w : Decimal.uint) : Decimal.nzhead u <> Decimal.D0 w.
Proof. induction u; cbn; congruence. Qed.

(** The decimal digits of a positive number have no leading zero. *)
Lemma to_uint_no_leading_zero (p : positive) (w : Decimal.uint) : Pos.to_uint p <> Decimal.D0 w.
Proof.
  intros H. pose proof (DecimalPos.Unsigned.to_of (Pos.to_uint p)) as E.
  rewrite DecimalPos.Unsigned.of_to in E. change (Pos.to_uint p = Decimal.unorm (Pos.to_uint p)) in E.
  rewrite H in E. unfold Decimal.unorm in E. cbn [Decimal.nzhead] in E.
  destruct (Decimal.nzhead w) as [|w'| | | | | | | | |] eqn:Ew; try congruence.
  - injection E as ->. exact (DecimalPos.Unsigned.to_uint_nonzero p H).
  - exact (nzhead_not_D0 w w' Ew).
Qed.

Lemma digits_string_of_uint (u : Decimal.uint) (r : string) (acc : Z) (len : nat) :
  starts_digit r = false ->
  digits (NilEmpty.string_of_uint u +:+ r) acc len
  = (uint_value u acc, (len + Decimal.nb_digits u)%nat, r).
Proof.
  intros Hr. revert acc len. induction u; intros acc len; cbn; [|eval_digit_val; cbn iota; rewrite IHu ..].
  1: (destruct r as [|c r]; cbn in Hr |- *; [|destruct (digit_val c); [discriminate|]]).
  all: now rewrite ?Z.add_0_r, ?Nat.add_0_r, ?Nat.add_succ_r.
Qed.

Lemma uint_value_to_uint_N (n : N) : uint_value (N.to_uint n) 0 = Z.of_N n.
Proof. destruct n as [|p]; [reflexivity | apply uint_value_to_uint]. Qed.

Lemma to_uint_N_nonnil (n : N) : N.to_uint n <> Decimal.Nil.
Proof. destruct n as [|p]; [discriminate | apply DecimalPos.Unsigned.to_uint_nonnil]. Qed.

(** [digits] reads a printed natural number back. *)
Lemma digits_digits_N (n : N) (r : string) :
  starts_digit r = false ->
  exists l, l <> O /\ digits (digits_N n +:+ r) 0 0 = (Z.of_N n, l, r).
Proof.
  intros Hr. unfold digits_N. rewrite digits_string_of_uint, uint_value_to_uint_N by exact Hr.
  eexists. split; [|reflexivity]. cbn.
  destruct (N.to_uint n) eqn:E; [now destruct (to_uint_N_nonnil n) | ..]; discriminate.
Qed.

(** The integer part of a number reads a printed natural number back. *)
Lemma int_part_digits_N (n : N) (r : string) :
  starts_digit r = false -> int_part (digits_N n +:+ r) = Some (Z.of_N n, r).
Proof.
  intros Hr. destruct n as [|p]; [reflexivity|].
  unfold int_part, digits_N. cbn [N.to_uint]. rewrite digits_string_of_uint, uint_value_to_uint by exact Hr.
  destruct (Pos.to_uint p) eqn:E;
    [now destruct (DecimalPos.Unsigned.to_uint_nonnil p) | now destruct (to_uint_no_leading_zero p u) | ..].
  all: cbn; eval_digit_val; reflexivity.
Qed.

(** A printed natural number starts with a digit, so with no sign, no
    quote, no brace and no letter. *)
Lemma digits_N_head (n : N) (r : string) :
  exists c t, digits_N n +:+ r = String c t /\ digit_val c <> None.
Proof.
  unfold digits_N. destruct (N.to_uint n) eqn:E; [now destruct (to_uint_N_nonnil n) | ..].
  all: do 2 eexists; split; [reflexivity | eval_digit_val; discriminate].
Qed.

(** ** Numbers *)

(** A number as its mantissa, then [e] and the exponent when that is
    not zero: [mkDecimal m e] is written [m] or [m e<e>], the JSON
    number [m * 10 ^ e]. *)
Definition encode_number (d : decimal) : string :=
  Z_to_string (mant d) +:+ (if Z.eqb (expo d) 0 then EmptyString else "e" +:+ Z_to_string (expo d)).

(** Whether a text would continue a number written just before it. *)
Definition continues_number (r : string) : bool :=
  match r with
  | String c _ =>
      if digit_val c is Some _ then true else Ascii.eqb c "." || Ascii.eqb c "e" || Ascii.eqb c "E"
  | EmptyString => false
  end.

Lemma continues_number_digit (r : string) : continues_number r = false -> starts_digit r = false.
Proof. destruct r as [|c r]; cbn; [reflexivity|]. now destruct (digit_val c). Qed.

(** A text that does not continue a number starts with none of [.],
    [e], [E]. *)
Lemma take_char_stop (c : ascii) (r : string) :
  continues_number r = false -> c = "."%char \/ c = "e"%char \/ c = "E"%char -> take_char c r = None.
Proof.
  destruct r as [|c' r]; [reflexivity|]. cbn. destruct (digit_val c'); [discriminate|].
  intros H Hc. rewrite Ascii.eqb_sym. rewrite !orb_false_iff in H.
  destruct Hc as [->|[->| ->]]; rewrite (proj1 (proj1 H)) || rewrite (proj2 (proj1 H)) || rewrite (proj2 H);
    reflexivity.
Qed.

Lemma take_char_digits_N (c : ascii) (n : N) (r : string) :
  digit_val c = None -> take_char c (digits_N n +:+ r) = None.
Proof.
  intros Hc. destruct (digits_N_head n r) as (c' & t & -> & H'). cbn.
  destruct (Ascii.eqb_spec c c') as [<-|]; [contradiction | reflexivity].
Qed.

(** The sign, then the digits, of a printed integer. *)
Lemma Z_to_string_split (z : Z) (r : string) :
  Z_to_string z +:+ r =
    if Z.ltb z 0 then String "-" (digits_N (Z.to_N (- z)) +:+ r) else digits_N (Z.to_N z) +:+ r.
Proof. unfold Z_to_string. now destruct (Z.ltb z 0). Qed.

Lemma take_char_same (c : ascii) (s : string) : take_char c (String c s) = Some s.
Proof. cbn. now rewrite Ascii.eqb_refl. Qed.

Lemma take_char_other (c c' : ascii) (s : string) : c <> c' -> take_char c (String c' s) = None.
Proof. intros H. cbn. now destruct (Ascii.eqb_spec c c'). Qed.

Lemma exp_part_encode (e : Z) (r : string) :
  continues_number r = false ->
  exp_part ((if Z.eqb e 0 then EmptyString else "e" +:+ Z_to_string e) +:+ r) = Some (e, r).
Proof.
  intros Hr. pose proof (continues_number_digit r Hr) as Hd.
  destruct (Z.eqb_spec e 0) as [->|He].
  - cbn. unfold exp_part. rewrite !take_char_stop by auto. reflexivity.
  - rewrite string_app_assoc, Z_to_string_split. change ("e" +:+ ?x) with (String "e" x).
    unfold exp_part, sign_part. rewrite take_char_same. cbn iota beta.
    destruct (Z.ltb_spec e 0).
    + rewrite take_char_other, take_char_same by discriminate. cbn iota beta.
      destruct (digits_digits_N (Z.to_N (- e)) r Hd) as (l & Hl & ->).
      destruct (Nat.eqb_spec l 0); [contradiction|]. do 3 f_equal. lia.
    + rewrite !take_char_digits_N by (vm_compute; reflexivity). cbn iota beta.
      destruct (digits_digits_N (Z.to_N e) r Hd) as (l & Hl & ->).
      destruct (Nat.eqb_spec l 0); [contradiction|]. do 3 f_equal. lia.
Qed.

(** [parse_number] reads an encoded number back, whatever follows it
    that does not continue a number. *)
Lemma parse_number_encode (d : decimal) (r : string) :
  continues_number r = false -> parse_number (encode_number d +:+ r) = Some (d, r).
Proof.
  intros Hr. destruct d as [m e]. unfold encode_number, parse_number. cbn [mant expo].
  set (x := if Z.eqb e 0 then EmptyString else "e" +:+ Z_to_string e).
  assert (Hx : starts_digit (x +:+ r) = false /\ take_char "." (x +:+ r) = None).
  { subst x. destruct (Z.eqb e 0); cbn.
    - split; [now apply continues_number_digit | apply take_char_stop; auto].
    - split; vm_compute; reflexivity. }
  destruct Hx as [Hx1 Hx2].
  rewrite string_app_assoc, Z_to_string_split.
  destruct (Z.ltb_spec m 0).
  - rewrite take_char_same. cbn iota beta.
    rewrite int_part_digits_N by exact Hx1.
    unfold frac_part. rewrite Hx2. subst x. rewrite exp_part_encode by exact Hr.
    do 3 f_equal; lia.
  - rewrite take_char_digits_N by (vm_compute; reflexivity).
    rewrite int_part_digits_N by exact Hx1.
    unfold frac_part. rewrite Hx2. subst x. rewrite exp_part_encode by exact Hr.
    do 3 f_equal; lia.
Qed.

(** ** Strings *)

(** A hexadecimal digit, lower case, as [JSON.stringify] writes it. *)
Definition hex_digit (n : nat) : ascii :=
  if (n <? 10)%nat then ascii_of_nat (48 + n) else ascii_of_nat (87 + n).

Definition bs : ascii := "\"%char.

(** One character of a string literal (QuoteJSONString): the quote and
    the backslash escaped, the five control characters with a short
    escape by theirs, the other control characters as [\u00XX], and
    every other byte as itself. *)
Definition escape_json_char (c : ascii) : string :=
  let n := nat_of_ascii c in
  if Ascii.eqb c dq_char then String bs (String dq_char EmptyString)
  else if Ascii.eqb c bs then String bs (String bs EmptyString)
  else if (n =? 8)%nat then String bs "b"
  else if (n =? 9)%nat then String bs "t"
  else if (n =? 10)%nat then String bs "n"
  else if (n =? 12)%nat then String bs "f"
  else if (n =? 13)%nat then String bs "r"
  else if (n <? 32)%nat then
    String bs ("u00" +:+ String (hex_digit (n / 16)) (String (hex_digit (n mod 16)) EmptyString))
  else String c EmptyString.

Fixpoint escape_json (s : string) : string :=
  match s with
  | EmptyString => EmptyString
  | String c r => escape_json_char c +:+ escape_json r
  end.

(** A string literal: the escaped text between double quotes. *)
Definition quote_json (s : string) : string := String dq_char (escape_json s +:+ String dq_char EmptyString).

(** Every byte's escape reads back as that byte, by computation over
    the 256 bytes. *)
Lemma parse_string_body_escape_char (c : ascii) (r : string) :
  parse_string_body (escape_json_char c +:+ r) =
  match parse_string_body r with Some (b, rest) => Some (String c b, rest) | None => None end.
Proof. destruct c as [[] [] [] [] [] [] [] []]; cbn; reflexivity. Qed.

Lemma parse_string_body_escape (s r : string) :
  parse_string_body (escape_json s +:+ String dq_char r) = Some (s, r).
Proof.
  induction s as [|c s IH]; [reflexivity|].
  cbn [escape_json]. rewrite string_app_assoc, parse_string_body_escape_char, IH. reflexivity.
Qed.

Lemma quote_json_read (s r : string) :
  take_char dq_char (quote_json s +:+ r) = Some (escape_json s +:+ String dq_char r) /\
  parse_string_body (escape_json s +:+ String dq_char r) = Some (s, r).
Proof.
  split; [|apply parse_string_body_escape]. unfold quote_json. rewrite string_app_cons, take_char_same.
  now rewrite string_app_assoc.
Qed.

(** ** Values *)

(** The elements of an array after its first, and the closing bracket. *)
Definition arr_tail (enc : jsval -> string) : list jsval -> string :=
  fix tail l := match l with [] => "]" | y :: l => "," +:+ enc y +:+ tail l end.

(** One member of an object: the key's literal, a colon, the value. *)
Definition member (enc : jsval -> string) (kv : string * jsval) : string :=
  quote_json kv.1 +:+ ":" +:+ enc kv.2.

(** The members of an object after its first, and the closing brace. *)
Definition obj_tail (enc : jsval -> string) : list (string * jsval) -> string :=
  fix tail ps := match ps with [] => "}" | kv :: ps => "," +:+ member enc kv +:+ tail ps end.

(** The JSON text of a value, without white space. [undefined], which
    has no JSON text, is written [null], as [JSON.stringify] writes it
    inside an array. *)
Fixpoint json_encode (v : jsval) : string :=
  match v with
  | JUndefined | JNull => "null"
  | JBool true => "true"
  | JBool false => "false"
  | JNum d => encode_number d
  | JStr s => quote_json s
  | JArr [] => "[]"
  | JArr (x :: l) => "[" +:+ json_encode x +:+ arr_tail json_encode l
  | JObj [] => "{}"
  | JObj (kv :: ps) => "{" +:+ member json_encode kv +:+ obj_tail json_encode ps
  end.

(** The values JSON can denote: no [undefined] anywhere. *)
Fixpoint json_value (v : jsval) : bool :=
  match v with
  | JUndefined => false
  | JArr l => forallb json_value l
  | JObj ps => forallb (fun kv => json_value kv.2) ps
  | _ => true
  end.

(** Induction over values, with the hypothesis on every element of an
    array and every member of an object. *)
Section jsval_ind_nested.
Variable P : jsval -> Prop.
Hypothesis HU : P JUndefined.
Hypothesis HN : P JNull.
Hypothesis HB : forall b, P (JBool b).
Hypothesis HD : forall d, P (JNum d).
Hypothesis HS : forall s, P (JStr s).
Hypothesis HA : forall l, Forall P l -> P (JArr l).
Hypothesis HO : forall ps, Forall (fun kv => P kv.2) ps -> P (JObj ps).

Fixpoint jsval_ind_nested (v : jsval) : P v :=
  match v with
  | JUndefined => HU
  | JNull => HN
  | JBool b => HB b
  | JNum d => HD d
  | JStr s => HS s
  | JArr l =>
      HA l ((fix go (l : list jsval) : Forall P l :=
               match l with
               | [] => @List.Forall_nil _ P
               | x :: l => @List.Forall_cons _ P x l (jsval_ind_nested x) (go l)
               end) l)
  | JObj ps =>
      HO ps ((fix go (ps : list (string * jsval)) : Forall (fun kv => P kv.2) ps :=
                match ps with
                | [] => @List.Forall_nil _ _
                | kv :: ps => @List.Forall_cons _ (fun kv => P kv.2) kv ps (jsval_ind_nested kv.2) (go ps)
                end) ps)
  end.
End jsval_ind_nested.

(** ** Reading values back *)

(** A character that can open a value's text in an array: no white
    space, no closing bracket. *)
Definition opens_value (c : ascii) : bool := negb (is_ws c) && negb (Ascii.eqb c "]").

Lemma digit_opens_value (c : ascii) : digit_val c <> None -> opens_value c = true.
Proof. destruct c as [[] [] [] [] [] [] [] []]; vm_compute; intros H; first [reflexivity | now destruct H]. Qed.

Lemma json_encode_head (v : jsval) :
  exists c t, json_encode v = String c t /\ opens_value c = true.
Proof.
  destruct v as [| |[]|[m e]|s|[|x l]|[|kv ps]]; try (do 2 eexists; split; reflexivity).
  cbn [json_encode]. unfold encode_number. cbn [mant expo]. rewrite Z_to_string_split.
  destruct (Z.ltb m 0); [do 2 eexists; split; reflexivity|].
  destruct (digits_N_head (Z.to_N m) (if Z.eqb e 0 then EmptyString else "e" +:+ Z_to_string e))
    as (c & t & -> & Hc).
  exists c, t. split; [reflexivity | now apply digit_opens_value].
Qed.

Lemma json_encode_length (v : jsval) : (1 <= String.length (json_encode v))%nat.
Proof. destruct (json_encode_head v) as (c & t & -> & _). cbn. lia. Qed.

Lemma skip_ws_opens (c : ascii) (t : string) : opens_value c = true -> skip_ws (String c t) = String c t.
Proof. unfold opens_value. intros H. cbn. destruct (is_ws c); [discriminate | reflexivity]. Qed.

Lemma take_char_close_opens (c : ascii) (t : string) :
  opens_value c = true -> take_char "]" (String c t) = None.
Proof.
  unfold opens_value. intros H. apply take_char_other. intros <-.
  rewrite Ascii.eqb_refl, andb_false_r in H. discriminate.
Qed.

(** [parse_value] on a text that starts like a number goes to
    [parse_number], by computation over the 256 first bytes. *)
Definition number_head (c : ascii) : bool := Ascii.eqb c "-" || (if digit_val c is Some _ then true else false).

Lemma parse_value_number_head (f : nat) (c : ascii) (t : string) :
  number_head c = true ->
  parse_value (S f) (String c t) =
    match parse_number (String c t) with Some (d, rest) => POk (JNum d) rest | None => PFail end.
Proof.
  destruct c as [[] [] [] [] [] [] [] []]; intros H; vm_compute in H; try discriminate H;
    cbn -[parse_number]; reflexivity.
Qed.

Lemma encode_number_head (d : decimal) (r : string) :
  exists c t, encode_number d +:+ r = String c t /\ number_head c = true.
Proof.
  unfold encode_number. rewrite string_app_assoc, Z_to_string_split.
  destruct (Z.ltb (mant d) 0); [do 2 eexists; split; reflexivity|].
  destruct (digits_N_head (Z.to_N (mant d)) ((if Z.eqb (expo d) 0 then EmptyString else "e" +:+ Z_to_string (expo d)) +:+ r))
    as (c & t & -> & Hc).
  exists c, t. split; [reflexivity|]. unfold number_head. destruct (digit_val c); [apply orb_true_r | contradiction].
Qed.

(** [v] is read back from its text, given enough fuel, whatever follows
    that does not continue a number. *)
Definition reads_back (v : jsval) : Prop :=
  forall f r, continues_number r = false -> (String.length (json_encode v) <= f)%nat ->
  parse_value f (json_encode v +:+ r) = POk v r.

(** The elements of an array, after its first value, read back. *)
Lemma parse_elements_encode (l : list jsval) :
  Forall reads_back l ->
  forall x f r acc, reads_back x ->
  (String.length (json_encode x +:+ arr_tail json_encode l) <= f)%nat ->
  parse_elements f (json_encode x +:+ arr_tail json_encode l +:+ r) acc = POk (JArr (acc ++ x :: l)) r.
Proof.
  induction 1 as [|y l Hy Hl IH]; intros x f r acc Hx Hf; rewrite string_length_app in Hf;
    pose proof (json_encode_length x); destruct f as [|f]; try lia; cbn [parse_elements arr_tail] in Hf |- *.
  - rewrite Hx by first [vm_compute; reflexivity | cbn in Hf; lia]. reflexivity.
  - rewrite Hx by first [vm_compute; reflexivity | rewrite ?string_length_app in *; cbn in Hf; lia].
    cbn. rewrite string_app_assoc, IH by first [exact Hy | rewrite ?string_length_app in *; cbn in Hf; lia].
    now rewrite <- app_assoc.
Qed.

Lemma take_char_skip_lit (c : ascii) (y : string) :
  is_ws c = false -> take_char c (skip_ws (String c EmptyString +:+ y)) = Some y.
Proof. intros H. cbn. rewrite H. apply take_char_same. Qed.

Lemma skip_ws_quote (s r : string) : skip_ws (quote_json s +:+ r) = quote_json s +:+ r.
Proof. reflexivity. Qed.

(** The members of an object, after its opening brace, read back. *)
Lemma parse_members_encode (ps : list (string * jsval)) :
  Forall (fun kv => reads_back kv.2) ps ->
  forall k x f r acc, reads_back x ->
  (String.length (member json_encode (k, x) +:+ obj_tail json_encode ps) <= f)%nat ->
  parse_members f (member json_encode (k, x) +:+ obj_tail json_encode ps +:+ r) acc
  = POk (JObj (acc ++ (k, x) :: ps)) r.
Proof.
  induction 1 as [|[k' y] ps Hy Hl IH]; intros k x f r acc Hx Hf; unfold member in *; cbn [fst snd] in *;
    rewrite ?string_length_app in Hf; pose proof (json_encode_length x);
    destruct f as [|f]; try lia; cbn [parse_members obj_tail] in Hf |- *;
    rewrite !string_app_assoc, skip_ws_quote, (proj1 (quote_json_read k _)), parse_string_body_escape;
    cbn iota beta; rewrite take_char_skip_lit by reflexivity.
  - rewrite Hx by first [vm_compute; reflexivity | unfold quote_json in Hf; cbn in Hf; lia]. reflexivity.
  - rewrite Hx by first [vm_compute; reflexivity | unfold quote_json in Hf; rewrite ?string_length_app in *; cbn in Hf; lia].
    rewrite take_char_skip_lit by reflexivity. replace (acc ++ (k, x) :: (k', y) :: ps) with ((acc ++ [(k, x)]) ++ (k', y) :: ps)
      by now rewrite <- app_assoc.
    unfold member. cbn [fst snd]. rewrite !string_app_assoc.
    specialize (IH k' y f r (acc ++ [(k, x)]) Hy). rewrite !string_app_assoc in IH. apply IH.
    unfold member, quote_json in *; cbn [fst snd] in *; rewrite ?string_length_app in *; cbn in *; lia.
Qed.

Lemma parse_value_quote (f : nat) (s r : string) :
  parse_value (S f) (quote_json s +:+ r) =
    match parse_string_body (escape_json s +:+ String dq_char r) with
    | Some (body, rest) => POk (JStr body) rest
    | None => PFail
    end.
Proof. unfold quote_json. rewrite string_app_cons, string_app_assoc. reflexivity. Qed.

Lemma parse_value_open (f : nat) (c : ascii) (y : string) :
  c = "["%char \/ c = "{"%char ->
  parse_value (S f) (String c y) =
    if Ascii.eqb c "[" then
      match take_char "]" (skip_ws y) with
      | Some r' => POk (JArr []) r'
      | None => parse_elements f (skip_ws y) []
      end
    else
      match take_char "}" (skip_ws y) with
      | Some r' => POk (JObj []) r'
      | None => parse_members f (skip_ws y) []
      end.
Proof. intros [-> | ->]; reflexivity. Qed.

Lemma member_opens (kv : string * jsval) (z : string) :
  skip_ws (member json_encode kv +:+ z) = member json_encode kv +:+ z /\
  take_char "}" (member json_encode kv +:+ z) = None.
Proof. split; reflexivity. Qed.

Lemma value_opens (x : jsval) (z : string) :
  skip_ws (json_encode x +:+ z) = json_encode x +:+ z /\ take_char "]" (json_encode x +:+ z) = None.
Proof.
  destruct (json_encode_head x) as (c & t & -> & Hc).
  split; [apply skip_ws_opens | apply take_char_close_opens]; exact Hc.
Qed.

(** Every value JSON can denote is read back from its text, given fuel
    at least the length of the text. *)
Lemma json_value_reads_back (v : jsval) : json_value v = true -> reads_back v.
Proof.
  induction v as [| |b|d|s|l IH|ps IH] using jsval_ind_nested; intros Hv f r Hr Hf; cbn [json_value] in Hv;
    try discriminate.
  - destruct f; [cbn in Hf; lia | reflexivity].
  - destruct f; [cbn in Hf; destruct b; cbn in Hf; lia | destruct b; reflexivity].
  - destruct (encode_number_head d r) as (c & t & E & Hc). destruct f as [|f].
    + pose proof (json_encode_length (JNum d)). lia.
    + cbn [json_encode]. rewrite E, parse_value_number_head by exact Hc.
      rewrite <- E, parse_number_encode by exact Hr. reflexivity.
  - destruct f as [|f]; [cbn in Hf; lia|]. cbn [json_encode].
    rewrite parse_value_quote, parse_string_body_escape. reflexivity.
  - apply (Forall_forallb_impl _ _ _ IH) in Hv.
    destruct l as [|x l]; destruct f as [|f]; cbn [json_encode] in Hf |- *; try (cbn in Hf; lia); [reflexivity|].
    inversion Hv as [|? ? Hx Hl]; subst. destruct (value_opens x (arr_tail json_encode l +:+ r)) as [Hs Ht].
    rewrite !string_app_assoc. change ("[" +:+ ?y) with (String "[" y).
    rewrite parse_value_open by auto. cbn iota. rewrite Hs, Ht.
    apply (parse_elements_encode l Hl x f r [] Hx). cbn in Hf. lia.
  - apply (Forall_forallb_impl _ _ _ IH) in Hv.
    destruct ps as [|[k x] ps]; destruct f as [|f]; cbn [json_encode] in Hf |- *; try (cbn in Hf; lia); [reflexivity|].
    inversion Hv as [|? ? Hx Hl]; subst. destruct (member_opens (k, x) (obj_tail json_encode ps +:+ r)) as [Hs Ht].
    rewrite !string_app_assoc. change ("{" +:+ ?y) with (String "{" y).
    rewrite parse_value_open by auto. cbn iota. rewrite Hs, Ht.
    apply (parse_members_encode ps Hl k x f r [] Hx).
    change ("{" +:+ ?y) with (String "{" y) in Hf. cbn [String.length] in Hf. lia.
Qed.

(** ** What the parser produces *)

(** The parser only builds values JSON can denote: every array element
    and member it collects is one. *)
Lemma parse_json_value (n : nat) :
  (forall s v r, parse_value n s = POk v r -> json_value v = true) /\
  (forall s acc v r, forallb json_value acc = true -> parse_elements n s acc = POk v r -> json_value v = true) /\
  (forall s acc v r, forallb (fun kv => json_value kv.2) acc = true ->
     parse_members n s acc = POk v r -> json_value v = true).
Proof.
  induction n as [|n (IHv & IHe & IHm)]; [repeat split; intros; discriminate|]. repeat split.
  - intros s v r H. cbn [parse_value] in H. case_in H; try (injection H as <- _; reflexivity).
    + exact (IHm _ [] v r eq_refl H).
    + exact (IHe _ [] v r eq_refl H).
  - intros s acc v r Hacc H. cbn [parse_elements] in H. case_in H.
    all: match goal with E : parse_value _ _ = POk ?x _ |- _ =>
           assert (Hacc' : forallb json_value (acc ++ [x]) = true)
             by (rewrite forallb_app, Hacc; cbn; now rewrite (IHv _ _ _ E)) end.
    + exact (IHe _ _ v r Hacc' H).
    + injection H as <- _. exact Hacc'.
  - intros s acc v r Hacc H. cbn [parse_members] in H. case_in H.
    all: match goal with E : parse_value _ _ = POk ?x _, _ : parse_string_body _ = Some (?k, _) |- _ =>
           assert (Hacc' : forallb (fun kv => json_value kv.2) (acc ++ [(k, x)]) = true)
             by (rewrite forallb_app, Hacc; cbn; now rewrite (IHv _ _ _ E)) end.
    + exact (IHm _ _ v r Hacc' H).
    + injection H as <- _. exact Hacc'.
Qed.

(** The text of a value parses back to the value, with nothing left. *)
Lemma json_parse_text_encode (v : jsval) :
  json_value v = true -> json_parse_text (json_encode v) = POk v EmptyString.
Proof.
  intros Hv. unfold json_parse_text.
  pose proof (json_value_reads_back v Hv (2 * String.length (json_encode v) + 3)%nat EmptyString eq_refl
                ltac:(lia)) as H.
  rewrite string_app_empty_r in H. rewrite H. reflexivity.
Qed.

(** What the reply handler sees: [JSON.parse(response)] on the text of
    a value gives the value. *)
Lemma JSON_parse_encode (v : jsval) :
  json_value v = true -> JSON_parse (JStr (json_encode v)) = inr v.
Proof. intros Hv. unfold JSON_parse. cbn [to_string]. now rewrite json_parse_text_encode. Qed.

(** Round trip of the reply format. For every value JSON can
    denote (no [undefined] inside), the JSON text of the value parses
    back to exactly that value with nothing left over, and
    [JSON.parse] called on that text returns it: strings with every
    byte (quotes, backslashes and control characters escaped), numbers
    as mantissa and exponent, nested arrays and objects with their
    members in order. *)
Theorem json_roundtrip (v : jsval) :
  json_value v = true ->
  json_parse_text (json_encode v) = POk v EmptyString /\ JSON_parse (JStr (json_encode v)) = inr v.
Proof. intros Hv. split; [apply json_parse_text_encode | apply JSON_parse_encode]; exact Hv. Qed.

(** The values [JSON.parse] returns are exactly the values JSON can
    denote: whatever it is called on, a value it returns has no
    [undefined] anywhere inside, and every such value is returned for
    some reply text (its JSON text). *)
Theorem JSON_parse_range (v : jsval) :
  (exists text, JSON_parse text = inr v) <-> json_value v = true.
Proof.
  split; [|intros Hv; exists (JStr (json_encode v)); now apply JSON_parse_encode].
  intros [text H]. unfold JSON_parse, json_parse_text in H.
  destruct (parse_value _ (to_string text)) as [w rest| |] eqn:E; [|discriminate..].
  destruct (skip_ws rest); [|discriminate]. injection H as <-.
  exact (proj1 (parse_json_value _) _ _ _ E).
Qed.

(** The failure reply of the spec's format [{success: false, error: X}]. *)
Definition failure_object (e : string) : jsval := JObj [("success", JBool false); ("error", JStr e)].

(** A failure reply whose error text has a quote, a backslash and a
    line break. *)
Definition tricky_reply : jsval :=
  JObj [("success", JBool false);
        ("error", JStr ("Invalid " +:+ String dq_char ("to" +:+ String dq_char (String bs (String (ascii_of_nat 10) "x")))));
        ("code", JNum (mkDecimal (-25) (-1)))].

Lemma json_roundtrip_witness :
  json_value tricky_reply = true /\
  json_parse_text (json_encode tricky_reply) = POk tricky_reply EmptyString /\
  JSON_parse (JStr (json_encode tricky_reply)) = inr tricky_reply.
Proof. split; [reflexivity | apply json_roundtrip; reflexivity]. Defined.

End JsonEncode.
