(* ===== verification/CounterText.v ===== *)
(** * The counter texts read back

    [countUp] writes every frame as text ([CountUp.format_number], part.js
    lines 47-59): [Math.round(current / 1000) + "k"],
    [Math.round(current).toLocaleString() + "+"],
    ["Over " + Math.round(current)], or [Math.round(current).toLocaleString()].
    This file gives a reader of those texts ([read_int]: drop the
    thousands separators, an optional minus sign, then decimal digits)
    and proves that it reads back the integer from both [toLocaleString]
    and [ToString] ([read_int_roundtrip]); as a consequence, each
    counter's text determines the rounded value it shows: two frames
    showing the same text show the same number
    ([format_number_injective]). *)

From S2P Require Import Prelude JsRuntime CountUp Json JsonEncode.
From Stdlib Require Import Ascii String QArith DecimalString.

Module CounterText.

Import CountUp Json JsonEncode.

Local Open Scope Z_scope.

(** ** Reading an integer *)

Definition not_comma (c : ascii) : bool := negb (Ascii.eqb c ",").

Definition strip_commas (s : string) : string :=
  string_of_list_ascii (List.filter not_comma (list_ascii_of_string s)).

(** A sign and at least one digit, and nothing after them. *)
Definition read_signed (s : string) : option Z :=
  let '(neg, body) := match take_char "-" s with Some r => (true, r) | None => (false, s) end in
  match digits body 0 0 with
  | (v, S _, EmptyString) => Some (if neg then - v else v)
  | _ => None
  end.

(** An integer as [toLocaleString] or [ToString] writes it. *)
Definition read_int (s : string) : option Z := read_signed (strip_commas s).

(** ** Thousands separators *)

(** The separators [commas_rev] inserts are the only commas it adds. *)
Lemma filter_commas_rev (l : list ascii) :
  List.filter not_comma (commas_rev l) = List.filter not_comma l.
Proof.
  remember (List.length l) as n eqn:En. revert l En.
  induction n as [n IH] using (well_founded_induction lt_wf). intros l ->.
  destruct l as [|a [|b [|c [|x rest]]]]; try reflexivity.
  change (commas_rev (a :: b :: c :: x :: rest)) with (a :: b :: c :: "," :: commas_rev (x :: rest))%char.
  cbn [List.filter]. change (not_comma ",") with false. cbn iota.
  rewrite (IH (List.length (x :: rest))) by (cbn; lia || reflexivity). reflexivity.
Qed.

Lemma filter_digits (u : Decimal.uint) :
  List.filter not_comma (list_ascii_of_string (NilEmpty.string_of_uint u))
  = list_ascii_of_string (NilEmpty.string_of_uint u).
Proof. induction u; cbn; rewrite ?IHu; reflexivity. Qed.

Lemma strip_commas_digits_N (n : N) : strip_commas (digits_N n) = digits_N n.
Proof.
  unfold strip_commas, digits_N. rewrite filter_digits. apply string_of_list_ascii_of_string.
Qed.

Lemma strip_commas_group_thousands (d : string) : strip_commas (group_thousands d) = strip_commas d.
Proof.
  unfold strip_commas, group_thousands. rewrite list_ascii_of_string_of_list_ascii.
  rewrite List.filter_rev, filter_commas_rev, <- List.filter_rev, List.rev_involutive. reflexivity.
Qed.

(** Without its separators, [toLocaleString] is [ToString]. *)
Lemma strip_commas_to_locale_string (z : Z) : strip_commas (to_locale_string z) = Z_to_string z.
Proof.
  unfold to_locale_string, Z_to_string. destruct (Z.ltb z 0).
  - change ("-" +:+ ?x) with (String "-" x). unfold strip_commas at 1. cbn [list_ascii_of_string List.filter].
    change (not_comma "-") with true. cbn [string_of_list_ascii].
    fold (strip_commas (group_thousands (digits_N (Z.to_N (- z))))).
    now rewrite strip_commas_group_thousands, strip_commas_digits_N.
  - now rewrite strip_commas_group_thousands, strip_commas_digits_N.
Qed.

Lemma read_signed_Z_to_string (z : Z) : read_signed (Z_to_string z) = Some z.
Proof.
  unfold read_signed, Z_to_string. destruct (Z.ltb_spec z 0).
  - change ("-" +:+ ?x) with (String "-" x). rewrite take_char_same. cbn iota beta.
    destruct (digits_digits_N (Z.to_N (- z)) EmptyString eq_refl) as (l & Hl & E).
    rewrite string_app_empty_r in E. rewrite E. destruct l as [|l]; [contradiction|]. f_equal. lia.
  - pose proof (take_char_digits_N "-" (Z.to_N z) EmptyString eq_refl) as T.
    rewrite string_app_empty_r in T. rewrite T. cbn iota beta.
    destruct (digits_digits_N (Z.to_N z) EmptyString eq_refl) as (l & Hl & E).
    rewrite string_app_empty_r in E. rewrite E. destruct l as [|l]; [contradiction|]. f_equal. lia.
Qed.

Lemma strip_commas_Z_to_string (z : Z) : strip_commas (Z_to_string z) = Z_to_string z.
Proof.
  unfold Z_to_string. destruct (Z.ltb z 0); [|apply strip_commas_digits_N].
  change ("-" +:+ ?x) with (String "-" x). unfold strip_commas. cbn [list_ascii_of_string List.filter].
  change (not_comma "-") with true. cbn [string_of_list_ascii].
  fold (strip_commas (digits_N (Z.to_N (- z)))). now rewrite strip_commas_digits_N.
Qed.

(** [ToString] and [toLocaleString] never write two integers alike. *)
Lemma Z_to_string_inj (a b : Z) : Z_to_string a = Z_to_string b -> a = b.
Proof.
  intros H. pose proof (read_signed_Z_to_string a) as Ha. rewrite H, read_signed_Z_to_string in Ha.
  congruence.
Qed.

Lemma to_locale_string_inj (a b : Z) : to_locale_string a = to_locale_string b -> a = b.
Proof.
  intros H. apply (f_equal strip_commas) in H. rewrite !strip_commas_to_locale_string in H.
  exact (Z_to_string_inj a b H).
Qed.

(** Round trip of the counter texts: reading a number written by
    [toLocaleString] (en-US, with thousands separators) or by
    [ToString] gives the number back, negative numbers included. *)
Theorem read_int_roundtrip (z : Z) :
  read_int (to_locale_string z) = Some z /\ read_int (Z_to_string z) = Some z.
Proof.
  unfold read_int. rewrite strip_commas_to_locale_string, strip_commas_Z_to_string.
  split; apply read_signed_Z_to_string.
Qed.

(** ** The text of a frame *)

(** The integer a frame's text shows: the rounded thousands for the
    suffix [k], the rounded value otherwise. *)
Definition shown_value (suffix : string) (cur : Q) : Z :=
  if String.eqb suffix "k" then js_round (cur / inject_Z 1000) else js_round cur.

(** C27: A counter's text determines the number it shows: for each of
    the four suffix rules of [countUp], two frames that display the
    same text display the same rounded value. *)
Theorem format_number_injective (suffix : string) (cur cur' : Q) :
  format_number suffix cur = format_number suffix cur' -> shown_value suffix cur = shown_value suffix cur'.
Proof.
  unfold format_number, shown_value. intros H.
  destruct (String.eqb suffix "k"); [exact (Z_to_string_inj _ _ (string_app_cancel_r _ _ _ H))|].
  destruct (String.eqb suffix "+"); [exact (to_locale_string_inj _ _ (string_app_cancel_r _ _ _ H))|].
  destruct (String.eqb suffix "over"); [|exact (to_locale_string_inj _ _ H)].
  exact (Z_to_string_inj _ _ (string_app_cancel_l _ _ _ H)).
Qed.

(** Two readings 0.8 apart both display [50,000+]. *)
Lemma format_number_injective_witness :
  format_number "+" (499996 # 10) = format_number "+" (500004 # 10) /\
  shown_value "+" (499996 # 10) = shown_value "+" (500004 # 10).
Proof.
  assert (H : format_number "+" (499996 # 10) = format_number "+" (500004 # 10)) by (vm_compute; reflexivity).
  split; [exact H | exact (format_number_injective "+" _ _ H)].
Defined.

End CounterText.
