(* ===== verification/Submission.v ===== *)
(** * Submitting the quote form: handlers, delivery and banners

    Models the effectful part of the quote form controller of part.js:
    the [select] click handler (lines 230-245), the submit handler
    (248-326), [sendEmail] (408-432), [fallbackEmailMethod] with its
    success and error callbacks (435-493), [showSuccessMessage]
    (496-535), [showErrorMessage] (538-568), the focus/change handler
    (571-573) and the change handlers of the ready callback (lines 6-16).

    The page state [fpage] holds what they read and write: the values of
    the form's controls and the values [form.reset()] restores, the
    [border-bottom] style of each border group, the loader's visibility,
    the banners inserted after the form (in document order), the
    [alert] calls, the [setTimeout] queue, whether EmailJS is loaded,
    the pending network requests, the log of every network call with its
    payload, and the exceptions no handler caught.

    The handlers are programs in [M], a state-and-exception monad: a
    thrown JavaScript error carries the state reached at the throw, as in
    JavaScript, and [try_catch] is the [try]/[catch] of lines 458-472.
    An event [fevent] is a submit, the outcome of a pending EmailJS send
    or AJAX post, a timer, the clock advancing, a user edit, or a
    focus/change/click on a control; [exec] runs the matching handler
    and records an uncaught exception. The AJAX post has the 30 s
    timeout of line 455: its [error] callback with status "timeout"
    comes only once 30 s have passed, every other outcome before.

    The theorems: what a submit does with a valid and an invalid form;
    how each kind of reply, error and timeout is shown; the fallback from
    EmailJS to the PHP script; and, over every run ([freachable]), the
    invariants on the banners ([banner_inv]) and the loader
    ([loader_inv]), and that answering every pending request brings the
    form back to idle. The invariants are proved handler by handler with
    [preserves]: the combinators of [M] preserve what their parts
    preserve; each invariant is an instance of the class [Framed], which
    names the part of the page it reads, so a step that leaves that part
    alone keeps it; and [preserves_solve] follows a handler's code with
    these facts and the lemmas of the [handler] hint database.

    Not modelled: the scroll animations (visual only), the [fadeOut]
    animation itself (its end, which removes the element, is a 500 ms
    timer), and the delivery of the e-mail by EmailJS or the PHP script
    beyond the outcome each reports. *)

From S2P Require Import Prelude JsRuntime QuoteForm Json JsonEncode.
From stdpp Require Import sets.
From Stdlib Require Import String.

Import QuoteForm Json JsonEncode.

Module Submission.

(** ** Page state *)

Inductive banner_kind := SuccessMsg | ErrorMsg.

#[global] Instance banner_kind_eq_dec : EqDecision banner_kind.
Proof. solve_decision. Defined.

(** A [div.success-message] or [div.error-message] after the form. *)
Record banner := mkBanner { bn_id : nat; bn_kind : banner_kind; bn_html : string }.

(** The callbacks given to [setTimeout]: the 10 s fade of
    [showSuccessMessage], the 15 s fade of [showErrorMessage], and the
    end of a 500 ms [fadeOut] removing the faded elements. *)
Inductive ftask :=
| TFadeMessages
| TFadeErrors
| TRemove (ids : list nat).

(** A network call: [emailjs.send(service, template, params)] or the
    [$.ajax] POST of [fallbackEmailMethod]. *)
Inductive outgoing :=
| SentEmailJs (service template : string) (params : list (string * jsval))
| SentAjax (url : string) (data : list (string * jsval)).

(** A pending call: EmailJS keeps what its rejection handler passes on;
    the AJAX post keeps the time it was sent, for its 30 s timeout. *)
Inductive request :=
| ReqEmailJs (fd : form_data) (subject body : string)
| ReqAjax (sent_at : Z).

Record fpage := mkFpage {
  fp_now : Z;
  fp_form : form_data;
  fp_defaults : form_data;
  fp_border : border_group -> option string;
  fp_loader : bool;
  fp_banners : list banner;
  fp_next_id : nat;
  fp_alerts : list string;
  fp_timers : list (Z * ftask);
  fp_emailjs : bool;
  fp_requests : list (nat * request);
  fp_next_req : nat;
  fp_outbox : list outgoing;
  fp_uncaught : list js_error
}.

Definition set_now (t : Z) (s : fpage) : fpage :=
  mkFpage t (fp_form s) (fp_defaults s) (fp_border s) (fp_loader s) (fp_banners s) (fp_next_id s)
    (fp_alerts s) (fp_timers s) (fp_emailjs s) (fp_requests s) (fp_next_req s) (fp_outbox s) (fp_uncaught s).
Definition set_form (fd : form_data) (s : fpage) : fpage :=
  mkFpage (fp_now s) fd (fp_defaults s) (fp_border s) (fp_loader s) (fp_banners s) (fp_next_id s)
    (fp_alerts s) (fp_timers s) (fp_emailjs s) (fp_requests s) (fp_next_req s) (fp_outbox s) (fp_uncaught s).
Definition set_border_fn (b : border_group -> option string) (s : fpage) : fpage :=
  mkFpage (fp_now s) (fp_form s) (fp_defaults s) b (fp_loader s) (fp_banners s) (fp_next_id s)
    (fp_alerts s) (fp_timers s) (fp_emailjs s) (fp_requests s) (fp_next_req s) (fp_outbox s) (fp_uncaught s).
Definition set_loader (v : bool) (s : fpage) : fpage :=
  mkFpage (fp_now s) (fp_form s) (fp_defaults s) (fp_border s) v (fp_banners s) (fp_next_id s)
    (fp_alerts s) (fp_timers s) (fp_emailjs s) (fp_requests s) (fp_next_req s) (fp_outbox s) (fp_uncaught s).
Definition set_banners (bs : list banner) (next : nat) (s : fpage) : fpage :=
  mkFpage (fp_now s) (fp_form s) (fp_defaults s) (fp_border s) (fp_loader s) bs next
    (fp_alerts s) (fp_timers s) (fp_emailjs s) (fp_requests s) (fp_next_req s) (fp_outbox s) (fp_uncaught s).
Definition set_alerts (al : list string) (s : fpage) : fpage :=
  mkFpage (fp_now s) (fp_form s) (fp_defaults s) (fp_border s) (fp_loader s) (fp_banners s) (fp_next_id s)
    al (fp_timers s) (fp_emailjs s) (fp_requests s) (fp_next_req s) (fp_outbox s) (fp_uncaught s).
Definition set_timers (ts : list (Z * ftask)) (s : fpage) : fpage :=
  mkFpage (fp_now s) (fp_form s) (fp_defaults s) (fp_border s) (fp_loader s) (fp_banners s) (fp_next_id s)
    (fp_alerts s) ts (fp_emailjs s) (fp_requests s) (fp_next_req s) (fp_outbox s) (fp_uncaught s).
Definition set_requests (rs : list (nat * request)) (next : nat) (s : fpage) : fpage :=
  mkFpage (fp_now s) (fp_form s) (fp_defaults s) (fp_border s) (fp_loader s) (fp_banners s) (fp_next_id s)
    (fp_alerts s) (fp_timers s) (fp_emailjs s) rs next (fp_outbox s) (fp_uncaught s).
Definition set_outbox (o : list outgoing) (s : fpage) : fpage :=
  mkFpage (fp_now s) (fp_form s) (fp_defaults s) (fp_border s) (fp_loader s) (fp_banners s) (fp_next_id s)
    (fp_alerts s) (fp_timers s) (fp_emailjs s) (fp_requests s) (fp_next_req s) o (fp_uncaught s).
Definition set_uncaught (u : list js_error) (s : fpage) : fpage :=
  mkFpage (fp_now s) (fp_form s) (fp_defaults s) (fp_border s) (fp_loader s) (fp_banners s) (fp_next_id s)
    (fp_alerts s) (fp_timers s) (fp_emailjs s) (fp_requests s) (fp_next_req s) (fp_outbox s) u.

(** ** The state-and-exception monad *)

Definition M (A : Type) : Type := fpage -> (js_error + A) * fpage.

Definition ret {A} (a : A) : M A := fun s => (inr a, s).
Definition bind {A B} (m : M A) (k : A -> M B) : M B :=
  fun s => match m s with
           | (inr a, s') => k a s'
           | (inl e, s') => (inl e, s')
           end.
Definition throw {A} (e : js_error) : M A := fun s => (inl e, s).
(** [try { m } catch (e) { h(e) }] *)
Definition try_catch {A} (m : M A) (h : js_error -> M A) : M A :=
  fun s => match m s with
           | (inl e, s') => h e s'
           | r => r
           end.
Definition modify (f : fpage -> fpage) : M unit := fun s => (inr tt, f s).
Definition gets {A} (f : fpage -> A) : M A := fun s => (inr (f s), s).
(** A platform call that returns a value or throws. *)
Definition lift {A} (r : js_error + A) : M A := fun s => (r, s).

Declare Scope submission_scope.
Delimit Scope submission_scope with sub.
Notation "x <- m ;; k" := (bind m (fun x => k))
  (at level 100, m at next level, right associativity) : submission_scope.
Notation "m ;; k" := (bind m (fun _ => k))
  (at level 100, right associativity) : submission_scope.
Local Open Scope submission_scope.

(** ** DOM operations *)

Definition show_loader : M unit := modify (set_loader true).
Definition hide_loader : M unit := modify (set_loader false).

(** [.css('border-bottom', v)] on one border group. *)
Definition css_border (g : border_group) (v : string) : M unit :=
  modify (fun s => set_border_fn (fun g' => if decide (g = g') then Some v else fp_border s g') s).

(** [$('.input-field').css('border-bottom', v)]: every wrapper at once. *)
Definition css_all_input_fields (v : string) : M unit :=
  modify (fun s => set_border_fn (fun g' => match g' with
                                            | InputField _ => Some v
                                            | _ => fp_border s g'
                                            end) s).

Definition alert (msg : string) : M unit := modify (fun s => set_alerts (fp_alerts s ++ [msg]) s).

Definition set_timeout (delay : Z) (t : ftask) : M unit :=
  modify (fun s => set_timers (fp_timers s ++ [((fp_now s + delay)%Z, t)]) s).

(** [$('#regForm').after(html)]: the new element comes first after the form. *)
Definition insert_banner (k : banner_kind) (h : string) : M unit :=
  modify (fun s => set_banners (mkBanner (fp_next_id s) k h :: fp_banners s) (S (fp_next_id s)) s).

(** [$('.success-message, .error-message').remove()] *)
Definition remove_all_banners : M unit := modify (fun s => set_banners [] (fp_next_id s) s).

(** [$('#regForm')[0].reset()] *)
Definition form_reset : M unit := modify (fun s => set_form (fp_defaults s) s).

Definition send (o : outgoing) (r : request) : M unit :=
  modify (fun s => set_requests (fp_requests s ++ [(fp_next_req s, r)]) (S (fp_next_req s))
                     (set_outbox (fp_outbox s ++ [o]) s)).

(** ** Banners (lines 496-568) *)

Definition successHtml : string :=
  html "
        <div class='success-message' style='background-color: #d4edda; color: #155724; padding: 20px; border: 1px solid #c3e6cb; border-radius: 5px; margin: 20px 0; text-align: center;'>
            <h3>🎉 Thank You for Your Request!</h3>
            <p><strong>Your auto parts quote request has been successfully submitted.</strong></p>
            <p>Our team will review your request and contact you within 24 hours with:</p>
            <ul style='text-align: left; display: inline-block;'>
                <li>Available parts matching your requirements</li>
                <li>Competitive pricing information</li>
                <li>Shipping and warranty details</li>
            </ul>
            <p><strong>Need immediate assistance?</strong><br>
            Call us at <a href='tel:+18776118211' style='color: #155724; font-weight: bold;'>+1 (307) 302-8308</a></p>
        </div>
    ".

Definition errorHtml (message : string) : string :=
  html "
        <div class='error-message' style='background-color: #f8d7da; color: #721c24; padding: 20px; border: 1px solid #f5c6cb; border-radius: 5px; margin: 20px 0; text-align: center;'>
            <h3>❌ Submission Error</h3>
            <p><strong>We encountered an issue while processing your request.</strong></p>
            <p>" +:+
  message +:+
  html "</p>
            <p><strong>Please try again or contact us directly:</strong><br>
            Call us at <a href='tel:+18776118211' style='color: #721c24; font-weight: bold;'>+1 (307) 302-8308</a><br>
            Email us at <a href='mailto:info@oneauto-salvage.com' style='color: #721c24; font-weight: bold;'>info@oneauto-salvage.com</a></p>
        </div>
    ".

Definition showSuccessMessage : M unit :=
  form_reset;;
  css_all_input_fields "1px solid #ccc";;
  css_border YearF "1px solid #ccc";;
  css_border ModelF "1px solid #ccc";;
  insert_banner SuccessMsg successHtml;;
  set_timeout 10000 TFadeMessages.

Definition showErrorMessage (message : string) : M unit :=
  remove_all_banners;;
  insert_banner ErrorMsg (errorHtml message);;
  set_timeout 15000 TFadeErrors.

(** The timers: [fadeOut(500, remove)] on the elements the selector
    matches when the timer fires. *)
Definition fade (sel : banner -> bool) : M unit :=
  ids <- gets (fun s => map bn_id (filter (fun b => sel b = true) (fp_banners s)));;
  match ids with
  | [] => ret tt
  | _ => set_timeout 500 (TRemove ids)
  end.

Definition remove_banners (ids : list nat) : M unit :=
  modify (fun s => set_banners (filter (fun b => bn_id b ∉ ids) (fp_banners s)) (fp_next_id s) s).

Definition run_ftask (t : ftask) : M unit :=
  match t with
  | TFadeMessages => fade (fun _ => true)
  | TFadeErrors => fade (fun b => bool_decide (bn_kind b = ErrorMsg))
  | TRemove ids => remove_banners ids
  end.

(** ** Delivery (lines 408-493) *)

Definition recipient : string := "info@oneauto-salvage.com".

(** The [data] object of the AJAX post (lines 440-454). *)
Definition ajax_data (fd : form_data) (subject body : string) : list (string * jsval) :=
  [("year", fd_year fd); ("model", fd_model fd); ("part_name", fd_part_name fd);
   ("purchase", fd_purchase fd); ("vin", fd_vin fd); ("name", fd_name fd);
   ("email", fd_email fd); ("mobile", fd_mobile fd); ("zip_code", fd_zip_code fd);
   ("comment", fd_comment fd); ("email_subject", JStr subject); ("email_body", JStr body);
   ("to_email", JStr recipient)].

Definition fallbackEmailMethod (fd : form_data) (subject body : string) : M unit :=
  now <- gets fp_now;;
  send (SentAjax "send_email.php" (ajax_data fd subject body)) (ReqAjax now).

(** The EmailJS parameters (lines 414-421). *)
Definition emailjs_params (fd : form_data) (subject body : string) : list (string * jsval) :=
  [("to_email", JStr recipient); ("subject", JStr subject); ("message", JStr body);
   ("from_name", fd_name fd); ("from_email", fd_email fd); ("reply_to", fd_email fd)].

Definition sendEmail (fd : form_data) (subject body : string) : M unit :=
  present <- gets fp_emailjs;;
  if present
  then send (SentEmailJs "YOUR_SERVICE_ID" "YOUR_TEMPLATE_ID" (emailjs_params fd subject body))
            (ReqEmailJs fd subject body)
  else fallbackEmailMethod fd subject body.

(** The EmailJS promise: fulfilled (lines 421-423) or rejected (424-427). *)
Definition emailjs_fulfilled : M unit := hide_loader;; showSuccessMessage.
Definition emailjs_rejected (fd : form_data) (subject body : string) : M unit :=
  fallbackEmailMethod fd subject body.

(** [response.toLowerCase()]: only strings have the method. *)
Definition to_lower_call (v : jsval) : js_error + string :=
  match v with
  | JStr s => inr (to_lower s)
  | _ => inl (TypeError "response.toLowerCase is not a function")
  end.

(** The [success] callback of the AJAX post (lines 456-473). *)
Definition ajax_success (response : jsval) : M unit :=
  hide_loader;;
  try_catch
    (result <- lift (JSON_parse response);;
     ok <- lift (get_prop result "success");;
     if truthy ok then showSuccessMessage
     else (err <- lift (get_prop result "error");;
           showErrorMessage (str_plus "Failed to send email: " (js_or err (JStr "Unknown error")))))
    (fun _ =>
       lower <- lift (to_lower_call response);;
       if includes lower "success" || includes lower "sent"
       then showSuccessMessage
       else showErrorMessage "Email sent but received unexpected response format.").

(** The message of the [error] callback (lines 476-488). *)
Definition ajax_error_message (status : string) (xhr_status : Z) (error : string) : string :=
  "Failed to send email. " +:+
  (if String.eqb status "timeout" then "Request timed out. Please try again."
   else if Z.eqb xhr_status 0 then "Network connection error. Please check your connection."
   else if Z.eqb xhr_status 404 then "Email service not found. Please contact support."
   else if Z.leb 500 xhr_status then "Server error. Please try again later."
   else "Error: " +:+ error).

Definition ajax_error (status : string) (xhr_status : Z) (error : string) : M unit :=
  hide_loader;;
  showErrorMessage (ajax_error_message status xhr_status error).

(** ** The submit handler (lines 248-326) *)

Definition mark_groups (gs : list border_group) : M unit :=
  fold_right (fun g rest => css_border g "2px solid red";; rest) (ret tt) gs.

Definition submit_handler (currentDate : string) : M unit :=
  show_loader;;
  fd <- gets fp_form;;
  let '(isValid, errorMessage, marked) := validate fd in
  mark_groups marked;;
  if negb isValid then (hide_loader;; alert errorMessage)
  else sendEmail fd (emailSubject fd) (createEmailTableContent currentDate fd).

(** ** Field handlers (lines 6-16, 230-245, 571-573) *)

(** [$(this).closest('.input-field').css('border-bottom', '1px solid #ccc')]
    on focus or change of any control of the form. *)
Definition focus_change_handler (control : string) : M unit :=
  css_border (InputField control) "1px solid #ccc".

(** The change handlers registered in the ready callback. *)
Definition ready_change_handler (control : string) : M unit :=
  if String.eqb control "model" then css_border ModelF "1px solid #ccc"
  else if String.eqb control "year" then css_border YearF "1px solid #ccc"
  else ret tt.

(** The click handler of the form's selects: opening the part or year
    select while the model is the empty string marks the model red. *)
Definition select_click_handler (selectId : string) : M unit :=
  if String.eqb selectId "part_name" || String.eqb selectId "year" then
    model <- gets (fun s => fd_model (fp_form s));;
    match model with
    | JStr m => if String.eqb m EmptyString then css_border ModelF "1px solid red" else ret tt
    | _ => ret tt
    end
  else ret tt.

(** ** Events *)

Inductive fevent :=
| FSubmit (currentDate : string)
| FEmailJsFulfilled (id : nat)
| FEmailJsRejected (id : nat)
| FAjaxSuccess (id : nat) (response : jsval)
| FAjaxError (id : nat) (status : string) (xhr_status : Z) (error : string)
| FTimer
| FAdvance (t : Z)
| FInput (control : string) (v : jsval)
| FFocus (control : string)
| FChange (control : string)
| FSelectClick (control : string).

(** The user sets the value of a control (by its [name] / [id]). *)
Definition set_field (control : string) (v : jsval) (fd : form_data) : form_data :=
  let '(mkFormData y m p pu vi n e mo z c) := fd in
  if String.eqb control "year" then mkFormData v m p pu vi n e mo z c
  else if String.eqb control "model" then mkFormData y v p pu vi n e mo z c
  else if String.eqb control "part_name" then mkFormData y m v pu vi n e mo z c
  else if String.eqb control "purchase" then mkFormData y m p v vi n e mo z c
  else if String.eqb control "vin" then mkFormData y m p pu v n e mo z c
  else if String.eqb control "name" then mkFormData y m p pu vi v e mo z c
  else if String.eqb control "email" then mkFormData y m p pu vi n v mo z c
  else if String.eqb control "mobile" then mkFormData y m p pu vi n e v z c
  else if String.eqb control "zip_code" then mkFormData y m p pu vi n e mo v c
  else if String.eqb control "comment" then mkFormData y m p pu vi n e mo z v
  else fd.

(** Run a handler; an exception it does not catch ends it, keeping the
    state reached, and is recorded. *)
Definition run (m : M unit) (s : fpage) : fpage :=
  match m s with
  | (inl e, s') => set_uncaught (fp_uncaught s' ++ [e]) s'
  | (inr _, s') => s'
  end.

(** Take the pending request [id] off the list. *)
Definition take_request (id : nat) (s : fpage) : option (request * fpage) :=
  match list_find (fun p => p.1 = id) (fp_requests s) with
  | Some (i, (_, r)) => Some (r, set_requests (delete i (fp_requests s)) (fp_next_req s) s)
  | None => None
  end.

(** The AJAX post's timeout is 30 s: before it the server's answer (or a
    network failure) arrives, from it on jQuery reports "timeout" with
    [xhr.status] 0. *)
Definition ajax_timeout : Z := 30000.

Definition exec (e : fevent) (s : fpage) : option fpage :=
  match e with
  | FSubmit d => Some (run (submit_handler d) s)
  | FEmailJsFulfilled id =>
      match take_request id s with
      | Some (ReqEmailJs _ _ _, s') => Some (run emailjs_fulfilled s')
      | _ => None
      end
  | FEmailJsRejected id =>
      match take_request id s with
      | Some (ReqEmailJs fd subject body, s') => Some (run (emailjs_rejected fd subject body) s')
      | _ => None
      end
  | FAjaxSuccess id response =>
      match take_request id s with
      | Some (ReqAjax t0, s') =>
          if Z.ltb (fp_now s) (t0 + ajax_timeout) then Some (run (ajax_success response) s') else None
      | _ => None
      end
  | FAjaxError id status xhr_status error =>
      match take_request id s with
      | Some (ReqAjax t0, s') =>
          if String.eqb status "timeout"
          then if Z.leb (t0 + ajax_timeout) (fp_now s) && Z.eqb xhr_status 0
               then Some (run (ajax_error status xhr_status error) s') else None
          else if Z.ltb (fp_now s) (t0 + ajax_timeout)
               then Some (run (ajax_error status xhr_status error) s') else None
      | _ => None
      end
  | FTimer =>
      match next_timer (fp_timers s) with
      | Some (i, (due, t)) =>
          Some (run (run_ftask t) (set_now (Z.max (fp_now s) due) (set_timers (delete i (fp_timers s)) s)))
      | None => None
      end
  | FAdvance t =>
      if Z.leb (fp_now s) t && forallb (fun p => Z.leb t p.1) (fp_timers s)
      then Some (set_now t s) else None
  | FInput c v => Some (set_form (set_field c v (fp_form s)) s)
  | FFocus c => Some (run (focus_change_handler c) s)
  | FChange c => Some (run (focus_change_handler c;; ready_change_handler c) s)
  | FSelectClick c => Some (run (select_click_handler c) s)
  end.

Fixpoint exec_all (es : list fevent) (s : fpage) : option fpage :=
  match es with
  | [] => Some s
  | e :: rest => match exec e s with Some s' => exec_all rest s' | None => None end
  end.

(** The page when the script has run: the controls hold their default
    values, nothing is shown, pending or sent. *)
Definition initial_fpage (defaults : form_data) (emailjs : bool) : fpage :=
  mkFpage 0 defaults defaults (fun _ => None) false [] 0 [] [] emailjs [] 0 [] [].

Inductive freachable : fpage -> Prop :=
| freach_init defaults emailjs : freachable (initial_fpage defaults emailjs)
| freach_step e s s' : freachable s -> exec e s = Some s' -> freachable s'.

(** ** What the routines do *)

Lemma showSuccessMessage_effect (s : fpage) :
  let '(r, s') := showSuccessMessage s in
  r = inr tt /\
  fp_banners s' = mkBanner (fp_next_id s) SuccessMsg successHtml :: fp_banners s /\
  fp_form s' = fp_defaults s /\ fp_loader s' = fp_loader s /\
  fp_outbox s' = fp_outbox s /\ fp_requests s' = fp_requests s /\ fp_alerts s' = fp_alerts s /\
  fp_uncaught s' = fp_uncaught s /\
  fp_timers s' = fp_timers s ++ [((fp_now s + 10000)%Z, TFadeMessages)] /\
  (forall g, fp_border s' g = Some "1px solid #ccc").
Proof.
  cbn. repeat split. intros [| |c]; cbn; reflexivity.
Qed.

Lemma showErrorMessage_effect (message : string) (s : fpage) :
  let '(r, s') := showErrorMessage message s in
  r = inr tt /\
  fp_banners s' = [mkBanner (fp_next_id s) ErrorMsg (errorHtml message)] /\
  fp_form s' = fp_form s /\ fp_loader s' = fp_loader s /\
  fp_outbox s' = fp_outbox s /\ fp_requests s' = fp_requests s /\ fp_alerts s' = fp_alerts s /\
  fp_uncaught s' = fp_uncaught s /\
  fp_timers s' = fp_timers s ++ [((fp_now s + 15000)%Z, TFadeErrors)].
Proof. cbn. repeat split. Qed.

Lemma mark_groups_cons (g : border_group) (gs : list border_group) (s : fpage) :
  mark_groups (g :: gs) s
  = mark_groups gs (set_border_fn (fun g' => if decide (g = g') then Some "2px solid red"
                                             else fp_border s g') s).
Proof. reflexivity. Qed.

Lemma mark_groups_effect (gs : list border_group) (s : fpage) :
  exists b, mark_groups gs s = (inr tt, set_border_fn b s) /\
    forall g, b g = if decide (g ∈ gs) then Some "2px solid red" else fp_border s g.
Proof.
  revert s. induction gs as [|g gs IH]; intros s.
  - exists (fp_border s). split; [now destruct s | intros g; reflexivity].
  - rewrite mark_groups_cons.
    destruct (IH (set_border_fn (fun g' => if decide (g = g') then Some "2px solid red" else fp_border s g') s))
      as [b [Hb Hg]].
    exists b. rewrite Hb. split; [reflexivity|].
    intros g'. rewrite Hg. cbn.
    destruct (decide (g' ∈ gs)) as [H1|H1]; destruct (decide (g' ∈ g :: gs)) as [H2|H2];
      destruct (decide (g = g')) as [H3|H3]; subst; try reflexivity;
      exfalso; first [ apply H2, elem_of_cons; (left; reflexivity) || (right; assumption)
                     | apply elem_of_cons in H2 as [?|?]; subst; contradiction ].
Qed.

Lemma take_request_fields (id : nat) (s s1 : fpage) (r : request) :
  take_request id s = Some (r, s1) ->
  fp_banners s1 = fp_banners s /\ fp_next_id s1 = fp_next_id s /\ fp_form s1 = fp_form s /\
  fp_defaults s1 = fp_defaults s /\ fp_outbox s1 = fp_outbox s /\ fp_now s1 = fp_now s /\
  fp_uncaught s1 = fp_uncaught s /\ fp_loader s1 = fp_loader s /\ fp_alerts s1 = fp_alerts s.
Proof.
  unfold take_request. destruct (list_find _ _) as [[i [k r']]|]; [|discriminate].
  intros H. injection H as <- <-. repeat split.
Qed.

Lemma validate_true (fd : form_data) :
  (validate fd).1.1 = true -> validate fd = (true, EmptyString, []).
Proof.
  intros H. unfold validate in *. rewrite run_checks_valid in H. cbn [fst] in H.
  rewrite andb_true_l in H. apply run_checks_pass. rewrite Forall_forall. intros ck Hck.
  rewrite forallb_forall in H. apply H, list_elem_of_In, Hck.
Qed.

(** ** Handlers that preserve a property of the page

    [preserves P m]: running [m] from a page satisfying [P] ends in a
    page satisfying [P], whether [m] returns or throws. The combinators
    of the monad preserve what their parts preserve, so a handler's proof
    follows its code: [preserves_solve] walks the binds, the branches and
    the [try]/[catch], and closes the primitive steps with the lemmas of
    the [handler] hint database or, for a step that leaves the part of
    the page [P] reads untouched, by [preserves_modify_framed]. *)

Definition preserves (P : fpage -> Prop) {A} (m : M A) : Prop := forall s, P s -> P (m s).2.

Create HintDb handler.

Section Preserves.
Variable P : fpage -> Prop.

Lemma preserves_ret {A} (a : A) : preserves P (ret a).
Proof. intros s H. exact H. Qed.

Lemma preserves_throw {A} (e : js_error) : preserves P (throw (A:=A) e).
Proof. intros s H. exact H. Qed.

Lemma preserves_gets {A} (f : fpage -> A) : preserves P (gets f).
Proof. intros s H. exact H. Qed.

Lemma preserves_lift {A} (r : js_error + A) : preserves P (lift r).
Proof. intros s H. exact H. Qed.

Lemma preserves_bind {A B} (m : M A) (k : A -> M B) :
  preserves P m -> (forall a, preserves P (k a)) -> preserves P (bind m k).
Proof.
  intros Hm Hk s H. unfold bind. specialize (Hm s H).
  destruct (m s) as [[e|a] s']; [exact Hm | exact (Hk a s' Hm)].
Qed.

Lemma preserves_try_catch {A} (m : M A) (h : js_error -> M A) :
  preserves P m -> (forall e, preserves P (h e)) -> preserves P (try_catch m h).
Proof.
  intros Hm Hh s H. unfold try_catch. specialize (Hm s H).
  destruct (m s) as [[e|a] s']; [exact (Hh e s' Hm) | exact Hm].
Qed.

(** A step that leaves [view] unchanged preserves what depends on
    [view] only. *)
Lemma preserves_modify_view {V} (view : fpage -> V) (f : fpage -> fpage) :
  (forall s s', view s = view s' -> P s -> P s') -> (forall s, view (f s) = view s) ->
  preserves P (modify f).
Proof. intros HP Hf s H. exact (HP s (f s) (eq_sym (Hf s)) H). Qed.

Lemma preserves_mark_groups (gs : list border_group) :
  (forall g, preserves P (css_border g "2px solid red")) -> preserves P (mark_groups gs).
Proof.
  intros Hg. induction gs as [|g gs IH]; [apply preserves_ret|].
  apply preserves_bind; [apply Hg | intros _; exact IH].
Qed.

Lemma preserves_run (m : M unit) (s : fpage) :
  (forall e s', P s' -> P (set_uncaught (fp_uncaught s' ++ [e]) s')) ->
  preserves P m -> P s -> P (run m s).
Proof.
  intros Hu Hm H. unfold run. specialize (Hm s H).
  destruct (m s) as [[e|a] s']; [exact (Hu e s' Hm) | exact Hm].
Qed.
End Preserves.

(** A property of the page that depends only on a view of it, a view
    that recording an uncaught exception leaves unchanged: the invariants
    below are instances, and a step that keeps the view keeps them. *)
Class Framed (P : fpage -> Prop) := {
  frame_ty : Type;
  frame_view : fpage -> frame_ty;
  framed : forall s s', frame_view s = frame_view s' -> P s -> P s';
  frame_uncaught : forall u s, frame_view (set_uncaught u s) = frame_view s
}.

Lemma preserves_modify_framed `{Framed P} (f : fpage -> fpage) :
  (forall s, frame_view (f s) = frame_view s) -> preserves P (modify f).
Proof. intros Hf. apply (preserves_modify_view P frame_view); [exact framed | exact Hf]. Qed.

Lemma run_framed `{Framed P} (m : M unit) (s : fpage) : preserves P m -> P s -> P (run m s).
Proof.
  apply preserves_run. intros e s' Hs. apply (framed s'); [symmetry; apply frame_uncaught | exact Hs].
Qed.

Ltac preserves_solve :=
  repeat first
    [ progress intros
    | solve [eauto with handler]
    | apply preserves_ret | apply preserves_throw | apply preserves_gets | apply preserves_lift
    | apply preserves_mark_groups
    | apply preserves_try_catch
    | apply preserves_bind
    | apply preserves_modify_framed; intros; reflexivity
    | match goal with
      | |- preserves _ (match ?x with _ => _ end) => destruct x
      end ].

(** Every handler of the page that answers a request, a timer or an
    input preserves [P]. *)
Record handlers_preserve (P : fpage -> Prop) : Prop := {
  hp_fulfilled : preserves P emailjs_fulfilled;
  hp_rejected : forall fd subject body, preserves P (emailjs_rejected fd subject body);
  hp_success : forall response, preserves P (ajax_success response);
  hp_error : forall status x error, preserves P (ajax_error status x error);
  hp_task : forall t, preserves P (run_ftask t);
  hp_focus_change : forall c, preserves P (focus_change_handler c;; ready_change_handler c);
  hp_focus : forall c, preserves P (focus_change_handler c);
  hp_select : forall c, preserves P (select_click_handler c)
}.

(** Every event runs one handler, after taking its request off the
    list or setting the clock and the timers: a framed property that
    the handlers preserve and those steps keep holds after every event
    (the submit handler is given on its own, as the loader's invariant
    holds after it but is not preserved by each of its steps). *)
Lemma exec_framed `{Framed P} (e : fevent) (s s' : fpage) :
  handlers_preserve P -> (forall d, P (run (submit_handler d) s)) ->
  (forall id r s1, take_request id s = Some (r, s1) -> P s1) ->
  (forall t ts, P (set_now t (set_timers ts s))) -> (forall t, P (set_now t s)) ->
  (forall fd, P (set_form fd s)) ->
  P s -> exec e s = Some s' -> P s'.
Proof.
  intros [Hful Hrej Hsuc Herr Htask Hfc Hf Hsel] Hsub Htake Htimer Hnow Hform Hs He.
  destruct e as [d|id|id|id resp|id st x err| |t|c v|c|c|c]; cbn [exec] in He.
  - injection He as <-. apply Hsub.
  - destruct (take_request id s) as [[[] s1]|] eqn:Ht; try discriminate. injection He as <-.
    exact (run_framed _ _ Hful (Htake _ _ _ Ht)).
  - destruct (take_request id s) as [[[] s1]|] eqn:Ht; try discriminate. injection He as <-.
    exact (run_framed _ _ (Hrej _ _ _) (Htake _ _ _ Ht)).
  - destruct (take_request id s) as [[[] s1]|] eqn:Ht; try discriminate.
    destruct (Z.ltb _ _); [|discriminate]. injection He as <-.
    exact (run_framed _ _ (Hsuc resp) (Htake _ _ _ Ht)).
  - destruct (take_request id s) as [[[] s1]|] eqn:Ht; try discriminate.
    destruct (String.eqb _ _); [destruct (_ && _)|destruct (Z.ltb _ _)]; try discriminate;
      injection He as <-; exact (run_framed _ _ (Herr st x err) (Htake _ _ _ Ht)).
  - destruct (next_timer _) as [[i [due t]]|]; [|discriminate]. injection He as <-.
    exact (run_framed _ _ (Htask t) (Htimer _ _)).
  - destruct (_ && _); [|discriminate]. injection He as <-. apply Hnow.
  - injection He as <-. apply Hform.
  - injection He as <-. exact (run_framed _ _ (Hf c) Hs).
  - injection He as <-. exact (run_framed _ _ (Hfc c) Hs).
  - injection He as <-. exact (run_framed _ _ (Hsel c) Hs).
Qed.

(** ** The banners after the form

    The banners are numbered in the order they are inserted; the
    invariant: their numbers are distinct and below the next number, and
    at most one of them is an error banner ([showErrorMessage] removes
    every banner before inserting its own). *)

Definition bview (s : fpage) : list banner * nat := (fp_banners s, fp_next_id s).

Definition banner_inv (s : fpage) : Prop :=
  NoDup (map bn_id (fp_banners s)) /\
  (forall b, b ∈ fp_banners s -> (bn_id b < fp_next_id s)%nat) /\
  (List.length (filter (fun b => bn_kind b = ErrorMsg) (fp_banners s)) <= 1)%nat.

Lemma banner_inv_view (s s' : fpage) : bview s = bview s' -> banner_inv s -> banner_inv s'.
Proof. unfold bview, banner_inv. intros [= <- <-]. exact id. Qed.

#[export] Instance banner_inv_framed : Framed banner_inv :=
  Build_Framed banner_inv _ bview banner_inv_view (fun _ _ => eq_refl).

Lemma banner_inv_success (h : string) : preserves banner_inv (insert_banner SuccessMsg h).
Proof.
  intros s (Hnd & Hlt & Hc). unfold banner_inv, insert_banner, modify, set_banners. simpl. split; [|split].
  - constructor; [|exact Hnd].
    intros (b & Hb & Hin)%list_elem_of_In%in_map_iff. apply list_elem_of_In, Hlt in Hin. cbn in Hb. lia.
  - intros b [->|Hin]%elem_of_cons; [cbn; lia|]. specialize (Hlt b Hin). lia.
  - rewrite filter_cons_False; [exact Hc | discriminate].
Qed.

Lemma banner_inv_error (message : string) : preserves banner_inv (showErrorMessage message).
Proof.
  intros s _. unfold banner_inv. simpl. split; [|split].
  - apply NoDup_singleton.
  - intros b ->%list_elem_of_singleton. cbn. lia.
  - lia.
Qed.

Lemma banner_inv_remove (ids : list nat) : preserves banner_inv (remove_banners ids).
Proof.
  intros s (Hnd & Hlt & Hc). unfold banner_inv. simpl. split; [|split].
  - eapply sublist_NoDup; [exact Hnd|]. apply (fmap_sublist bn_id), sublist_filter.
  - intros b [_ Hin]%list_elem_of_filter. exact (Hlt b Hin).
  - etransitivity; [apply length_filter_filter | exact Hc].
Qed.

Lemma banner_inv_remove_all : preserves banner_inv remove_all_banners.
Proof. intros s _. unfold banner_inv. simpl. split; [constructor | split; [intros b Hb; inversion Hb | simpl; lia]]. Qed.

#[export] Hint Resolve banner_inv_success banner_inv_error banner_inv_remove banner_inv_remove_all : handler.

Lemma handlers_preserve_banner_inv : handlers_preserve banner_inv.
Proof.
  split; intros; unfold emailjs_fulfilled, emailjs_rejected, fallbackEmailMethod, ajax_success,
    ajax_error, focus_change_handler, ready_change_handler, select_click_handler;
    try (destruct t; unfold run_ftask, fade); preserves_solve.
Qed.

Lemma take_request_bview (id : nat) (s s1 : fpage) (r : request) :
  take_request id s = Some (r, s1) -> bview s1 = bview s.
Proof. intros Ht. destruct (take_request_fields _ _ _ _ Ht) as (Hb & Hn & _). unfold bview. congruence. Qed.

Lemma exec_banner_inv (e : fevent) (s s' : fpage) :
  banner_inv s -> exec e s = Some s' -> banner_inv s'.
Proof.
  intros H. apply exec_framed; [exact handlers_preserve_banner_inv | | | | | | exact H].
  1: intros d; apply run_framed; [unfold submit_handler; preserves_solve | exact H].
  1: intros id r s1 Ht; exact (banner_inv_view s s1 (eq_sym (take_request_bview _ _ _ _ Ht)) H).
  all: intros; exact (banner_inv_view s _ eq_refl H).
Qed.

(** ** The loader

    [showLoader] runs on submit; every answer to a request hides it
    first thing. The invariant: the loader is shown only while some
    request is pending. *)

Definition lview (s : fpage) : bool * list (nat * request) := (fp_loader s, fp_requests s).

Definition loader_inv (s : fpage) : Prop := fp_loader s = true -> fp_requests s <> [].

Definition loader_off (s : fpage) : Prop := fp_loader s = false.

Lemma loader_inv_view (s s' : fpage) : lview s = lview s' -> loader_inv s -> loader_inv s'.
Proof. unfold lview, loader_inv. intros [= <- <-]. exact id. Qed.

Lemma loader_off_view (s s' : fpage) : fp_loader s = fp_loader s' -> loader_off s -> loader_off s'.
Proof. unfold loader_off. congruence. Qed.

#[export] Instance loader_inv_framed : Framed loader_inv :=
  Build_Framed loader_inv _ lview loader_inv_view (fun _ _ => eq_refl).

#[export] Instance loader_off_framed : Framed loader_off :=
  Build_Framed loader_off _ fp_loader loader_off_view (fun _ _ => eq_refl).

Lemma send_requests (o : outgoing) (r : request) (s : fpage) : fp_requests (send o r s).2 <> [].
Proof. intros Hn. symmetry in Hn. exact (app_cons_not_nil _ _ _ Hn). Qed.

Lemma loader_inv_send (o : outgoing) (r : request) : preserves loader_inv (send o r).
Proof. intros s _ _. apply send_requests. Qed.

#[export] Hint Resolve loader_inv_send : handler.

(** A handler that hides the loader and then leaves it hidden ends with
    the loader hidden, whatever it throws. *)
Lemma hide_then_off (m : M unit) (s : fpage) :
  preserves loader_off m -> fp_loader (run (hide_loader;; m) s) = false.
Proof.
  intros Hm. change (run (hide_loader;; m) s) with (run m (set_loader false s)).
  apply (run_framed (P := loader_off)); [exact Hm | reflexivity].
Qed.

Lemma submit_handler_loader (d : string) (s : fpage) : loader_inv (run (submit_handler d) s).
Proof.
  unfold run, submit_handler. unfold bind at 1. cbn [show_loader modify].
  unfold bind at 1. cbn [gets].
  change (fp_form (set_loader true s)) with (fp_form s).
  destruct (validate (fp_form s)) as [[ok msg] gs].
  unfold bind at 1. destruct (mark_groups_effect gs (set_loader true s)) as [bf [-> _]].
  destruct ok; cbn [negb].
  - unfold sendEmail, bind, gets. destruct (fp_emailjs _); [|unfold fallbackEmailMethod, bind, gets];
      intros _; apply send_requests.
  - intros H. discriminate H.
Qed.

Lemma field_handlers_loader_inv (c : string) :
  preserves loader_inv (focus_change_handler c;; ready_change_handler c) /\
  preserves loader_inv (focus_change_handler c) /\ preserves loader_inv (select_click_handler c).
Proof. unfold focus_change_handler, ready_change_handler, select_click_handler. split; [|split]; preserves_solve. Qed.

Lemma exec_loader_inv (e : fevent) (s s' : fpage) :
  loader_inv s -> exec e s = Some s' -> loader_inv s'.
Proof.
  intros H He. destruct e as [d|id|id|id resp|id st x err| |t|c v|c|c|c]; cbn [exec] in He.
  - injection He as <-. apply submit_handler_loader.
  - destruct (take_request id s) as [[[] s1]|]; try discriminate. injection He as <-.
    intros Hl. unfold emailjs_fulfilled, ajax_success, ajax_error in Hl; rewrite hide_then_off in Hl; [discriminate | preserves_solve].
  - destruct (take_request id s) as [[[] s1]|]; try discriminate. injection He as <-.
    intros _. apply send_requests.
  - destruct (take_request id s) as [[[] s1]|]; try discriminate.
    destruct (Z.ltb _ _); [|discriminate]. injection He as <-.
    intros Hl. unfold emailjs_fulfilled, ajax_success, ajax_error in Hl; rewrite hide_then_off in Hl; [discriminate | preserves_solve].
  - destruct (take_request id s) as [[[] s1]|]; try discriminate.
    destruct (String.eqb _ _); [destruct (_ && _)|destruct (Z.ltb _ _)]; try discriminate;
      injection He as <-; intros Hl; unfold emailjs_fulfilled, ajax_success, ajax_error in Hl; rewrite hide_then_off in Hl; [discriminate | preserves_solve|discriminate|preserves_solve].
  - destruct (next_timer _) as [[i [due t]]|]; [|discriminate]. injection He as <-.
    apply run_framed; [destruct t; unfold run_ftask, fade; preserves_solve|exact H].
  - destruct (_ && _); [|discriminate]. injection He as <-. exact H.
  - injection He as <-. exact H.
  - injection He as <-. exact (run_framed _ _ (proj1 (proj2 (field_handlers_loader_inv c))) H).
  - injection He as <-. exact (run_framed _ _ (proj1 (field_handlers_loader_inv c)) H).
  - injection He as <-. exact (run_framed _ _ (proj2 (proj2 (field_handlers_loader_inv c))) H).
Qed.

(** ** Theorems: submitting *)

(** C6: Submitting a form that fails the checks makes no network call and
    sends nothing: the loader is hidden again, exactly one [alert]
    carries all the accumulated message lines, and every failed field's
    group is bordered red. *)
Theorem submit_invalid_blocks (currentDate : string) (s : fpage) :
  (validate (fp_form s)).1.1 = false ->
  exists s', exec (FSubmit currentDate) s = Some s' /\
    fp_outbox s' = fp_outbox s /\ fp_requests s' = fp_requests s /\
    fp_alerts s' = fp_alerts s ++ [(validate (fp_form s)).1.2] /\
    fp_loader s' = false /\ fp_banners s' = fp_banners s /\
    Forall (fun g => fp_border s' g = Some "2px solid red") (validate (fp_form s)).2.
Proof.
  intros Hv. unfold exec, run, submit_handler.
  destruct (validate (fp_form s)) as [[ok msg] marked] eqn:E. cbn in Hv. subst ok.
  cbn [bind show_loader gets modify]. change (fp_form (set_loader true s)) with (fp_form s). rewrite E.
  destruct (mark_groups_effect marked (set_loader true s)) as [b [Hb Hg]].
  unfold bind at 1. rewrite Hb. cbn. eexists. split; [reflexivity|].
  repeat split. apply Forall_forall. intros g Hg'. cbn. rewrite Hg. now rewrite decide_True.
Qed.

Definition jane : form_data :=
  mkFormData (JStr "2015") (JStr "Civic") (JStr "Alternator") (JStr EmptyString) (JStr EmptyString)
    (JStr "Jane Doe") (JStr "jane@example.com") (JStr "5551234567") (JStr "90210") (JStr EmptyString).

Definition blank_form : form_data :=
  mkFormData (JStr EmptyString) (JStr EmptyString) (JStr EmptyString) (JStr EmptyString)
    (JStr EmptyString) (JStr EmptyString) (JStr EmptyString) (JStr EmptyString) (JStr EmptyString)
    (JStr EmptyString).

Lemma submit_invalid_blocks_witness :
  (validate (fp_form (initial_fpage blank_form false))).1.1 = false /\
  exists s', exec (FSubmit "today") (initial_fpage blank_form false) = Some s' /\
    fp_outbox s' = [] /\ fp_requests s' = [] /\
    fp_alerts s' = [(validate blank_form).1.2] /\ fp_loader s' = false /\ fp_banners s' = [] /\
    Forall (fun g => fp_border s' g = Some "2px solid red") (validate blank_form).2.
Proof.
  assert (H : (validate (fp_form (initial_fpage blank_form false))).1.1 = false) by reflexivity.
  split; [exact H|]. exact (submit_invalid_blocks "today" _ H).
Defined.

(** C7: Submitting a form that passes the checks builds the subject and
    the body and sends them once: to EmailJS with the fixed payload when
    it is loaded, otherwise by the POST to [send_email.php] with all the
    fields, the subject, the body and the fixed recipient; the loader
    stays shown and nothing is alerted. *)
Theorem submit_valid_sends (currentDate : string) (s : fpage) :
  (validate (fp_form s)).1.1 = true ->
  let fd := fp_form s in
  let subject := emailSubject fd in
  let body := createEmailTableContent currentDate fd in
  exists s', exec (FSubmit currentDate) s = Some s' /\
    fp_loader s' = true /\ fp_alerts s' = fp_alerts s /\ fp_banners s' = fp_banners s /\
    fp_outbox s' = fp_outbox s ++
      [if fp_emailjs s
       then SentEmailJs "YOUR_SERVICE_ID" "YOUR_TEMPLATE_ID" (emailjs_params fd subject body)
       else SentAjax "send_email.php" (ajax_data fd subject body)] /\
    fp_requests s' = fp_requests s ++
      [(fp_next_req s, if fp_emailjs s then ReqEmailJs fd subject body else ReqAjax (fp_now s))].
Proof.
  intros Hv. cbn zeta. unfold exec, run, submit_handler.
  cbn [bind show_loader gets modify]. change (fp_form (set_loader true s)) with (fp_form s).
  rewrite (validate_true _ Hv).
  cbn. destruct (fp_emailjs s); eexists; split; try reflexivity; repeat split.
Qed.

Lemma submit_valid_sends_witness :
  (validate (fp_form (initial_fpage jane false))).1.1 = true /\
  exists s', exec (FSubmit "today") (initial_fpage jane false) = Some s' /\
    fp_loader s' = true /\ fp_alerts s' = [] /\ fp_banners s' = [] /\
    fp_outbox s' = [SentAjax "send_email.php"
                      (ajax_data jane (emailSubject jane) (createEmailTableContent "today" jane))] /\
    fp_requests s' = [(0%nat, ReqAjax 0)].
Proof.
  assert (H : (validate (fp_form (initial_fpage jane false))).1.1 = true) by reflexivity.
  split; [exact H|]. exact (submit_valid_sends "today" _ H).
Defined.

(** ** Theorems: the reply of [send_email.php] *)

Lemma exec_ajax_success (id : nat) (response : jsval) (s s1 : fpage) (t0 : Z) :
  take_request id s = Some (ReqAjax t0, s1) -> (fp_now s < t0 + ajax_timeout)%Z ->
  exec (FAjaxSuccess id response) s = Some (run (ajax_success response) s1).
Proof. intros Ht Hn. cbn [exec]. rewrite Ht. apply Z.ltb_lt in Hn. now rewrite Hn. Qed.

Lemma ajax_success_true (response result ok : jsval) (s : fpage) :
  JSON_parse response = inr result -> get_prop result "success" = inr ok -> truthy ok = true ->
  ajax_success response s = showSuccessMessage (set_loader false s).
Proof.
  intros Hp Hs Hok. unfold ajax_success, try_catch, bind, hide_loader, modify, lift.
  rewrite Hp, Hs, Hok.
  pose proof (showSuccessMessage_effect (set_loader false s)) as He.
  destruct (showSuccessMessage (set_loader false s)) as [r s']. now destruct He as [-> _].
Qed.

Lemma ajax_success_false (response result ok err : jsval) (s : fpage) :
  JSON_parse response = inr result -> get_prop result "success" = inr ok -> truthy ok = false ->
  get_prop result "error" = inr err ->
  ajax_success response s
  = showErrorMessage (str_plus "Failed to send email: " (js_or err (JStr "Unknown error")))
      (set_loader false s).
Proof.
  intros Hp Hs Hok He. unfold ajax_success, try_catch, bind, hide_loader, modify, lift.
  rewrite Hp, Hs, Hok, He.
  pose proof (showErrorMessage_effect
                (str_plus "Failed to send email: " (js_or err (JStr "Unknown error"))) (set_loader false s)) as Hf.
  destruct (showErrorMessage _ (set_loader false s)) as [r s']. now destruct Hf as [-> _].
Qed.

(** The state after the spec's example form has been submitted, with
    EmailJS absent: the POST is pending. *)
Definition jane_pending : fpage :=
  match exec (FSubmit "today") (initial_fpage jane false) with Some s => s | None => initial_fpage jane false end.

Definition dq_str : string := String dq_char EmptyString.

(** [{"success":true}] *)
Definition ok_reply : string := "{" +:+ dq_str +:+ "success" +:+ dq_str +:+ ":true}".

(** [{"success":false,"error":"SMTP unavailable"}] *)
Definition fail_reply : string :=
  "{" +:+ dq_str +:+ "success" +:+ dq_str +:+ ":false," +:+ dq_str +:+ "error" +:+ dq_str +:+ ":"
  +:+ dq_str +:+ "SMTP unavailable" +:+ dq_str +:+ "}".

(** C10: A reply that parses to an object with a truthy [success] shows
    the success banner first after the form, resets the form and every
    border cue, and hides the loader. *)
Theorem reply_success_flag (id : nat) (response result ok : jsval) (s s1 : fpage) (t0 : Z) :
  take_request id s = Some (ReqAjax t0, s1) -> (fp_now s < t0 + ajax_timeout)%Z ->
  JSON_parse response = inr result -> get_prop result "success" = inr ok -> truthy ok = true ->
  exists s', exec (FAjaxSuccess id response) s = Some s' /\
    fp_loader s' = false /\ fp_form s' = fp_defaults s /\
    fp_banners s' = mkBanner (fp_next_id s) SuccessMsg successHtml :: fp_banners s /\
    fp_outbox s' = fp_outbox s /\ fp_uncaught s' = fp_uncaught s /\
    (forall g, fp_border s' g = Some "1px solid #ccc").
Proof.
  intros Ht Hn Hp Hs Hok. rewrite (exec_ajax_success _ _ _ _ _ Ht Hn).
  unfold run. rewrite (ajax_success_true _ _ _ _ Hp Hs Hok).
  pose proof (showSuccessMessage_effect (set_loader false s1)) as Heff.
  destruct (showSuccessMessage (set_loader false s1)) as [r s'].
  destruct Heff as (-> & Hb & Hf & Hl & Ho & _ & _ & Hu & _ & Hg).
  destruct (take_request_fields _ _ _ _ Ht) as (Hb1 & Hn1 & _ & Hd1 & Ho1 & _ & Hu1 & _).
  exists s'. cbn in *. repeat split; congruence.
Qed.

Lemma reply_success_flag_witness :
  take_request 0 jane_pending = Some (ReqAjax 0, set_requests [] 1 jane_pending) /\
  (fp_now jane_pending < 0 + ajax_timeout)%Z /\
  JSON_parse (JStr ok_reply) = inr (JObj [("success", JBool true)]) /\
  get_prop (JObj [("success", JBool true)]) "success" = inr (JBool true) /\ truthy (JBool true) = true /\
  exists s', exec (FAjaxSuccess 0 (JStr ok_reply)) jane_pending = Some s' /\
    fp_loader s' = false /\ fp_form s' = fp_defaults jane_pending /\
    fp_banners s' = mkBanner (fp_next_id jane_pending) SuccessMsg successHtml :: fp_banners jane_pending /\
    fp_outbox s' = fp_outbox jane_pending /\ fp_uncaught s' = fp_uncaught jane_pending /\
    (forall g, fp_border s' g = Some "1px solid #ccc").
Proof.
  assert (H1 : take_request 0 jane_pending = Some (ReqAjax 0, set_requests [] 1 jane_pending))
    by (vm_compute; reflexivity).
  assert (H2 : (fp_now jane_pending < 0 + ajax_timeout)%Z) by (vm_compute; reflexivity).
  assert (H3 : JSON_parse (JStr ok_reply) = inr (JObj [("success", JBool true)]))
    by (vm_compute; reflexivity).
  assert (H4 : get_prop (JObj [("success", JBool true)]) "success" = inr (JBool true)) by reflexivity.
  assert (H5 : truthy (JBool true) = true) by reflexivity.
  do 5 (split; [assumption|]).
  exact (reply_success_flag 0 _ _ _ _ _ 0 H1 H2 H3 H4 H5).
Defined.

Lemma errorHtml_includes (message : string) : errorHtml message ∋ₛ message.
Proof. unfold errorHtml. apply includes_app_r, includes_app_l, includes_refl. Qed.

(** C11: A reply that parses to an object with a falsy [success] and an
    [error] member replaces every banner by one error banner whose text
    contains "Failed to send email: " followed by the server's error
    (or "Unknown error" when it is falsy); the loader is hidden and the
    form keeps its values. *)
Theorem reply_failure_error (id : nat) (response result ok err : jsval) (s s1 : fpage) (t0 : Z) :
  take_request id s = Some (ReqAjax t0, s1) -> (fp_now s < t0 + ajax_timeout)%Z ->
  JSON_parse response = inr result -> get_prop result "success" = inr ok -> truthy ok = false ->
  get_prop result "error" = inr err ->
  exists s' b, exec (FAjaxSuccess id response) s = Some s' /\
    fp_banners s' = [b] /\ bn_kind b = ErrorMsg /\
    bn_html b ∋ₛ ("Failed to send email: " +:+ to_string (js_or err (JStr "Unknown error"))) /\
    fp_loader s' = false /\ fp_form s' = fp_form s /\ fp_outbox s' = fp_outbox s.
Proof.
  intros Ht Hn Hp Hs Hok He. rewrite (exec_ajax_success _ _ _ _ _ Ht Hn).
  unfold run. rewrite (ajax_success_false _ _ _ _ _ Hp Hs Hok He).
  set (msg := str_plus "Failed to send email: " (js_or err (JStr "Unknown error"))).
  pose proof (showErrorMessage_effect msg (set_loader false s1)) as Heff.
  destruct (showErrorMessage msg (set_loader false s1)) as [r s'].
  destruct Heff as (-> & Hb & Hf & Hl & Ho & _).
  destruct (take_request_fields _ _ _ _ Ht) as (_ & _ & Hf1 & _ & Ho1 & _).
  exists s', (mkBanner (fp_next_id (set_loader false s1)) ErrorMsg (errorHtml msg)).
  repeat split; cbn in *; try congruence. apply errorHtml_includes.
Qed.

Lemma reply_failure_error_witness :
  take_request 0 jane_pending = Some (ReqAjax 0, set_requests [] 1 jane_pending) /\
  (fp_now jane_pending < 0 + ajax_timeout)%Z /\
  JSON_parse (JStr fail_reply)
    = inr (JObj [("success", JBool false); ("error", JStr "SMTP unavailable")]) /\
  get_prop (JObj [("success", JBool false); ("error", JStr "SMTP unavailable")]) "success"
    = inr (JBool false) /\ truthy (JBool false) = false /\
  get_prop (JObj [("success", JBool false); ("error", JStr "SMTP unavailable")]) "error"
    = inr (JStr "SMTP unavailable") /\
  exists s' b, exec (FAjaxSuccess 0 (JStr fail_reply)) jane_pending = Some s' /\
    fp_banners s' = [b] /\ bn_kind b = ErrorMsg /\
    bn_html b ∋ₛ ("Failed to send email: " +:+ to_string (js_or (JStr "SMTP unavailable") (JStr "Unknown error"))) /\
    fp_loader s' = false /\ fp_form s' = fp_form jane_pending /\ fp_outbox s' = fp_outbox jane_pending.
Proof.
  assert (H1 : take_request 0 jane_pending = Some (ReqAjax 0, set_requests [] 1 jane_pending))
    by (vm_compute; reflexivity).
  assert (H2 : (fp_now jane_pending < 0 + ajax_timeout)%Z) by (vm_compute; reflexivity).
  assert (H3 : JSON_parse (JStr fail_reply)
               = inr (JObj [("success", JBool false); ("error", JStr "SMTP unavailable")]))
    by (vm_compute; reflexivity).
  assert (H4 : get_prop (JObj [("success", JBool false); ("error", JStr "SMTP unavailable")]) "success"
               = inr (JBool false)) by reflexivity.
  assert (H5 : truthy (JBool false) = false) by reflexivity.
  assert (H6 : get_prop (JObj [("success", JBool false); ("error", JStr "SMTP unavailable")]) "error"
               = inr (JStr "SMTP unavailable")) by reflexivity.
  do 6 (split; [assumption|]).
  exact (reply_failure_error 0 _ _ _ _ _ _ 0 H1 H2 H3 H4 H5 H6).
Defined.

(** C12: The spec's failure reply: when [send_email.php] answers the
    JSON text of [{"success":false,"error":X}] for any non-empty text X
    (quotes, backslashes and control characters included, escaped in
    the text), the page replaces every banner by one error banner whose
    text contains "Failed to send email: " followed by X; the loader is
    hidden and the form keeps its values. *)
Theorem reply_failure_shows_text (id : nat) (e : string) (s s1 : fpage) (t0 : Z) :
  take_request id s = Some (ReqAjax t0, s1) -> (fp_now s < t0 + ajax_timeout)%Z -> e <> EmptyString ->
  exists s' b, exec (FAjaxSuccess id (JStr (json_encode (failure_object e)))) s = Some s' /\
    fp_banners s' = [b] /\ bn_kind b = ErrorMsg /\ bn_html b ∋ₛ ("Failed to send email: " +:+ e) /\
    fp_loader s' = false /\ fp_form s' = fp_form s.
Proof.
  intros Ht Hn Hne. rewrite (exec_ajax_success _ _ _ _ _ Ht Hn). unfold run.
  rewrite (ajax_success_false _ _ (JBool false) (JStr e) _ (JSON_parse_encode (failure_object e) eq_refl)
             eq_refl eq_refl eq_refl).
  assert (Hor : js_or (JStr e) (JStr "Unknown error") = JStr e)
    by (unfold js_or, truthy; apply String.eqb_neq in Hne; now rewrite Hne).
  rewrite Hor. set (msg := str_plus "Failed to send email: " (JStr e)).
  pose proof (showErrorMessage_effect msg (set_loader false s1)) as Heff.
  destruct (showErrorMessage msg (set_loader false s1)) as [r s'].
  destruct Heff as (-> & Hb & Hf & Hl & _).
  destruct (take_request_fields _ _ _ _ Ht) as (_ & _ & Hf1 & _).
  exists s', (mkBanner (fp_next_id (set_loader false s1)) ErrorMsg (errorHtml msg)).
  repeat split; cbn in *; try congruence. apply errorHtml_includes.
Qed.

(** The server's text can carry a quote and a line break. *)
Definition quoted_error : string :=
  "Mailer said " +:+ String dq ("no" +:+ String dq (String (Ascii.ascii_of_nat 10) EmptyString)).

Lemma reply_failure_shows_text_witness :
  take_request 0 jane_pending = Some (ReqAjax 0, set_requests [] 1 jane_pending) /\
  (fp_now jane_pending < 0 + ajax_timeout)%Z /\ quoted_error <> EmptyString /\
  exists s' b, exec (FAjaxSuccess 0 (JStr (json_encode (failure_object quoted_error)))) jane_pending = Some s' /\
    fp_banners s' = [b] /\ bn_kind b = ErrorMsg /\
    bn_html b ∋ₛ ("Failed to send email: " +:+ quoted_error) /\
    fp_loader s' = false /\ fp_form s' = fp_form jane_pending.
Proof.
  assert (H1 : take_request 0 jane_pending = Some (ReqAjax 0, set_requests [] 1 jane_pending))
    by (vm_compute; reflexivity).
  assert (H2 : (fp_now jane_pending < 0 + ajax_timeout)%Z) by (vm_compute; reflexivity).
  assert (H3 : quoted_error <> EmptyString) by discriminate.
  do 3 (split; [assumption|]).
  exact (reply_failure_shows_text 0 _ _ _ 0 H1 H2 H3).
Defined.

(** C32: Once 30 s have passed since the POST, the server's answer can no
    longer be delivered, and the timeout replaces every banner by one
    error banner saying the request timed out, with the loader hidden;
    that message differs from the one for a 404 or a 5xx answer. *)
Theorem ajax_timeout_banner (id : nat) (s s1 : fpage) (t0 : Z) :
  take_request id s = Some (ReqAjax t0, s1) -> (t0 + ajax_timeout <= fp_now s)%Z ->
  (forall response, exec (FAjaxSuccess id response) s = None) /\
  (exists s', exec (FAjaxError id "timeout" 0 "timeout") s = Some s' /\ fp_loader s' = false /\
     fp_banners s' = [mkBanner (fp_next_id s) ErrorMsg
                        (errorHtml "Failed to send email. Request timed out. Please try again.")]) /\
  (forall status x e, status <> "timeout" -> (x = 404 \/ 500 <= x)%Z ->
     ajax_error_message status x e <> ajax_error_message "timeout" 0 "timeout").
Proof.
  intros Ht Hn. split; [|split].
  - intros r. cbn [exec]. rewrite Ht. destruct (Z.ltb_spec (fp_now s) (t0 + ajax_timeout)); [lia | reflexivity].
  - cbn [exec]. rewrite Ht. cbn [String.eqb Ascii.eqb Bool.eqb].
    destruct (Z.leb_spec (t0 + ajax_timeout) (fp_now s)); [|lia]. cbn [andb Z.eqb].
    eexists. split; [reflexivity|].
    destruct (take_request_fields _ _ _ _ Ht) as (_ & Hn1 & _).
    cbn. rewrite Hn1. split; reflexivity.
  - intros status x e Hst Hx. unfold ajax_error_message.
    apply String.eqb_neq in Hst. rewrite Hst.
    destruct Hx as [->|Hx]; [discriminate|].
    destruct (Z.eqb_spec x 0); [lia|]. destruct (Z.eqb_spec x 404); [discriminate|].
    destruct (Z.leb_spec 500 x); [discriminate | lia].
Qed.

(** The pending POST of [jane_pending], 30 s later. *)
Definition jane_late : fpage := set_now 30000 jane_pending.

Lemma ajax_timeout_banner_witness :
  take_request 0 jane_late = Some (ReqAjax 0, set_requests [] 1 jane_late) /\
  (0 + ajax_timeout <= fp_now jane_late)%Z /\
  (forall response, exec (FAjaxSuccess 0 response) jane_late = None) /\
  (exists s', exec (FAjaxError 0 "timeout" 0 "timeout") jane_late = Some s' /\ fp_loader s' = false /\
     fp_banners s' = [mkBanner (fp_next_id jane_late) ErrorMsg
                        (errorHtml "Failed to send email. Request timed out. Please try again.")]) /\
  (forall status x e, status <> "timeout" -> (x = 404 \/ 500 <= x)%Z ->
     ajax_error_message status x e <> ajax_error_message "timeout" 0 "timeout").
Proof.
  assert (H1 : take_request 0 jane_late = Some (ReqAjax 0, set_requests [] 1 jane_late))
    by (vm_compute; reflexivity).
  assert (H2 : (0 + ajax_timeout <= fp_now jane_late)%Z) by (vm_compute; discriminate).
  split; [exact H1|]. split; [exact H2|]. exact (ajax_timeout_banner 0 _ _ 0 H1 H2).
Defined.

(** C13: A reply that is not JSON is taken as a success as soon as its
    lower-cased text contains "sent" (or "success") anywhere, so a
    server saying "Error: message not sent" makes the page show the
    success banner and reset the form. *)
Theorem reply_sniff_sent_is_success (id : nat) (text : string) (s s1 : fpage) (t0 : Z) :
  take_request id s = Some (ReqAjax t0, s1) -> (fp_now s < t0 + ajax_timeout)%Z ->
  (forall v rest, json_parse_text text <> POk v rest) -> includes (to_lower text) "sent" = true ->
  exists s', exec (FAjaxSuccess id (JStr text)) s = Some s' /\
    fp_banners s' = mkBanner (fp_next_id s) SuccessMsg successHtml :: fp_banners s /\
    fp_form s' = fp_defaults s /\ fp_loader s' = false.
Proof.
  intros Ht Hn Hp Hsent. rewrite (exec_ajax_success _ _ _ _ _ Ht Hn).
  assert (HJ : exists e, JSON_parse (JStr text) = inl e).
  { unfold JSON_parse. cbn [to_string]. destruct (json_parse_text text) as [v rest| |] eqn:E;
      [exfalso; exact (Hp v rest eq_refl) | eexists; reflexivity | eexists; reflexivity]. }
  destruct HJ as [e HJ].
  unfold run, ajax_success, try_catch, bind, hide_loader, modify, lift.
  rewrite HJ. cbn [to_lower_call]. rewrite Hsent, orb_true_r.
  pose proof (showSuccessMessage_effect (set_loader false s1)) as Heff.
  destruct (showSuccessMessage (set_loader false s1)) as [r s'].
  destruct Heff as (-> & Hb & Hf & Hl & _).
  destruct (take_request_fields _ _ _ _ Ht) as (Hb1 & Hn1 & _ & Hd1 & _).
  exists s'. cbn in *. repeat split; congruence.
Qed.

Definition not_sent_reply : string := "Error: message not sent".

Lemma reply_sniff_sent_is_success_witness :
  take_request 0 jane_pending = Some (ReqAjax 0, set_requests [] 1 jane_pending) /\
  (fp_now jane_pending < 0 + ajax_timeout)%Z /\
  (forall v rest, json_parse_text not_sent_reply <> POk v rest) /\
  includes (to_lower not_sent_reply) "sent" = true /\
  exists s', exec (FAjaxSuccess 0 (JStr not_sent_reply)) jane_pending = Some s' /\
    fp_banners s' = mkBanner (fp_next_id jane_pending) SuccessMsg successHtml :: fp_banners jane_pending /\
    fp_form s' = fp_defaults jane_pending /\ fp_loader s' = false.
Proof.
  assert (H1 : take_request 0 jane_pending = Some (ReqAjax 0, set_requests [] 1 jane_pending))
    by (vm_compute; reflexivity).
  assert (H2 : (fp_now jane_pending < 0 + ajax_timeout)%Z) by (vm_compute; reflexivity).
  assert (H3 : forall v rest, json_parse_text not_sent_reply <> POk v rest)
    by (intros v rest; vm_compute; discriminate).
  assert (H4 : includes (to_lower not_sent_reply) "sent" = true) by (vm_compute; reflexivity).
  do 4 (split; [assumption|]).
  exact (reply_sniff_sent_is_success 0 _ _ _ 0 H1 H2 H3 H4).
Defined.

(** C14: When the server answers with a JSON content type, jQuery passes
    the callback an already parsed object: [JSON.parse] then throws on
    its text "[object Object]", and the [catch] block calls
    [toLowerCase] on the object, which throws out of the handler. The
    loader is hidden but no banner is shown and the form is not reset,
    even when the object says [success: true]. *)
Theorem reply_parsed_object_uncaught (id : nat) (props : list (string * jsval)) (s s1 : fpage) (t0 : Z) :
  take_request id s = Some (ReqAjax t0, s1) -> (fp_now s < t0 + ajax_timeout)%Z ->
  exists s', exec (FAjaxSuccess id (JObj props)) s = Some s' /\
    fp_loader s' = false /\ fp_banners s' = fp_banners s /\ fp_form s' = fp_form s /\
    fp_timers s' = fp_timers s /\
    fp_uncaught s' = fp_uncaught s ++ [TypeError "response.toLowerCase is not a function"].
Proof.
  intros Ht Hn. rewrite (exec_ajax_success _ _ _ _ _ Ht Hn).
  destruct (take_request_fields _ _ _ _ Ht) as (Hb1 & _ & Hf1 & _ & _ & _ & Hu1 & _).
  eexists. split; [reflexivity|].
  unfold take_request in Ht. destruct (list_find _ _) as [[i [k r]]|]; [|discriminate].
  injection Ht as _ <-. cbn in *. repeat split; congruence.
Qed.

Lemma reply_parsed_object_uncaught_witness :
  take_request 0 jane_pending = Some (ReqAjax 0, set_requests [] 1 jane_pending) /\
  (fp_now jane_pending < 0 + ajax_timeout)%Z /\
  exists s', exec (FAjaxSuccess 0 (JObj [("success", JBool true)])) jane_pending = Some s' /\
    fp_loader s' = false /\ fp_banners s' = fp_banners jane_pending /\
    fp_form s' = fp_form jane_pending /\ fp_timers s' = fp_timers jane_pending /\
    fp_uncaught s' = fp_uncaught jane_pending ++ [TypeError "response.toLowerCase is not a function"].
Proof.
  assert (H1 : take_request 0 jane_pending = Some (ReqAjax 0, set_requests [] 1 jane_pending))
    by (vm_compute; reflexivity).
  assert (H2 : (fp_now jane_pending < 0 + ajax_timeout)%Z) by (vm_compute; reflexivity).
  split; [exact H1|]. split; [exact H2|].
  exact (reply_parsed_object_uncaught 0 _ _ _ 0 H1 H2).
Defined.

(** C33: When EmailJS rejects the send, the page does not show EmailJS's
    error: it posts the same form data, subject and body to
    [send_email.php], with the loader still shown. *)
Theorem emailjs_rejection_falls_back (id : nat) (s s1 : fpage) (fd : form_data) (subject body : string) :
  take_request id s = Some (ReqEmailJs fd subject body, s1) ->
  exists s', exec (FEmailJsRejected id) s = Some s' /\
    fp_outbox s' = fp_outbox s ++ [SentAjax "send_email.php" (ajax_data fd subject body)] /\
    fp_banners s' = fp_banners s /\ fp_loader s' = fp_loader s /\ fp_alerts s' = fp_alerts s /\
    fp_uncaught s' = fp_uncaught s.
Proof.
  intros Ht. cbn [exec]. rewrite Ht. eexists. split; [reflexivity|].
  destruct (take_request_fields _ _ _ _ Ht) as (Hb1 & _ & _ & _ & Ho1 & _ & Hu1 & Hl1 & Ha1).
  cbn. repeat split; congruence.
Qed.

Definition jane_emailjs_pending : fpage :=
  match exec (FSubmit "today") (initial_fpage jane true) with Some s => s | None => initial_fpage jane true end.

Lemma emailjs_rejection_falls_back_witness :
  take_request 0 jane_emailjs_pending
    = Some (ReqEmailJs jane (emailSubject jane) (createEmailTableContent "today" jane),
            set_requests [] 1 jane_emailjs_pending) /\
  exists s', exec (FEmailJsRejected 0) jane_emailjs_pending = Some s' /\
    fp_outbox s' = fp_outbox jane_emailjs_pending ++
      [SentAjax "send_email.php" (ajax_data jane (emailSubject jane) (createEmailTableContent "today" jane))] /\
    fp_banners s' = fp_banners jane_emailjs_pending /\ fp_loader s' = fp_loader jane_emailjs_pending /\
    fp_alerts s' = fp_alerts jane_emailjs_pending /\ fp_uncaught s' = fp_uncaught jane_emailjs_pending.
Proof.
  assert (H1 : take_request 0 jane_emailjs_pending
    = Some (ReqEmailJs jane (emailSubject jane) (createEmailTableContent "today" jane),
            set_requests [] 1 jane_emailjs_pending)) by (vm_compute; reflexivity).
  split; [exact H1|]. exact (emailjs_rejection_falls_back 0 _ _ _ _ _ H1).
Defined.

(** ** Theorems: banners, loader and timers over every run *)

Lemma exec_all_freachable (es : list fevent) (s s' : fpage) :
  freachable s -> exec_all es s = Some s' -> freachable s'.
Proof.
  revert s. induction es as [|e es IH]; intros s Hr He; cbn in He.
  - injection He as <-. exact Hr.
  - destruct (exec e s) as [s1|] eqn:E; [|discriminate]. exact (IH s1 (freach_step e s s1 Hr E) He).
Qed.

(** Two failed submissions 10 s apart: the server answers each with
    [success: false]; then the timers run. *)
Definition two_errors : list fevent :=
  [FSubmit "today"; FAjaxSuccess 0 (JStr fail_reply); FAdvance 10000;
   FSubmit "today"; FAjaxSuccess 1 (JStr fail_reply)].

Definition two_errors_page : fpage :=
  match exec_all two_errors (initial_fpage jane false) with Some s => s | None => initial_fpage jane false end.

Lemma two_errors_page_reachable : freachable two_errors_page.
Proof.
  apply (exec_all_freachable two_errors (initial_fpage jane false)); [constructor | vm_compute; reflexivity].
Qed.

(** C18: On every page the script can reach, the banners after the form
    carry distinct numbers below the next number to give, and at most
    one of them is an error banner. *)
Theorem banner_inv_reachable (s : fpage) : freachable s -> banner_inv s.
Proof.
  induction 1 as [defaults emailjs|e s s' _ IH He].
  - unfold banner_inv. cbn. split; [constructor | split; [intros b Hb; inversion Hb | cbn; lia]].
  - exact (exec_banner_inv e s s' IH He).
Qed.

Lemma banner_inv_reachable_witness :
  freachable two_errors_page /\ banner_inv two_errors_page.
Proof. split; [exact two_errors_page_reachable | exact (banner_inv_reachable _ two_errors_page_reachable)]. Defined.

Lemma freachable_loader_inv (s : fpage) : freachable s -> loader_inv s.
Proof.
  induction 1 as [defaults emailjs|e s s' _ IH He]; [discriminate | exact (exec_loader_inv e s s' IH He)].
Qed.

(** C15: On every page the script can reach, the loader is shown only
    while a request (to EmailJS or to [send_email.php]) is pending: every
    answer, success, failure or timeout, hides it. *)
Theorem loader_only_while_pending (s : fpage) :
  freachable s -> fp_loader s = true -> fp_requests s <> [].
Proof. intros Hr. exact (freachable_loader_inv s Hr). Qed.

Definition jane_submitted : fpage :=
  match exec_all [FSubmit "today"] (initial_fpage jane false) with Some s => s | None => initial_fpage jane false end.

Lemma loader_only_while_pending_witness :
  freachable jane_submitted /\ fp_loader jane_submitted = true /\ fp_requests jane_submitted <> [].
Proof.
  assert (Hr : freachable jane_submitted)
    by (apply (exec_all_freachable [FSubmit "today"] (initial_fpage jane false)); [constructor | vm_compute; reflexivity]).
  assert (Hl : fp_loader jane_submitted = true) by (vm_compute; reflexivity).
  split; [exact Hr|]. split; [exact Hl|]. exact (loader_only_while_pending _ Hr Hl).
Defined.

Lemma exec_timer (s : fpage) (i : nat) (due : Z) (t : ftask) :
  next_timer (fp_timers s) = Some (i, (due, t)) ->
  exec FTimer s = Some (run (run_ftask t) (set_now (Z.max (fp_now s) due) (set_timers (delete i (fp_timers s)) s))).
Proof. intros Hn. cbn [exec]. rewrite Hn. reflexivity. Qed.

(** A fade timer selects the banners present when it fires, whatever
    their age, and schedules their removal 500 ms later. *)
Lemma exec_fade (s : fpage) (i : nat) (due : Z) (t : ftask) (sel : banner -> bool) :
  next_timer (fp_timers s) = Some (i, (due, t)) -> run_ftask t = fade sel ->
  exists s', exec FTimer s = Some s' /\ fp_banners s' = fp_banners s /\
    forall b, b ∈ fp_banners s -> sel b = true ->
      exists ids, ((Z.max (fp_now s) due + 500)%Z, TRemove ids) ∈ fp_timers s' /\ bn_id b ∈ ids.
Proof.
  intros Hn Ht. rewrite (exec_timer _ _ _ _ Hn), Ht. eexists. split; [reflexivity|].
  unfold run, fade, bind, gets. cbn -[filter].
  destruct (filter _ (fp_banners s)) as [|b0 bs] eqn:Hf.
  - split; [reflexivity|]. intros b Hb Hk.
    assert (Hin : b ∈ filter (fun b => sel b = true) (fp_banners s))
      by (apply list_elem_of_filter; split; [exact Hk | exact Hb]).
    rewrite Hf in Hin. inversion Hin.
  - split; [reflexivity|]. intros b Hb Hk. eexists. split; [apply elem_of_app; right; left|].
    rewrite <- Hf. apply (list_elem_of_fmap_2 bn_id), list_elem_of_filter. split; [exact Hk | exact Hb].
Qed.

(** C19: The 15 s timer [showErrorMessage] sets does not fade the
    banner it was set for but every error banner on the page when it
    fires: each of them, however recently shown, is scheduled for
    removal 500 ms later. *)
Theorem error_fade_takes_every_error_banner (s : fpage) (i : nat) (due : Z) :
  next_timer (fp_timers s) = Some (i, (due, TFadeErrors)) ->
  exists s', exec FTimer s = Some s' /\ fp_banners s' = fp_banners s /\
    forall b, b ∈ fp_banners s -> bn_kind b = ErrorMsg ->
      exists ids, ((Z.max (fp_now s) due + 500)%Z, TRemove ids) ∈ fp_timers s' /\ bn_id b ∈ ids.
Proof.
  intros Hn. destruct (exec_fade _ _ _ _ _ Hn eq_refl) as (s' & He & Hb & Hids).
  exists s'. split; [exact He|]. split; [exact Hb|].
  intros b Hin Hk. apply Hids; [exact Hin | now apply bool_decide_eq_true].
Qed.

(** After the second error banner (shown at 10 s), the first one's timer
    is the next to fire, at 15 s. *)
Lemma error_fade_takes_every_error_banner_witness :
  next_timer (fp_timers two_errors_page) = Some (0%nat, (15000%Z, TFadeErrors)) /\
  fp_now two_errors_page = 10000%Z /\
  fp_banners two_errors_page = [mkBanner 1 ErrorMsg (errorHtml "Failed to send email: SMTP unavailable")] /\
  exists s', exec FTimer two_errors_page = Some s' /\ fp_banners s' = fp_banners two_errors_page /\
    forall b, b ∈ fp_banners two_errors_page -> bn_kind b = ErrorMsg ->
      exists ids, ((Z.max (fp_now two_errors_page) 15000 + 500)%Z, TRemove ids) ∈ fp_timers s' /\ bn_id b ∈ ids.
Proof.
  assert (Hn : next_timer (fp_timers two_errors_page) = Some (0%nat, (15000%Z, TFadeErrors)))
    by (vm_compute; reflexivity).
  split; [exact Hn|]. split; [vm_compute; reflexivity|]. split; [vm_compute; reflexivity|].
  exact (error_fade_takes_every_error_banner _ _ _ Hn).
Defined.

(** C20: The 10 s timer [showSuccessMessage] sets fades every banner on
    the page when it fires, success or error: an error banner shown
    after the success banner is scheduled for removal with it, however
    recently it appeared. *)
Theorem success_fade_takes_every_banner (s : fpage) (i : nat) (due : Z) :
  next_timer (fp_timers s) = Some (i, (due, TFadeMessages)) ->
  exists s', exec FTimer s = Some s' /\ fp_banners s' = fp_banners s /\
    forall b, b ∈ fp_banners s ->
      exists ids, ((Z.max (fp_now s) due + 500)%Z, TRemove ids) ∈ fp_timers s' /\ bn_id b ∈ ids.
Proof.
  intros Hn. destruct (exec_fade _ _ _ _ _ Hn eq_refl) as (s' & He & Hb & Hids).
  exists s'. split; [exact He|]. split; [exact Hb|].
  intros b Hin. exact (Hids b Hin eq_refl).
Qed.

(** A successful submission, then 5 s later a failed one. *)
Definition success_then_error : fpage :=
  match exec_all [FSubmit "today"; FAjaxSuccess 0 (JStr ok_reply); FAdvance 5000;
                  FSubmit "today"; FAjaxSuccess 1 (JStr fail_reply)] (initial_fpage jane false)
  with Some s => s | None => initial_fpage jane false end.

Lemma success_fade_takes_every_banner_witness :
  next_timer (fp_timers success_then_error) = Some (0%nat, (10000%Z, TFadeMessages)) /\
  fp_now success_then_error = 5000%Z /\
  fp_banners success_then_error = [mkBanner 1 ErrorMsg (errorHtml "Failed to send email: SMTP unavailable")] /\
  exists s', exec FTimer success_then_error = Some s' /\ fp_banners s' = fp_banners success_then_error /\
    forall b, b ∈ fp_banners success_then_error ->
      exists ids, ((Z.max (fp_now success_then_error) 10000 + 500)%Z, TRemove ids) ∈ fp_timers s' /\ bn_id b ∈ ids.
Proof.
  assert (Hn : next_timer (fp_timers success_then_error) = Some (0%nat, (10000%Z, TFadeMessages)))
    by (vm_compute; reflexivity).
  split; [exact Hn|]. split; [vm_compute; reflexivity|]. split; [vm_compute; reflexivity|].
  exact (success_fade_takes_every_banner _ _ _ Hn).
Defined.

(** C34: Opening a select is advisory only: the click handler never
    changes the form data, the banners, the loader, the alerts or the
    network; the only style it touches is the model field's border,
    which it turns red when the part or year select is opened while the
    model is the empty string. *)
Theorem select_click_advisory (c : string) (s : fpage) :
  exists s', exec (FSelectClick c) s = Some s' /\
    fp_form s' = fp_form s /\ fp_banners s' = fp_banners s /\ fp_loader s' = fp_loader s /\
    fp_alerts s' = fp_alerts s /\ fp_outbox s' = fp_outbox s /\ fp_requests s' = fp_requests s /\
    (forall g, g <> ModelF -> fp_border s' g = fp_border s g) /\
    ((c = "part_name" \/ c = "year") -> fd_model (fp_form s) = JStr EmptyString ->
     fp_border s' ModelF = Some "1px solid red").
Proof.
  cbn [exec]. eexists. split; [reflexivity|]. unfold run, select_click_handler.
  destruct (String.eqb c "part_name" || String.eqb c "year") eqn:Hc.
  2: { cbn. repeat split. intros [-> | ->]; discriminate. }
  unfold bind, gets. cbn beta. destruct (fd_model (fp_form s)) eqn:Hm.
  5: destruct (String.eqb s0 EmptyString) eqn:He.
  all: cbn; repeat split; try (intros g Hg; destruct (decide (ModelF = g)); congruence).
  all: intros _ Hmodel; rewrite Hmodel in Hm; try discriminate; try reflexivity.
  injection Hmodel as ->. cbn in He. discriminate He.
Qed.

(** ** Every pending request can be answered *)

(** The answer the network can give a pending request at time [now]:
    EmailJS fulfils; the POST gets a server error before its 30 s
    timeout and the timeout from then on. *)
Definition complete_event (now : Z) (p : nat * request) : fevent :=
  match p.2 with
  | ReqEmailJs _ _ _ => FEmailJsFulfilled p.1
  | ReqAjax t0 =>
      if Z.ltb now (t0 + ajax_timeout) then FAjaxError p.1 "error" 500 "Internal Server Error"
      else FAjaxError p.1 "timeout" 0 "timeout"
  end.

Lemma take_request_head (id : nat) (r : request) (rest : list (nat * request)) (s : fpage) :
  fp_requests s = (id, r) :: rest -> take_request id s = Some (r, set_requests rest (fp_next_req s) s).
Proof. intros H. unfold take_request. rewrite H. cbn. now rewrite decide_True. Qed.

(** The pending requests and the clock. *)
Definition rview (s : fpage) : list (nat * request) * Z := (fp_requests s, fp_now s).

Definition keeps_rview (v : list (nat * request) * Z) (s : fpage) : Prop := rview s = v.

Lemma keeps_rview_view (v : list (nat * request) * Z) (s s' : fpage) :
  rview s = rview s' -> keeps_rview v s -> keeps_rview v s'.
Proof. unfold keeps_rview. congruence. Qed.

#[export] Instance keeps_rview_framed (v : list (nat * request) * Z) : Framed (keeps_rview v) :=
  Build_Framed (keeps_rview v) _ rview (keeps_rview_view v) (fun _ _ => eq_refl).

Lemma answers_keep_rview (v : list (nat * request) * Z) :
  preserves (keeps_rview v) showSuccessMessage /\
  forall msg, preserves (keeps_rview v) (showErrorMessage msg).
Proof. split; [|intros msg]; preserves_solve. Qed.

Lemma run_answer (m : M unit) (s1 : fpage) :
  preserves (keeps_rview (rview s1)) m -> preserves loader_off m ->
  rview (run (hide_loader;; m) s1) = rview s1 /\ fp_loader (run (hide_loader;; m) s1) = false.
Proof.
  intros Hk Ho. split; [|exact (hide_then_off m s1 Ho)].
  change (run (hide_loader;; m) s1) with (run m (set_loader false s1)).
  apply (run_framed (P := keeps_rview (rview s1))); [exact Hk | reflexivity].
Qed.

(** Answering the first pending request removes it, keeps the clock and
    hides the loader. *)
Lemma exec_complete (s : fpage) (id : nat) (r : request) (rest : list (nat * request)) :
  fp_requests s = (id, r) :: rest ->
  exists s1, exec (complete_event (fp_now s) (id, r)) s = Some s1 /\
    fp_requests s1 = rest /\ fp_now s1 = fp_now s /\ fp_loader s1 = false.
Proof.
  intros Hr. pose proof (take_request_head id r rest s Hr) as Ht.
  set (s1 := set_requests rest (fp_next_req s) s).
  destruct (answers_keep_rview (rview s1)) as [Hf He].
  destruct r as [fd subject body|t0]; unfold complete_event; cbn [fst snd].
  - cbn [exec]. rewrite Ht. eexists. split; [reflexivity|]. unfold emailjs_fulfilled.
    fold s1. destruct (run_answer showSuccessMessage s1 Hf ltac:(preserves_solve)) as [Hv Hl].
    unfold rview in Hv. apply pair_equal_spec in Hv as [-> ->]. auto.
  - destruct (Z.ltb_spec (fp_now s) (t0 + ajax_timeout)) as [Hlt|Hge]; cbn [exec]; rewrite Ht;
      cbn [String.eqb Ascii.eqb Bool.eqb andb];
      [apply Z.ltb_lt in Hlt; rewrite Hlt | apply Z.leb_le in Hge; rewrite Hge; cbn [andb Z.eqb]];
      eexists; (split; [reflexivity|]); unfold ajax_error; fold s1;
      (match goal with |- context [run (hide_loader;; showErrorMessage ?msg) s1] =>
         destruct (run_answer (showErrorMessage msg) s1 (He msg) ltac:(preserves_solve)) as [Hv Hl] end;
       unfold rview in Hv; apply pair_equal_spec in Hv as [-> ->]; auto).
Qed.

Lemma complete_all (rs : list (nat * request)) (s : fpage) :
  fp_requests s = rs ->
  exists s', exec_all (map (complete_event (fp_now s)) rs) s = Some s' /\
    fp_requests s' = [] /\ (rs <> [] -> fp_loader s' = false).
Proof.
  revert s. induction rs as [|[id r] rest IH]; intros s Hr.
  - exists s. split; [reflexivity|]. split; [exact Hr | now intros []].
  - destruct (exec_complete s id r rest Hr) as (s1 & He & Hr1 & Hn1 & Hl1).
    destruct (IH s1 Hr1) as (s' & He' & Hr' & Hl'). rewrite Hn1 in He'.
    exists s'. cbn [map exec_all]. rewrite He. split; [exact He'|]. split; [exact Hr'|].
    intros _. destruct rest as [|p rest]; [cbn in He'; congruence | apply Hl'; discriminate].
Qed.

(** C16: The form always gets back to its idle state: from every page
    the script can reach, answering each pending request in turn with
    the answer the network can give at the current time (EmailJS
    fulfilled, a server error, or the timeout once 30 s have passed)
    leaves no request pending and the loader hidden. *)
Theorem form_returns_to_idle (s : fpage) :
  freachable s ->
  exists s', exec_all (map (complete_event (fp_now s)) (fp_requests s)) s = Some s' /\
    fp_requests s' = [] /\ fp_loader s' = false.
Proof.
  intros Hreach. destruct (complete_all (fp_requests s) s eq_refl) as (s' & He & Hr & Hl).
  exists s'. split; [exact He|]. split; [exact Hr|].
  destruct (fp_requests s) as [|p rest] eqn:E; [|apply Hl; discriminate].
  cbn in He. injection He as <-.
  destruct (fp_loader s) eqn:L; [|reflexivity]. exfalso. exact (freachable_loader_inv s Hreach L E).
Qed.

Lemma form_returns_to_idle_witness :
  freachable success_then_error /\
  exists s', exec_all (map (complete_event (fp_now success_then_error)) (fp_requests success_then_error))
               success_then_error = Some s' /\
    fp_requests s' = [] /\ fp_loader s' = false.
Proof.
  assert (H : freachable success_then_error).
  { apply (exec_all_freachable [FSubmit "today"; FAjaxSuccess 0 (JStr ok_reply); FAdvance 5000;
                                FSubmit "today"; FAjaxSuccess 1 (JStr fail_reply)] (initial_fpage jane false));
      [constructor | vm_compute; reflexivity]. }
  split; [exact H | exact (form_returns_to_idle _ H)].
Defined.

(** C31: The spec's property of a single missing field: submitting a
    form in which exactly one required field is empty (falsy) and the
    others are filled makes no network call and raises exactly one
    alert, whose text is that field's reason line, and borders that
    field red. *)
Theorem submit_single_missing (currentDate : string) (s : fpage) (pre post : list check) (ck : check) :
  required_checks = pre ++ ck :: post ->
  Forall (fun c => truthy (ck_field c (fp_form s)) = true) (pre ++ post) ->
  truthy (ck_field ck (fp_form s)) = false ->
  exists s', exec (FSubmit currentDate) s = Some s' /\
    fp_outbox s' = fp_outbox s /\ fp_requests s' = fp_requests s /\
    fp_alerts s' = fp_alerts s ++ [ck_message ck] /\ fp_loader s' = false /\
    fp_border s' (ck_group ck) = Some "2px solid red".
Proof.
  intros Hreq Hall Hck. unfold exec, run, submit_handler.
  cbn [bind show_loader gets modify]. change (fp_form (set_loader true s)) with (fp_form s).
  rewrite (validate_single_missing _ _ _ _ Hreq Hall Hck).
  destruct (mark_groups_effect [ck_group ck] (set_loader true s)) as [b [Hb Hg]].
  unfold bind at 1. rewrite Hb. cbn. eexists. split; [reflexivity|].
  repeat split. rewrite Hg, decide_True; [reflexivity | now apply list_elem_of_singleton].
Qed.

(** The spec's form without its model. *)
Definition no_model_page : fpage := initial_fpage no_model false.

Lemma submit_single_missing_witness :
  required_checks = [mkCheck fd_year ("Year is required." +:+ nl) YearF]
                      ++ mkCheck fd_model ("Car model is required." +:+ nl) ModelF
                      :: skipn 2 required_checks /\
  Forall (fun c => truthy (ck_field c (fp_form no_model_page)) = true)
    ([mkCheck fd_year ("Year is required." +:+ nl) YearF] ++ skipn 2 required_checks) /\
  truthy (ck_field (mkCheck fd_model ("Car model is required." +:+ nl) ModelF) (fp_form no_model_page)) = false /\
  exists s', exec (FSubmit "today") no_model_page = Some s' /\
    fp_outbox s' = fp_outbox no_model_page /\ fp_requests s' = fp_requests no_model_page /\
    fp_alerts s' = fp_alerts no_model_page ++ ["Car model is required." +:+ nl] /\ fp_loader s' = false /\
    fp_border s' ModelF = Some "2px solid red".
Proof.
  assert (H1 : required_checks = [mkCheck fd_year ("Year is required." +:+ nl) YearF]
                      ++ mkCheck fd_model ("Car model is required." +:+ nl) ModelF
                      :: skipn 2 required_checks) by reflexivity.
  assert (H2 : Forall (fun c => truthy (ck_field c (fp_form no_model_page)) = true)
    ([mkCheck fd_year ("Year is required." +:+ nl) YearF] ++ skipn 2 required_checks))
    by (repeat constructor).
  assert (H3 : truthy (ck_field (mkCheck fd_model ("Car model is required." +:+ nl) ModelF)
                                (fp_form no_model_page)) = false) by reflexivity.
  split; [exact H1|]. split; [exact H2|]. split; [exact H3|].
  exact (submit_single_missing "today" _ _ _ _ H1 H2 H3).
Defined.

End Submission.
