(* ===== verification/RequestSpec.v ===== *)
(** * The delivery attempts: each one is answered at most once

    The spec's form lifecycle (section 4) goes Idle -> Validating ->
    Submitting -> Success or Failure -> Idle. In the code, Submitting is
    a pending delivery attempt: [send] ([Submission]) records an EmailJS
    call or an AJAX post under a fresh number, and the browser's answer
    to it (the promise settling, the [success] or [error] callback)
    takes it off the list ([take_request]) before its callback runs.
    This file states the per-attempt machine [Unsent -> Pending ->
    Answered] and proves that the page refines it: over any run of
    events from a reachable page, every attempt moves only along it
    ([request_lifecycle]), and an answer is accepted exactly for a
    pending attempt, which it leaves answered for good ([answer_once]).
    The proof is the invariant that pending attempts have distinct
    numbers below the next one, carried through every handler by the
    [preserves] framework of [Submission]. These facts are about the
    event model's bookkeeping ([send] numbers, [take_request] removes),
    not about a handler of part.js; their use is the invariant [req_inv],
    which lets the [Delivery] proofs find the request an answer is
    for. *)

From S2P Require Import Prelude JsRuntime QuoteForm Json JsonEncode Submission.
From stdpp Require Import relations.

Module RequestSpec.

Import QuoteForm Submission.

(** ** The abstract machine *)

Inductive rphase := Unsent | Pending | Answered.

#[global] Instance rphase_eq_dec : EqDecision rphase.
Proof. solve_decision. Defined.

Inductive rstep : rphase -> rphase -> Prop :=
| rsend : rstep Unsent Pending
| ranswer : rstep Pending Answered.

Definition rrank (p : rphase) : nat :=
  match p with Unsent => 0 | Pending => 1 | Answered => 2 end.

Lemma rstep_rank (p q : rphase) : rtc rstep p q <-> rrank p <= rrank q.
Proof.
  split.
  - induction 1 as [|x y z Hxy _ IH]; [done|]. destruct Hxy; cbn in *; lia.
  - destruct p, q; cbn; intros H; try lia; try reflexivity.
    + apply rtc_once, rsend.
    + eapply rtc_l; [apply rsend | apply rtc_once, ranswer].
    + apply rtc_once, ranswer.
Qed.

(** ** The abstraction of a page *)

(** Attempt [id]: not made yet, pending, or answered. *)
Definition req_phase (s : fpage) (id : nat) : rphase :=
  if decide (id < fp_next_req s) then
    if decide (id ∈ map fst (fp_requests s)) then Pending else Answered
  else Unsent.

(** Pending attempts have distinct numbers, below the next number. *)
Definition req_inv (s : fpage) : Prop :=
  NoDup (map fst (fp_requests s)) /\ Forall (fun p => p.1 < fp_next_req s) (fp_requests s).

(** No attempt's phase moves backward from [s0] to [s]. *)
Definition req_fwd (s0 s : fpage) : Prop := forall id, rrank (req_phase s0 id) <= rrank (req_phase s id).

Definition req_after (s0 s : fpage) : Prop := req_inv s /\ req_fwd s0 s.

Definition rqview (s : fpage) : list (nat * request) * nat := (fp_requests s, fp_next_req s).

Lemma req_after_view (s0 s s' : fpage) : rqview s = rqview s' -> req_after s0 s -> req_after s0 s'.
Proof.
  unfold rqview, req_after, req_inv, req_fwd, req_phase. intros [= <- <-]. exact id.
Qed.

#[export] Instance req_after_framed (s0 : fpage) : Framed (req_after s0) :=
  Build_Framed (req_after s0) _ rqview (req_after_view s0) (fun _ _ => eq_refl).

Lemma req_after_refl (s : fpage) : req_inv s -> req_after s s.
Proof. intros H. split; [exact H | intros id; lia]. Qed.

(** ** Sending *)

Lemma keys_below (s : fpage) : req_inv s -> forall x, x ∈ map fst (fp_requests s) -> x < fp_next_req s.
Proof.
  intros [_ Hlt]. apply (List.Forall_map fst (fun x => x < fp_next_req s)) in Hlt.
  rewrite Forall_forall in Hlt. exact Hlt.
Qed.

(** [send] makes attempt [fp_next_req]: it becomes pending, and no
    other attempt changes. *)
Lemma req_phase_send (o : outgoing) (r : request) (s : fpage) (id : nat) :
  req_inv s ->
  req_phase (send o r s).2 id = if decide (id = fp_next_req s) then Pending else req_phase s id.
Proof.
  intros [_ Hlt]. unfold req_phase, send, modify. cbn. rewrite map_app. cbn.
  destruct (decide (id = fp_next_req s)) as [->|Hne].
  - rewrite decide_True by lia. rewrite decide_True; [reflexivity|]. apply elem_of_app. right. now left.
  - destruct (decide (id < fp_next_req s)).
    + rewrite decide_True by lia. apply decide_ext. rewrite elem_of_app, list_elem_of_singleton. tauto.
    + rewrite decide_False by lia. reflexivity.
Qed.

Lemma req_inv_send (o : outgoing) (r : request) (s : fpage) : req_inv s -> req_inv (send o r s).2.
Proof.
  intros Hi. pose proof (keys_below s Hi) as Hk. destruct Hi as [Hnd Hlt].
  unfold req_inv, send, modify. cbn. rewrite map_app. cbn. split.
  - apply NoDup_app. split; [exact Hnd|]. split; [|apply NoDup_singleton].
    intros x Hx Hn. apply list_elem_of_singleton in Hn as ->. specialize (Hk _ Hx). lia.
  - apply Forall_app. split; [|apply List.Forall_cons; [cbn; lia | apply List.Forall_nil]].
    eapply Forall_impl; [exact Hlt|]. intros p Hp. cbn in *. lia.
Qed.

Lemma req_after_send (s0 : fpage) (o : outgoing) (r : request) : preserves (req_after s0) (send o r).
Proof.
  intros s [Hi Hf]. split; [now apply req_inv_send|]. intros id.
  rewrite (req_phase_send o r s id Hi). specialize (Hf id).
  destruct (decide (id = fp_next_req s)) as [->|]; [|exact Hf].
  unfold req_phase at 2 in Hf. rewrite decide_False in Hf by lia. cbn in *. lia.
Qed.

#[export] Hint Resolve req_after_send : handler.

(** ** Answering *)

(** Taking attempt [id] off the list answers it and changes no other. *)
Lemma take_request_phase (id : nat) (s s1 : fpage) (r : request) :
  req_inv s -> take_request id s = Some (r, s1) ->
  req_inv s1 /\ req_phase s id = Pending /\ req_phase s1 id = Answered /\
  forall id', id' <> id -> req_phase s1 id' = req_phase s id'.
Proof.
  intros [Hnd Hlt] Ht. unfold take_request in Ht.
  destruct (list_find _ _) as [[i [k r']]|] eqn:Hf; [|discriminate]. injection Ht as -> <-.
  apply list_find_Some in Hf as (Hi & Hk & _). cbn in Hk. subst k.
  pose proof (delete_Permutation (fp_requests s) i _ Hi) as Hp.
  assert (Hpm : map fst (fp_requests s) ≡ₚ id :: map fst (delete i (fp_requests s)))
    by (rewrite Hp at 1; reflexivity).
  pose proof Hnd as Hnd'. rewrite Hpm in Hnd'. apply NoDup_cons in Hnd' as [Hnot Hnd1].
  rewrite Forall_forall in Hlt. pose proof (Hlt _ (list_elem_of_lookup_2 _ _ _ Hi)) as Hid. cbn in Hid.
  unfold req_inv, req_phase; cbn. split; [split|split; [|split]].
  - exact Hnd1.
  - apply Forall_forall. intros p Hin. apply Hlt. rewrite Hp. now right.
  - rewrite !decide_True by (try lia; rewrite Hpm; now left). reflexivity.
  - rewrite decide_True by lia. now rewrite decide_False.
  - intros id' Hne. destruct (decide (id' < _)); [|reflexivity].
    assert (Hiff : id' ∈ map fst (delete i (fp_requests s)) <-> id' ∈ map fst (fp_requests s))
      by (rewrite Hpm, elem_of_cons; tauto).
    destruct (decide (id' ∈ map fst (delete i _))), (decide (id' ∈ map fst (fp_requests s))); tauto.
Qed.

(** ** Every event *)

Lemma handlers_preserve_req_after (s0 : fpage) : handlers_preserve (req_after s0).
Proof.
  split; intros; unfold emailjs_fulfilled, emailjs_rejected, fallbackEmailMethod, ajax_success,
    ajax_error, focus_change_handler, ready_change_handler, select_click_handler;
    try (destruct t; unfold run_ftask, fade); preserves_solve.
Qed.

Lemma exec_req_after (e : fevent) (s s' : fpage) : req_inv s -> exec e s = Some s' -> req_after s s'.
Proof.
  intros H. apply exec_framed; [apply handlers_preserve_req_after | | | | | | now apply req_after_refl].
  1: intros d; apply run_framed; [unfold submit_handler; preserves_solve | now apply req_after_refl].
  1: intros id r s1 Ht; destruct (take_request_phase id s s1 r H Ht) as (Hi & Hp & Ha & Ho);
     split; [exact Hi|]; intros id'; destruct (decide (id' = id)) as [->|Hne];
     [rewrite Hp, Ha; cbn; lia | rewrite (Ho id' Hne); lia].
  all: intros; apply (req_after_view s s); [reflexivity | now apply req_after_refl].
Qed.

Lemma freachable_req_inv (s : fpage) : freachable s -> req_inv s.
Proof.
  induction 1 as [defaults emailjs|e s s' _ IH He].
  - split; constructor.
  - exact (proj1 (exec_req_after e s s' IH He)).
Qed.

Lemma exec_all_req_after (es : list fevent) (s s' : fpage) :
  req_inv s -> exec_all es s = Some s' -> req_after s s'.
Proof.
  revert s. induction es as [|e es IH]; intros s Hi He; cbn in He.
  - injection He as <-. now apply req_after_refl.
  - destruct (exec e s) as [s1|] eqn:E; [|discriminate].
    destruct (exec_req_after e s s1 Hi E) as [Hi1 Hf1]. destruct (IH s1 Hi1 He) as [Hi' Hf'].
    split; [exact Hi'|]. intros id. specialize (Hf1 id). specialize (Hf' id). lia.
Qed.

(** An answer event takes its attempt off the list, then runs a handler. *)
Definition answers (e : fevent) (id : nat) : Prop :=
  match e with
  | FEmailJsFulfilled i | FEmailJsRejected i | FAjaxSuccess i _ | FAjaxError i _ _ _ => i = id
  | _ => False
  end.

Lemma exec_answer (e : fevent) (id : nat) (s s' : fpage) :
  answers e id -> exec e s = Some s' ->
  exists r s1, take_request id s = Some (r, s1) /\
    forall (P : fpage -> Prop) (HP : Framed P), handlers_preserve P -> P s1 -> P s'.
Proof.
  intros Ha He. destruct e as [d|i|i|i resp|i st x err| |t|c v|c|c|c]; cbn in Ha; try contradiction; subst i;
    cbn [exec] in He; destruct (take_request id s) as [[r s1]|] eqn:Ht; try discriminate;
    exists r, s1; split; [reflexivity | | reflexivity | | reflexivity | | reflexivity |];
    intros P HF [Hful Hrej Hsuc Herr Htask Hfc Hf Hsel] H1; destruct r; try discriminate.
  - injection He as <-. exact (run_framed _ _ Hful H1).
  - injection He as <-. exact (run_framed _ _ (Hrej _ _ _) H1).
  - destruct (Z.ltb _ _); [|discriminate]. injection He as <-. exact (run_framed _ _ (Hsuc resp) H1).
  - destruct (String.eqb _ _); [destruct (_ && _)|destruct (Z.ltb _ _)]; try discriminate;
      injection He as <-; exact (run_framed _ _ (Herr st x err) H1).
Qed.

(** ** Refinement *)

(** The delivery attempts refine the spec's Submitting step as the
    per-attempt machine [Unsent -> Pending -> Answered]: over any run
    of events from a reachable page, whatever the interleaving of
    submits, answers, timers and input, every attempt's phase only
    follows the machine's steps, so no attempt is answered twice and no
    answered attempt becomes pending again. *)
Theorem request_lifecycle (s s' : fpage) (es : list fevent) :
  freachable s -> exec_all es s = Some s' -> forall id, rtc rstep (req_phase s id) (req_phase s' id).
Proof.
  intros Hr He id. apply rstep_rank.
  exact (proj2 (exec_all_req_after es s s' (freachable_req_inv s Hr) He) id).
Qed.

(** An answer (the EmailJS promise settling, the AJAX [success] or
    [error] callback) is accepted only for a pending attempt, and the
    attempt is answered afterwards, whatever the callback does (the
    EmailJS rejection's fallback post is a new attempt). *)
Theorem answer_once (s s' : fpage) (e : fevent) (id : nat) :
  freachable s -> answers e id -> exec e s = Some s' ->
  req_phase s id = Pending /\ req_phase s' id = Answered.
Proof.
  intros Hr Ha He. pose proof (freachable_req_inv s Hr) as Hi.
  destruct (exec_answer e id s s' Ha He) as (r & s1 & Ht & Hrun).
  destruct (take_request_phase id s s1 r Hi Ht) as (Hi1 & Hp & Ha1 & _).
  split; [exact Hp|].
  destruct (Hrun (req_after s1) _ (handlers_preserve_req_after s1) (req_after_refl s1 Hi1)) as [_ Hf].
  specialize (Hf id). rewrite Ha1 in Hf. destruct (req_phase s' id); cbn in Hf; [lia | lia | reflexivity].
Qed.

(** The spec's scenario: Jane Doe's form is posted (attempt 0) and the
    server answers [{"success":true}]. *)
Definition jane_run : list fevent := [FSubmit "today"; FAjaxSuccess 0 (JStr ok_reply)].

Definition jane_answered : fpage :=
  match exec_all jane_run (initial_fpage jane false) with Some s => s | None => initial_fpage jane false end.

Lemma request_lifecycle_witness :
  freachable (initial_fpage jane false) /\
  exec_all jane_run (initial_fpage jane false) = Some jane_answered /\
  req_phase (initial_fpage jane false) 0 = Unsent /\ req_phase jane_answered 0 = Answered /\
  forall id, rtc rstep (req_phase (initial_fpage jane false) id) (req_phase jane_answered id).
Proof.
  assert (H : exec_all jane_run (initial_fpage jane false) = Some jane_answered) by (vm_compute; reflexivity).
  split; [apply freach_init|]. split; [exact H|]. split; [vm_compute; reflexivity|].
  split; [vm_compute; reflexivity|].
  exact (request_lifecycle _ _ _ (freach_init jane false) H).
Defined.

Lemma answer_once_witness :
  freachable jane_pending /\ answers (FAjaxSuccess 0 (JStr ok_reply)) 0 /\
  exists s', exec (FAjaxSuccess 0 (JStr ok_reply)) jane_pending = Some s' /\
    req_phase jane_pending 0 = Pending /\ req_phase s' 0 = Answered.
Proof.
  assert (Hr : freachable jane_pending)
    by (apply (freach_step (FSubmit "today") (initial_fpage jane false)); [apply freach_init | vm_compute; reflexivity]).
  assert (Ha : answers (FAjaxSuccess 0 (JStr ok_reply)) 0) by reflexivity.
  split; [exact Hr|]. split; [exact Ha|].
  destruct (exec (FAjaxSuccess 0 (JStr ok_reply)) jane_pending) as [s'|] eqn:E; [|vm_compute in E; discriminate].
  exists s'. split; [reflexivity|]. exact (answer_once _ _ _ _ Hr Ha E).
Defined.

End RequestSpec.
