(* ===== verification/Delivery.v ===== *)
(** * A quote request from submit to banner

    The parts of the form controller compose: the submit handler
    ([Submission.submit_handler], part.js lines 248-326) runs the checks
    of [QuoteForm], [sendEmail] falls back to the POST to
    [send_email.php] when EmailJS is absent ([fallbackEmailMethod],
    lines 435-455), the server answers with the JSON text of the spec's
    reply [{success, error?}] ([JsonEncode]), and the [success] callback
    (lines 456-473) parses it with [JSON.parse] ([Json]) and shows a
    banner. This file proves the whole exchange at once, for every
    reachable page, every valid form and every reply of that format
    ([delivery_end_to_end]): the POST carries the form, its subject and
    its body, and the page ends as [reply_outcome] says. With EmailJS
    loaded and rejecting the send, the same holds after the fallback
    POST ([delivery_after_rejection]). Nothing stops a second submit: two
    POSTs go out and the first answer hides the loader while the second
    is pending ([double_submit_two_posts]). The reachable-page hypothesis
    supplies [RequestSpec]'s invariant, which makes each answer find the
    request it answers ([take_request_fresh]). *)

From S2P Require Import Prelude JsRuntime QuoteForm Json JsonEncode Submission RequestSpec.

Module Delivery.

Import QuoteForm Json JsonEncode Submission RequestSpec.

(** ** The reply and what it shows *)

(** The spec's reply: [{success: b}] or [{success: b, error: X}]. *)
Definition spec_reply (b : bool) (err : option string) : jsval :=
  JObj (("success", JBool b) :: match err with Some e => [("error", JStr e)] | None => [] end).

(** The text the error banner shows after "Failed to send email: ". *)
Definition error_text (err : option string) : string :=
  match err with Some e => if String.eqb e "" then "Unknown error" else e | None => "Unknown error" end.

Lemma spec_reply_json_value (b : bool) (err : option string) : json_value (spec_reply b err) = true.
Proof. now destruct err. Qed.

Lemma spec_reply_props (b : bool) (err : option string) :
  get_prop (spec_reply b err) "success" = inr (JBool b) /\
  get_prop (spec_reply b err) "error" = inr (match err with Some e => JStr e | None => JUndefined end).
Proof. now destruct err. Qed.

Lemma error_message_text (err : option string) :
  str_plus "Failed to send email: " (js_or (match err with Some e => JStr e | None => JUndefined end)
                                          (JStr "Unknown error"))
  = "Failed to send email: " +:+ error_text err.
Proof. destruct err as [e|]; [|reflexivity]. unfold js_or, truthy, error_text. now destruct (String.eqb e ""). Qed.

(** What the page shows once the reply [{success: b, error?: X}] has
    been handled, compared with the page [s] before the submit: the
    pending requests are those of [s], the loader is hidden, and either
    the success banner is first and the form back at its defaults, or
    one error banner remains, saying "Failed to send email: " and X (or
    "Unknown error"), and the form keeps its values. *)
Definition reply_outcome (b : bool) (err : option string) (s s2 : fpage) : Prop :=
  fp_requests s2 = fp_requests s /\ fp_loader s2 = false /\
  if b then fp_banners s2 = mkBanner (fp_next_id s) SuccessMsg successHtml :: fp_banners s /\
            fp_form s2 = fp_defaults s
  else exists bn, fp_banners s2 = [bn] /\ bn_kind bn = ErrorMsg /\
            bn_html bn ∋ₛ ("Failed to send email: " +:+ error_text err) /\ fp_form s2 = fp_form s.

Lemma reply_outcome_transport (b : bool) (err : option string) (s s' s2 : fpage) :
  fp_requests s' = fp_requests s -> fp_next_id s' = fp_next_id s -> fp_banners s' = fp_banners s ->
  fp_defaults s' = fp_defaults s -> fp_form s' = fp_form s ->
  reply_outcome b err s' s2 -> reply_outcome b err s s2.
Proof. intros Hq Hi Hb Hd Hf. unfold reply_outcome. rewrite Hq, Hi, Hb, Hd, Hf. exact id. Qed.

(** ** The submit and the answer *)

(** A valid submit shows the loader and calls [sendEmail]. *)
Lemma exec_submit_valid (d : string) (s : fpage) :
  (validate (fp_form s)).1.1 = true ->
  exec (FSubmit d) s
  = Some (run (sendEmail (fp_form s) (emailSubject (fp_form s)) (createEmailTableContent d (fp_form s)))
              (set_loader true s)).
Proof.
  intros Hv. unfold exec, run, submit_handler. cbn [bind show_loader gets modify].
  change (fp_form (set_loader true s)) with (fp_form s). rewrite (validate_true _ Hv). reflexivity.
Qed.

(** [exec_all] one event after the other. *)
Lemma exec_all_cons (e : fevent) (es : list fevent) (s s' : fpage) :
  exec e s = Some s' -> exec_all (e :: es) s = exec_all es s'.
Proof. intros H. cbn. now rewrite H. Qed.

Lemma exec_all_one (e : fevent) (s : fpage) : exec_all [e] s = exec e s.
Proof. cbn. now destruct (exec e s). Qed.

(** The POST of [fallbackEmailMethod], pending under the next number. *)
Lemma run_fallback (fd : form_data) (subject body : string) (s : fpage) :
  run (fallbackEmailMethod fd subject body) s
  = set_requests (fp_requests s ++ [(fp_next_req s, ReqAjax (fp_now s))]) (S (fp_next_req s))
      (set_outbox (fp_outbox s ++ [SentAjax "send_email.php" (ajax_data fd subject body)]) s).
Proof. reflexivity. Qed.

(** [sendEmail]: the EmailJS call when the library is loaded, the
    fallback otherwise. *)
Lemma run_sendEmail (fd : form_data) (subject body : string) (s : fpage) :
  run (sendEmail fd subject body) s
  = if fp_emailjs s
    then set_requests (fp_requests s ++ [(fp_next_req s, ReqEmailJs fd subject body)]) (S (fp_next_req s))
           (set_outbox (fp_outbox s ++ [SentEmailJs "YOUR_SERVICE_ID" "YOUR_TEMPLATE_ID"
                                                   (emailjs_params fd subject body)]) s)
    else run (fallbackEmailMethod fd subject body) s.
Proof. unfold run, sendEmail. cbn. destruct (fp_emailjs s); reflexivity. Qed.

(** The answer to request [n] finds it wherever it is in the list, when
    no earlier pending request has its number. *)
Lemma take_request_mid (n : nat) (r : request) (l k : list (nat * request)) (s : fpage) :
  fp_requests s = l ++ (n, r) :: k -> Forall (fun p => p.1 <> n) l ->
  take_request n s = Some (r, set_requests (l ++ k) (fp_next_req s) s).
Proof.
  intros Hq Hl. unfold take_request. rewrite Hq, list_find_app_r.
  - cbn. rewrite decide_True by reflexivity. cbn. rewrite delete_middle. reflexivity.
  - apply list_find_None. exact Hl.
Qed.

(** Numbers from [fp_next_req s] on are not pending. *)
Lemma req_inv_fresh (s : fpage) (m : nat) :
  req_inv s -> fp_next_req s <= m -> Forall (fun p => p.1 <> m) (fp_requests s).
Proof.
  intros Hi Hm. apply Forall_forall. intros [k r] Hin Hk. cbn in Hk. subst k.
  assert (Hk : m ∈ map fst (fp_requests s)) by (apply list_elem_of_In, in_map_iff;
    exists (m, r); split; [reflexivity | now apply list_elem_of_In]).
  pose proof (keys_below s Hi _ Hk). lia.
Qed.

(** A request made from [s] on is answered from the page it was added
    to. *)
Lemma take_request_fresh (s p : fpage) (m : nat) (r : request) :
  req_inv s -> fp_next_req s <= m -> fp_requests p = fp_requests s ++ [(m, r)] ->
  take_request m p = Some (r, set_requests (fp_requests s) (fp_next_req p) p).
Proof.
  intros Hi Hm Hq. rewrite (take_request_mid m r (fp_requests s) [] p Hq), app_nil_r; [reflexivity|].
  now apply req_inv_fresh.
Qed.

Lemma exec_emailjs_rejected (id : nat) (fd : form_data) (subject body : string) (s s1 : fpage) :
  take_request id s = Some (ReqEmailJs fd subject body, s1) ->
  exec (FEmailJsRejected id) s = Some (run (fallbackEmailMethod fd subject body) s1).
Proof. intros Ht. cbn [exec]. now rewrite Ht. Qed.

(** The success callback on the JSON text of the spec's reply, for a
    POST answered before its timeout. *)
Lemma answer_reply (n : nat) (t0 : Z) (p p1 : fpage) (b : bool) (err : option string) :
  take_request n p = Some (ReqAjax t0, p1) -> (fp_now p < t0 + ajax_timeout)%Z ->
  exists s2, exec (FAjaxSuccess n (JStr (json_encode (spec_reply b err)))) p = Some s2 /\
    fp_outbox s2 = fp_outbox p1 /\ reply_outcome b err p1 s2.
Proof.
  intros Ht Hn. rewrite (exec_ajax_success _ _ _ _ _ Ht Hn). unfold run.
  pose proof (JSON_parse_encode _ (spec_reply_json_value b err)) as Hp.
  destruct (spec_reply_props b err) as [Hs Herr]. unfold reply_outcome. destruct b.
  - rewrite (ajax_success_true _ _ _ _ Hp Hs eq_refl).
    pose proof (showSuccessMessage_effect (set_loader false p1)) as Heff.
    destruct (showSuccessMessage _) as [r s']. destruct Heff as (-> & Hb & Hf & Hl & Ho & Hq & _).
    eexists. split; [reflexivity|]. cbn in *. repeat split; assumption.
  - rewrite (ajax_success_false _ _ _ _ _ Hp Hs eq_refl Herr), error_message_text.
    pose proof (showErrorMessage_effect ("Failed to send email: " +:+ error_text err) (set_loader false p1)) as Heff.
    destruct (showErrorMessage _ _) as [r s']. destruct Heff as (-> & Hb & Hf & Hl & Ho & Hq & _).
    eexists. split; [reflexivity|]. cbn in *. split; [exact Ho|]. split; [exact Hq|]. split; [exact Hl|].
    eexists. split; [exact Hb|]. split; [reflexivity|]. split; [apply errorHtml_includes | exact Hf].
Qed.

(** ** The exchange *)

(** C8: A quote request end to end. On every reachable page without
    EmailJS, when the form passes the checks, submitting it and then
    answering the POST with the JSON text of the spec's reply
    [{success: b, error?: X}] sends exactly one POST to
    [send_email.php] carrying the form, its subject and its body, leaves
    no request pending that was not pending before, hides the loader,
    and then: for [success: true] puts the success banner first and
    resets the form; for [success: false] leaves one error banner, whose
    text contains "Failed to send email: " followed by X (or "Unknown
    error" when X is absent or empty), and keeps the form's values. *)
Theorem delivery_end_to_end (s : fpage) (d : string) (b : bool) (err : option string) :
  freachable s -> fp_emailjs s = false -> (validate (fp_form s)).1.1 = true ->
  exists s2,
    exec_all [FSubmit d; FAjaxSuccess (fp_next_req s) (JStr (json_encode (spec_reply b err)))] s = Some s2 /\
    fp_outbox s2 = fp_outbox s ++ [SentAjax "send_email.php"
                                     (ajax_data (fp_form s) (emailSubject (fp_form s))
                                        (createEmailTableContent d (fp_form s)))] /\
    reply_outcome b err s s2.
Proof.
  intros Hr He Hv. rewrite (exec_all_cons _ _ _ _ (exec_submit_valid d s Hv)), exec_all_one,
    run_sendEmail. cbn [fp_emailjs set_loader]. rewrite He, run_fallback.
  edestruct (answer_reply (fp_next_req s)) as (s2 & -> & Ho & Hout);
    [apply (take_request_mid _ _ (fp_requests s) []); [reflexivity | apply (req_inv_fresh s _ (freachable_req_inv s Hr)); lia]
    | cbn; unfold ajax_timeout; lia |].
  exists s2. split; [reflexivity|]. split; [exact Ho|].
  revert Hout. apply reply_outcome_transport; cbn; rewrite ?app_nil_r; reflexivity.
Qed.

(** C9: The EmailJS route when the service rejects the send. On every
    reachable page with EmailJS loaded, when the form passes the checks,
    submitting it, then EmailJS rejecting the send, then the server
    answering the fallback POST with the JSON text of the spec's reply
    [{success: b, error?: X}], makes exactly two calls, the EmailJS send
    with the form's parameters and then the POST to [send_email.php]
    with the same form, subject and body; the loader stays up between
    them, and the page ends as the reply asks (the same outcome as
    without EmailJS): EmailJS's own failure is never shown. *)
Theorem delivery_after_rejection (s : fpage) (d : string) (b : bool) (err : option string) :
  freachable s -> fp_emailjs s = true -> (validate (fp_form s)).1.1 = true ->
  exists s2,
    exec_all [FSubmit d; FEmailJsRejected (fp_next_req s);
              FAjaxSuccess (S (fp_next_req s)) (JStr (json_encode (spec_reply b err)))] s = Some s2 /\
    fp_outbox s2 = fp_outbox s ++
      [SentEmailJs "YOUR_SERVICE_ID" "YOUR_TEMPLATE_ID"
         (emailjs_params (fp_form s) (emailSubject (fp_form s)) (createEmailTableContent d (fp_form s)));
       SentAjax "send_email.php"
         (ajax_data (fp_form s) (emailSubject (fp_form s)) (createEmailTableContent d (fp_form s)))] /\
    reply_outcome b err s s2.
Proof.
  intros Hr He Hv. pose proof (freachable_req_inv s Hr) as Hi.
  rewrite (exec_all_cons _ _ _ _ (exec_submit_valid d s Hv)), run_sendEmail.
  cbn [fp_emailjs set_loader]. rewrite He.
  erewrite exec_all_cons by (apply exec_emailjs_rejected, (take_request_fresh s); [exact Hi | lia | reflexivity]).
  rewrite exec_all_one, run_fallback.
  edestruct (answer_reply (S (fp_next_req s))) as (s2 & -> & Ho & Hout);
    [apply (take_request_fresh s); [exact Hi | cbn; lia | reflexivity] | cbn; unfold ajax_timeout; lia |].
  exists s2. split; [reflexivity|]. split; [rewrite Ho; cbn; now rewrite <- app_assoc|].
  revert Hout. apply reply_outcome_transport; reflexivity.
Qed.

(** C17: Nothing guards against a second submit while the first is
    pending. On every reachable page without EmailJS, submitting a valid
    form twice sends two POSTs with the same form and subject; when the
    first is answered (whatever the reply) the loader is hidden although
    the second POST is still pending. *)
Theorem double_submit_two_posts (s : fpage) (d1 d2 : string) (b : bool) (err : option string) :
  freachable s -> fp_emailjs s = false -> (validate (fp_form s)).1.1 = true ->
  exists s2 s3,
    exec_all [FSubmit d1; FSubmit d2] s = Some s2 /\
    fp_outbox s2 = fp_outbox s ++
      [SentAjax "send_email.php" (ajax_data (fp_form s) (emailSubject (fp_form s)) (createEmailTableContent d1 (fp_form s)));
       SentAjax "send_email.php" (ajax_data (fp_form s) (emailSubject (fp_form s)) (createEmailTableContent d2 (fp_form s)))] /\
    exec (FAjaxSuccess (fp_next_req s) (JStr (json_encode (spec_reply b err)))) s2 = Some s3 /\
    fp_loader s3 = false /\ (S (fp_next_req s), ReqAjax (fp_now s)) ∈ fp_requests s3.
Proof.
  intros Hr He Hv.
  rewrite (exec_all_cons _ _ _ _ (exec_submit_valid d1 s Hv)), exec_all_one, run_sendEmail.
  cbn [fp_emailjs set_loader]. rewrite He, run_fallback, exec_submit_valid by exact Hv.
  rewrite run_sendEmail. cbn [fp_emailjs set_loader set_outbox set_requests]. rewrite He, run_fallback.
  match goal with |- exists s2 s3, Some ?p = Some s2 /\ _ =>
    exists p; destruct (answer_reply (fp_next_req s) (fp_now s) p
      (set_requests (fp_requests s ++ [(S (fp_next_req s), ReqAjax (fp_now s))]) (fp_next_req p) p) b err)
      as (s3 & Hx & _ & Hq & Hl & _) end;
    [apply take_request_mid; [cbn; now rewrite <- app_assoc | apply (req_inv_fresh s _ (freachable_req_inv s Hr)); lia]
    | cbn; unfold ajax_timeout; lia |].
  exists s3. split; [reflexivity|]. split; [cbn; now rewrite <- app_assoc|].
  split; [exact Hx|]. split; [exact Hl|]. rewrite Hq. cbn. apply list_elem_of_In, in_or_app. right. now left.
Qed.

(** Jane Doe's form, posted from the fresh page; the server answers
    [{"success":false,"error":"SMTP unavailable"}]. *)
Lemma delivery_end_to_end_witness :
  freachable (initial_fpage jane false) /\ fp_emailjs (initial_fpage jane false) = false /\
  (validate (fp_form (initial_fpage jane false))).1.1 = true /\
  exists s2,
    exec_all [FSubmit "today"; FAjaxSuccess 0 (JStr (json_encode (spec_reply false (Some "SMTP unavailable"))))]
      (initial_fpage jane false) = Some s2 /\
    fp_outbox s2 = [SentAjax "send_email.php" (ajax_data jane (emailSubject jane) (createEmailTableContent "today" jane))] /\
    reply_outcome false (Some "SMTP unavailable") (initial_fpage jane false) s2.
Proof.
  assert (Hv : (validate (fp_form (initial_fpage jane false))).1.1 = true) by reflexivity.
  split; [apply freach_init|]. split; [reflexivity|]. split; [exact Hv|].
  exact (delivery_end_to_end (initial_fpage jane false) "today" false (Some "SMTP unavailable")
           (freach_init jane false) eq_refl Hv).
Defined.

(** Jane Doe's form with EmailJS loaded; EmailJS rejects, the server
    answers [{"success":true}]. *)
Lemma delivery_after_rejection_witness :
  freachable (initial_fpage jane true) /\ fp_emailjs (initial_fpage jane true) = true /\
  (validate (fp_form (initial_fpage jane true))).1.1 = true /\
  exists s2,
    exec_all [FSubmit "today"; FEmailJsRejected 0; FAjaxSuccess 1 (JStr (json_encode (spec_reply true None)))]
      (initial_fpage jane true) = Some s2 /\
    fp_outbox s2 =
      [SentEmailJs "YOUR_SERVICE_ID" "YOUR_TEMPLATE_ID"
         (emailjs_params jane (emailSubject jane) (createEmailTableContent "today" jane));
       SentAjax "send_email.php" (ajax_data jane (emailSubject jane) (createEmailTableContent "today" jane))] /\
    reply_outcome true None (initial_fpage jane true) s2.
Proof.
  assert (Hv : (validate (fp_form (initial_fpage jane true))).1.1 = true) by reflexivity.
  split; [apply freach_init|]. split; [reflexivity|]. split; [exact Hv|].
  exact (delivery_after_rejection (initial_fpage jane true) "today" true None
           (freach_init jane true) eq_refl Hv).
Defined.

(** Jane Doe's form submitted twice from the fresh page; the first POST
    is answered with [{"success":true}]. *)
Lemma double_submit_two_posts_witness :
  freachable (initial_fpage jane false) /\ fp_emailjs (initial_fpage jane false) = false /\
  (validate (fp_form (initial_fpage jane false))).1.1 = true /\
  exists s2 s3,
    exec_all [FSubmit "today"; FSubmit "today"] (initial_fpage jane false) = Some s2 /\
    fp_outbox s2 =
      [SentAjax "send_email.php" (ajax_data jane (emailSubject jane) (createEmailTableContent "today" jane));
       SentAjax "send_email.php" (ajax_data jane (emailSubject jane) (createEmailTableContent "today" jane))] /\
    exec (FAjaxSuccess 0 (JStr (json_encode (spec_reply true None)))) s2 = Some s3 /\
    fp_loader s3 = false /\ (1, ReqAjax 0) ∈ fp_requests s3.
Proof.
  assert (Hv : (validate (fp_form (initial_fpage jane false))).1.1 = true) by reflexivity.
  split; [apply freach_init|]. split; [reflexivity|]. split; [exact Hv|].
  exact (double_submit_two_posts (initial_fpage jane false) "today" "today" true None
           (freach_init jane false) eq_refl Hv).
Defined.

End Delivery.
